(** * infoutils: the information-extraction layer of cpuinfo, meminfo,
      diskls and osinfo

    A shallow embedding of the probes of the four tools
    (src/cpuinfo/cpuinfo.cpp, src/meminfo/meminfo.cpp, src/diskls/diskls.cpp,
    src/osinfo/osinfo.cpp) and of their argument loops.

    Conventions of the embedding:
    - a pseudo-file is the text it holds ([string]); a file that cannot be
      opened is [None] where the code tests [is_open], and the empty text
      where it does not (a failed [std::ifstream] yields no line);
    - [unsigned long] and [unsigned long long] are [Z] reduced modulo 2^64
      at every operation; [int] results of [std::stoi] are range-checked as
      the library does; [int] counters that are only incremented are [Z]
      (signed overflow has no defined behaviour in C++);
    - a thrown [std::exception] is the [Throw] outcome of [result];
    - a [double] holding a quotient is modelled by the exact rational, with
      the two IEEE results of a division by zero kept apart ([DNaN],
      [DInf]); rounding to binary64 is not modelled. *)

From Stdlib Require Import ZArith QArith String Ascii List Lia Bool DecimalString.
From stdpp Require Import gmap strings list.

Import ListNotations.
Local Open Scope string_scope.
Local Open Scope Z_scope.

(** ** The parts of the C++ library the probes use *)

Module Std.

(** Exceptions of <stdexcept> raised by [std::stoi], [std::stod] and
    [std::string::substr]. *)
Inductive exn := invalid_argument | out_of_range.

Inductive result (A : Type) :=
| Ok (a : A)
| Throw (e : exn).
Arguments Ok {A} a.
Arguments Throw {A} e.

Definition bind {A B} (r : result A) (k : A -> result B) : result B :=
  match r with
  | Ok a => k a
  | Throw e => Throw e
  end.

(** [double], as far as the probes compute with it. *)
Inductive double :=
| DNaN
| DInf
| DFin (q : Q).

Definition ULONG_MAX : Z := 2 ^ 64 - 1.
Definition INT_MAX : Z := 2 ^ 31 - 1.
Definition INT_MIN : Z := - 2 ^ 31.

(** Arithmetic of [unsigned long] and [unsigned long long] (both 64 bits on
    the LP64 targets of the tools). *)
Definition wrap64 (z : Z) : Z := z mod 2 ^ 64.
Definition uadd (a b : Z) : Z := wrap64 (a + b).
Definition usub (a b : Z) : Z := wrap64 (a - b).
Definition umul (a b : Z) : Z := wrap64 (a * b).

(** [(double)a / b] for unsigned [a], [b]. *)
Definition ddiv (a b : Z) : double :=
  if b =? 0 then (if a =? 0 then DNaN else DInf)
  else DFin (inject_Z a / inject_Z b)%Q.

Definition dmul (d : double) (k : Q) : double :=
  match d with
  | DFin q => DFin (q * k)%Q
  | other => other
  end.

(** A percentage "in [0, 100]". *)
Definition percent_in_range (d : double) : Prop :=
  match d with
  | DFin q => (0 <= q /\ q <= 100)%Q
  | _ => False
  end.

(** *** Characters *)

Definition isspace (c : ascii) : bool :=
  let n := nat_of_ascii c in
  (n =? 32)%nat || ((9 <=? n)%nat && (n <=? 13)%nat).

Definition isdigit (c : ascii) : bool :=
  let n := nat_of_ascii c in
  (48 <=? n)%nat && (n <=? 57)%nat.

Definition digit_value (c : ascii) : Z := Z.of_nat (nat_of_ascii c) - 48.

(** *** std::string *)

Fixpoint mem_char (c : ascii) (set : string) : bool :=
  match set with
  | EmptyString => false
  | String d set' => Ascii.eqb c d || mem_char c set'
  end.

(** [s.find(c)]: index of the first [c], [None] for [npos]. *)
Fixpoint find_char (c : ascii) (s : string) : option nat :=
  match s with
  | EmptyString => None
  | String d s' =>
      if Ascii.eqb c d then Some 0%nat
      else option_map S (find_char c s')
  end.

(** [s.find_first_not_of(set)]. *)
Fixpoint find_first_not_of (set : string) (s : string) : option nat :=
  match s with
  | EmptyString => None
  | String d s' =>
      if mem_char d set then option_map S (find_first_not_of set s')
      else Some 0%nat
  end.

(** [s.find_last_not_of(set)]. *)
Fixpoint find_last_not_of (set : string) (s : string) : option nat :=
  match s with
  | EmptyString => None
  | String d s' =>
      match find_last_not_of set s' with
      | Some i => Some (S i)
      | None => if mem_char d set then None else Some 0%nat
      end
  end.

Fixpoint take (n : nat) (s : string) : string :=
  match n, s with
  | O, _ => EmptyString
  | S n', String c s' => String c (take n' s')
  | S _, EmptyString => EmptyString
  end.

Fixpoint drop (n : nat) (s : string) : string :=
  match n, s with
  | O, _ => s
  | S n', String _ s' => drop n' s'
  | S _, EmptyString => EmptyString
  end.

(** [s.substr(pos)]: throws [std::out_of_range] when [pos > size()],
    otherwise the characters from [pos] on. *)
Definition substr_from (s : string) (pos : nat) : result string :=
  if (String.length s <? pos)%nat then Throw out_of_range
  else Ok (drop pos s).

(** [s.find(p) == 0]: [p] is a prefix of [s]. *)
Fixpoint starts_with (p s : string) : bool :=
  match p, s with
  | EmptyString, _ => true
  | String a p', String b s' => Ascii.eqb a b && starts_with p' s'
  | String _ _, EmptyString => false
  end.

Definition empty (s : string) : bool :=
  match s with EmptyString => true | _ => false end.

(** [s.front()] and [s.back()]: the precondition [!s.empty()] is the
    [None] case. *)
Definition front (s : string) : option ascii :=
  match s with
  | EmptyString => None
  | String c _ => Some c
  end.

Fixpoint back (s : string) : option ascii :=
  match s with
  | EmptyString => None
  | String c EmptyString => Some c
  | String _ s' => back s'
  end.

Fixpoint all_of (p : ascii -> bool) (s : string) : bool :=
  match s with
  | EmptyString => true
  | String c s' => p c && all_of p s'
  end.

(** [std::replace(s.begin(), s.end(), a, b)]. *)
Fixpoint replace (a b : ascii) (s : string) : string :=
  match s with
  | EmptyString => EmptyString
  | String c s' => String (if Ascii.eqb c a then b else c) (replace a b s')
  end.

(** *** Reading lines

    [getlines text] is the sequence of lines that the loop
    [while (std::getline(file, line))] sees: the text is cut at every
    newline, and a last piece without newline is a line when it is not
    empty. *)
Fixpoint getlines_aux (cur : string) (text : string) : list string :=
  match text with
  | EmptyString =>
      match cur with
      | EmptyString => []
      | _ => [cur]
      end
  | String c text' =>
      if Ascii.eqb c "010"%char then cur :: getlines_aux EmptyString text'
      else getlines_aux (cur ++ String c EmptyString) text'
  end.

Definition getlines (text : string) : list string :=
  getlines_aux EmptyString text.

(** One [std::getline(file, line)] on a freshly opened file: the first line,
    and nothing when the file is empty. *)
Definition getline_first (text : string) : option string :=
  match getlines text with
  | [] => None
  | l :: _ => Some l
  end.

(** *** Number scanning shared by [strtol] and [num_get] *)

Fixpoint skipws (s : string) : string :=
  match s with
  | String c s' => if isspace c then skipws s' else s
  | EmptyString => EmptyString
  end.

(** The longest run of decimal digits at the head of [s]: their value (from
    the accumulator [acc]), how many there are, and the rest. *)
Fixpoint scan_digits (acc : Z) (s : string) : Z * nat * string :=
  match s with
  | String c s' =>
      if isdigit c then
        let '(v, n, rest) := scan_digits (acc * 10 + digit_value c) s' in
        (v, S n, rest)
      else (acc, O, s)
  | EmptyString => (acc, O, EmptyString)
  end.

(** An optional sign: [true] for "-". *)
Definition scan_sign (s : string) : bool * string :=
  match s with
  | String "-"%char s' => (true, s')
  | String "+"%char s' => (false, s')
  | _ => (false, s)
  end.

(** [std::stoi(s)]: leading white space is skipped, then an optional sign
    and decimal digits are converted and what follows is ignored;
    [std::invalid_argument] when there is no digit, [std::out_of_range] when
    the value does not fit an [int]. *)
Definition stoi (s : string) : result Z :=
  let '(neg, s1) := scan_sign (skipws s) in
  let '(v, n, _) := scan_digits 0 s1 in
  match n with
  | O => Throw invalid_argument
  | _ =>
      let z := if neg then - v else v in
      if (z <? INT_MIN) || (INT_MAX <? z) then Throw out_of_range
      else Ok z
  end.

(** *** std::istringstream / std::ifstream, formatted extraction

    A stream is the text still to read and its fail bit.  Each extractor
    takes the variable's previous value and returns its new value with the
    stream, as [is >> x] does through the reference. *)
Record istream := { buf : string; failed : bool }.

Definition open (text : string) : istream := {| buf := text; failed := false |}.

Fixpoint span_word (s : string) : string * string :=
  match s with
  | String c s' =>
      if isspace c then (EmptyString, s)
      else let '(w, rest) := span_word s' in (String c w, rest)
  | EmptyString => (EmptyString, EmptyString)
  end.

(** [is >> str]: nothing happens on a failed stream; otherwise white space
    is skipped, and with nothing left the stream fails and [str] is kept;
    otherwise [str] becomes the next word. *)
Definition get_word (old : string) (ins : istream) : string * istream :=
  if failed ins then (old, ins)
  else
    match skipws (buf ins) with
    | EmptyString => (old, {| buf := EmptyString; failed := true |})
    | s =>
        let '(w, rest) := span_word s in
        (w, {| buf := rest; failed := false |})
    end.

(** [is >> n] for an unsigned [n] of [w] bits (libstdc++ [num_get]): a sign
    is accepted and "-" negates modulo 2^w; no digit stores 0 and fails; a
    magnitude above the maximum stores the maximum and fails. *)
Definition get_unsigned_bits (w : Z) (old : Z) (ins : istream) : Z * istream :=
  if failed ins then (old, ins)
  else
    match skipws (buf ins) with
    | EmptyString => (old, {| buf := EmptyString; failed := true |})
    | s =>
        let '(neg, s1) := scan_sign s in
        let '(v, n, rest) := scan_digits 0 s1 in
        match n with
        | O => (0, {| buf := rest; failed := true |})
        | _ =>
            if 2 ^ w - 1 <? v then (2 ^ w - 1, {| buf := rest; failed := true |})
            else ((if neg then (- v) mod 2 ^ w else v),
                  {| buf := rest; failed := false |})
        end
    end.

(** [unsigned long] and [unsigned long long]. *)
Definition get_unsigned : Z -> istream -> Z * istream := get_unsigned_bits 64.

(** [unsigned int]. *)
Definition get_uint : Z -> istream -> Z * istream := get_unsigned_bits 32.

(** [is >> n] for an [int] [n]: out of range stores the nearest bound and
    fails. *)
Definition get_int (old : Z) (ins : istream) : Z * istream :=
  if failed ins then (old, ins)
  else
    match skipws (buf ins) with
    | EmptyString => (old, {| buf := EmptyString; failed := true |})
    | s =>
        let '(neg, s1) := scan_sign s in
        let '(v, n, rest) := scan_digits 0 s1 in
        match n with
        | O => (0, {| buf := rest; failed := true |})
        | _ =>
            let z := if neg then - v else v in
            if z <? INT_MIN then (INT_MIN, {| buf := rest; failed := true |})
            else if INT_MAX <? z then (INT_MAX, {| buf := rest; failed := true |})
            else (z, {| buf := rest; failed := false |})
        end
    end.

(** *** Shapes of the pieces of a line, used to state what the extractors
    read *)

Definition nl : string := String "010"%char EmptyString.
Definition tab : string := String "009"%char EmptyString.

(** A non-empty text without white space. *)
Definition is_word (w : string) : Prop :=
  w <> EmptyString /\ all_of (fun c => negb (isspace c)) w = true.

(** A non-empty run of white space. *)
Definition is_blank (s : string) : Prop :=
  s <> EmptyString /\ all_of isspace s = true.

(** A non-empty run of decimal digits. *)
Definition is_digits (d : string) : Prop :=
  d <> EmptyString /\ all_of isdigit d = true.

(** A text that does not go on with a digit. *)
Definition no_digit_ahead (s : string) : Prop :=
  match s with
  | EmptyString => True
  | String c _ => isdigit c = false
  end.

(** The number that a run of digits denotes. *)
Definition number (digits : string) : Z := fst (fst (scan_digits 0 digits)).

End Std.

(** ** cpuinfo: the cpu-identity probe (CpuInfoUtil::getCpuInfo) *)

Module CpuInfo.
Import Std.

(** [struct CpuInfo]; the members [core_id], [architecture], [byte_order]
    and [virtualization] are never written by the tool and are left out. *)
Record CpuInfo := mkCpuInfo {
  model_name : string;
  vendor_id : string;
  cpu_family : string;
  model : string;
  stepping : string;
  microcode : string;
  cache_size : string;
  flags : list string;
  cpu_mhz : double;
  physical_cores : Z;
  logical_cores : Z;
  siblings : Z
}.

Definition default_info : CpuInfo :=
  mkCpuInfo "" "" "" "" "" "" "" [] (DFin 0) 0 0 0.

Definition set_model_name v i := mkCpuInfo v (vendor_id i) (cpu_family i) (model i) (stepping i) (microcode i) (cache_size i) (flags i) (cpu_mhz i) (physical_cores i) (logical_cores i) (siblings i).
Definition set_vendor_id v i := mkCpuInfo (model_name i) v (cpu_family i) (model i) (stepping i) (microcode i) (cache_size i) (flags i) (cpu_mhz i) (physical_cores i) (logical_cores i) (siblings i).
Definition set_cpu_family v i := mkCpuInfo (model_name i) (vendor_id i) v (model i) (stepping i) (microcode i) (cache_size i) (flags i) (cpu_mhz i) (physical_cores i) (logical_cores i) (siblings i).
Definition set_model v i := mkCpuInfo (model_name i) (vendor_id i) (cpu_family i) v (stepping i) (microcode i) (cache_size i) (flags i) (cpu_mhz i) (physical_cores i) (logical_cores i) (siblings i).
Definition set_stepping v i := mkCpuInfo (model_name i) (vendor_id i) (cpu_family i) (model i) v (microcode i) (cache_size i) (flags i) (cpu_mhz i) (physical_cores i) (logical_cores i) (siblings i).
Definition set_microcode v i := mkCpuInfo (model_name i) (vendor_id i) (cpu_family i) (model i) (stepping i) v (cache_size i) (flags i) (cpu_mhz i) (physical_cores i) (logical_cores i) (siblings i).
Definition set_cache_size v i := mkCpuInfo (model_name i) (vendor_id i) (cpu_family i) (model i) (stepping i) (microcode i) v (flags i) (cpu_mhz i) (physical_cores i) (logical_cores i) (siblings i).
Definition set_flags v i := mkCpuInfo (model_name i) (vendor_id i) (cpu_family i) (model i) (stepping i) (microcode i) (cache_size i) v (cpu_mhz i) (physical_cores i) (logical_cores i) (siblings i).
Definition set_cpu_mhz v i := mkCpuInfo (model_name i) (vendor_id i) (cpu_family i) (model i) (stepping i) (microcode i) (cache_size i) (flags i) v (physical_cores i) (logical_cores i) (siblings i).
Definition set_physical_cores v i := mkCpuInfo (model_name i) (vendor_id i) (cpu_family i) (model i) (stepping i) (microcode i) (cache_size i) (flags i) (cpu_mhz i) v (logical_cores i) (siblings i).
Definition set_logical_cores v i := mkCpuInfo (model_name i) (vendor_id i) (cpu_family i) (model i) (stepping i) (microcode i) (cache_size i) (flags i) (cpu_mhz i) (physical_cores i) v (siblings i).
Definition set_siblings v i := mkCpuInfo (model_name i) (vendor_id i) (cpu_family i) (model i) (stepping i) (microcode i) (cache_size i) (flags i) (cpu_mhz i) (physical_cores i) (logical_cores i) v.

(** The set of characters [" \t"]. *)
Definition blanks : string := String " "%char (String "009"%char EmptyString).

(** [key.erase(key.find_last_not_of(" \t") + 1)]: everything after the last
    non-blank goes; with no such character [npos + 1] is 0 and the key
    becomes empty. *)
Definition trim_key (key : string) : string :=
  match find_last_not_of blanks key with
  | Some i => take (S i) key
  | None => EmptyString
  end.

(** [value.erase(0, value.find_first_not_of(" \t"))]: the leading blanks go;
    with no other character the count is [npos] and the value becomes
    empty. *)
Definition trim_value (value : string) : string :=
  match find_first_not_of blanks value with
  | Some i => drop i value
  | None => EmptyString
  end.

(** The key and the value of a line: the line is cut at its first colon
    ([substr(0, colon)] and [substr(colon + 1)], both in range), and a line
    without colon is skipped. *)
Definition split_line (line : string) : option (string * string) :=
  match find_char ":"%char line with
  | None => None
  | Some colon =>
      Some (trim_key (take colon line), trim_value (drop (S colon) line))
  end.

(** The words that [while (iss >> flag)] reads from a value. *)
Fixpoint words_aux (cur : string) (s : string) : list string :=
  match s with
  | EmptyString => if empty cur then [] else [cur]
  | String c s' =>
      if isspace c then
        (if empty cur then words_aux EmptyString s'
         else cur :: words_aux EmptyString s')
      else words_aux (cur ++ String c EmptyString) s'
  end.

Definition words (s : string) : list string := words_aux EmptyString s.

(** [info.cpu_mhz == 0.0]. *)
Definition is_zero (d : double) : bool :=
  match d with
  | DFin q => Qeq_bool q 0
  | _ => false
  end.

Section Probe.

(** [std::stod]: the conversion of a decimal text to binary64 is taken as
    given. *)
Variable stod : string -> result double.

(** The state of the loop: the record and the map [core_count]. *)
Definition state : Type := CpuInfo * gmap string Z.

(** The body of the [while (std::getline(file, line))] loop. *)
Definition step (st : state) (line : string) : result state :=
  let '(info, core_count) := st in
  match split_line line with
  | None => Ok st
  | Some (key, value) =>
      if String.eqb key "model name" && empty (model_name info) then
        Ok (set_model_name value info, core_count)
      else if String.eqb key "vendor_id" && empty (vendor_id info) then
        Ok (set_vendor_id value info, core_count)
      else if String.eqb key "cpu family" && empty (cpu_family info) then
        Ok (set_cpu_family value info, core_count)
      else if String.eqb key "model" && empty (model info) then
        Ok (set_model value info, core_count)
      else if String.eqb key "stepping" && empty (stepping info) then
        Ok (set_stepping value info, core_count)
      else if String.eqb key "microcode" && empty (microcode info) then
        Ok (set_microcode value info, core_count)
      else if String.eqb key "cache size" && empty (cache_size info) then
        Ok (set_cache_size value info, core_count)
      else if String.eqb key "cpu MHz" && is_zero (cpu_mhz info) then
        bind (stod value) (fun d => Ok (set_cpu_mhz d info, core_count))
      else if String.eqb key "siblings" then
        bind (stoi value) (fun n => Ok (set_siblings n info, core_count))
      else if String.eqb key "core id" then
        Ok (info, <[value := default 0 (core_count !! value) + 1]> core_count)
      else if String.eqb key "processor" then
        Ok (set_logical_cores (logical_cores info + 1) info, core_count)
      else if String.eqb key "flags" && bool_decide (flags info = []) then
        Ok (set_flags (words value) info, core_count)
      else Ok st
  end.

Fixpoint loop (st : state) (lines : list string) : result state :=
  match lines with
  | [] => Ok st
  | line :: rest => bind (step st line) (fun st' => loop st' rest)
  end.

(** What follows the loop: [physical_cores = core_count.size()], replaced by
    the logical count when it is 0. *)
Definition finish (st : state) : CpuInfo :=
  let '(info, core_count) := st in
  let info := set_physical_cores (Z.of_nat (size core_count)) info in
  if physical_cores info =? 0
  then set_physical_cores (logical_cores info) info
  else info.

(** [CpuInfoUtil::getCpuInfo], on the text of /proc/cpuinfo. *)
Definition getCpuInfo (text : string) : result CpuInfo :=
  bind (loop (default_info, ∅) (getlines text)) (fun st => Ok (finish st)).

(** [main]'s exit status when no argument is given: [run] starts with
    [printGeneralInfo], which calls the probe; an exception reaches the
    handler of [main], which returns 1. *)
Definition main_status (text : string) : Z :=
  match getCpuInfo text with
  | Ok _ => 0
  | Throw _ => 1
  end.

End Probe.

(** An instance of the parameter [stod] to run the probe on examples.  It
    converts plain decimal texts only (white space, a sign, digits and a
    fraction) and is not the whole of [std::stod], which also reads an
    exponent, hexadecimal digits, "inf" and "nan" and reports range errors;
    the examples hold none of these, and the theorems are proved for every
    [stod]. *)
Definition stod_decimal (s : string) : result double :=
  let '(neg, s1) := scan_sign (skipws s) in
  let '(ip, n, rest) := scan_digits 0 s1 in
  let '(num, m, den) :=
    match rest with
    | String "."%char frac =>
        let '(v, k, _) := scan_digits ip frac in (v, k, 10 ^ Z.of_nat k)
    | _ => (ip, O, 1)
    end in
  match (n + m)%nat with
  | O => Throw invalid_argument
  | _ =>
      let q := (inject_Z num / inject_Z den)%Q in
      Ok (DFin (if neg then - q else q)%Q)
  end.

(** The value that a line gives to the key [k], if it carries that key. *)
Definition value_at (k : string) (line : string) : option string :=
  match split_line line with
  | Some (key, value) => if String.eqb key k then Some value else None
  | None => None
  end.

(** The values of the key [k] in a file, in order of appearance. *)
Fixpoint values_in (k : string) (lines : list string) : list string :=
  match lines with
  | [] => []
  | line :: rest =>
      match value_at k line with
      | Some value => value :: values_in k rest
      | None => values_in k rest
      end
  end.

Definition values_of (k : string) (text : string) : list string :=
  values_in k (getlines text).

(** *** Fixtures *)

(** The cpuinfo base scenario: two processors on one core. *)
Definition two_threads : string :=
  ("processor" ++ tab ++ ": 0" ++ nl ++ "model name" ++ tab ++ ": Example CPU" ++ nl
   ++ "siblings" ++ tab ++ ": 2" ++ nl ++ "core id" ++ tab ++ tab ++ ": 0" ++ nl ++ nl
   ++ "processor" ++ tab ++ ": 1" ++ nl ++ "model name" ++ tab ++ ": Example CPU" ++ nl
   ++ "siblings" ++ tab ++ ": 2" ++ nl ++ "core id" ++ tab ++ tab ++ ": 0" ++ nl)%string.

Definition two_threads_info : CpuInfo :=
  mkCpuInfo "Example CPU" "" "" "" "" "" "" [] (DFin 0) 1 2 2.

(** Two [siblings] keys with differing values. *)
Definition two_siblings : string :=
  ("siblings" ++ tab ++ ": 4" ++ nl ++ "siblings" ++ tab ++ ": 8" ++ nl)%string.

Definition two_siblings_info : CpuInfo :=
  mkCpuInfo "" "" "" "" "" "" "" [] (DFin 0) 0 0 8.

(** A [siblings] value that is not a number, between two well-formed
    lines. *)
Definition bad_siblings : string :=
  ("model name" ++ tab ++ ": Example CPU" ++ nl ++ "siblings" ++ tab ++ ": abc" ++ nl
   ++ "processor" ++ tab ++ ": 0" ++ nl)%string.

(** A [cpu MHz] value that is not a number. *)
Definition bad_mhz : string :=
  ("cpu MHz" ++ tab ++ tab ++ ": unknown" ++ nl ++ "processor" ++ tab ++ ": 0" ++ nl)%string.

End CpuInfo.

(** ** cpuinfo: the cpu-load probe (CpuInfoUtil::getCpuLoad) *)

Module CpuLoad.
Import Std.

(** [struct CpuLoad], without the three load averages (read from
    /proc/loadavg as floating-point numbers, and independent of the rest). *)
Record CpuLoad := mkCpuLoad {
  cpu_usage : double;
  user : Z;
  nice : Z;
  system : Z;
  idle : Z;
  iowait : Z;
  irq : Z;
  softirq : Z
}.

Definition total_of (l : CpuLoad) : Z :=
  uadd (uadd (uadd (uadd (uadd (uadd (user l) (nice l)) (system l)) (idle l))
                   (iowait l)) (irq l)) (softirq l).

Definition used_of (l : CpuLoad) : Z :=
  usub (usub (total_of l) (idle l)) (iowait l).

(** [if (total > 0) load.cpu_usage = (double)used / total * 100.0;]
    otherwise the member keeps its initial 0.0. *)
Definition usage (used total : Z) : double :=
  if 0 <? total then dmul (ddiv used total) 100 else DFin 0.

(** The part of [getCpuLoad] that reads /proc/stat: [None] is a file that
    cannot be opened.  The first line is read, one word and seven counters
    are extracted from it (an extraction that fails stops the following
    ones), and the usage is computed. *)
Definition getCpuLoad (stat : option string) : CpuLoad :=
  let load := mkCpuLoad (DFin 0) 0 0 0 0 0 0 0 in
  match stat with
  | None => load
  | Some text =>
      match getline_first text with
      | None => load
      | Some line =>
          let iss := open line in
          let '(cpu, iss) := get_word "" iss in
          let '(user, iss) := get_unsigned 0 iss in
          let '(nice, iss) := get_unsigned 0 iss in
          let '(system, iss) := get_unsigned 0 iss in
          let '(idle, iss) := get_unsigned 0 iss in
          let '(iowait, iss) := get_unsigned 0 iss in
          let '(irq, iss) := get_unsigned 0 iss in
          let '(softirq, iss) := get_unsigned 0 iss in
          let load := mkCpuLoad (DFin 0) user nice system idle iowait irq softirq in
          mkCpuLoad (usage (used_of load) (total_of load))
                    user nice system idle iowait irq softirq
      end
  end.

End CpuLoad.

(** ** meminfo: the memory-summary and per-process probes *)

Module MemInfo.
Import Std.

(** [struct MemoryInfo]. *)
Record MemoryInfo := mkMemoryInfo {
  total_kb : Z;
  available_kb : Z;
  free_kb : Z;
  buffers_kb : Z;
  cached_kb : Z;
  swap_total_kb : Z;
  swap_free_kb : Z;
  swap_cached_kb : Z;
  shmem_kb : Z;
  sreclaimable_kb : Z;
  sunreclaim_kb : Z
}.

Definition default_info : MemoryInfo := mkMemoryInfo 0 0 0 0 0 0 0 0 0 0 0.

Definition set_total_kb v i := mkMemoryInfo v (available_kb i) (free_kb i) (buffers_kb i) (cached_kb i) (swap_total_kb i) (swap_free_kb i) (swap_cached_kb i) (shmem_kb i) (sreclaimable_kb i) (sunreclaim_kb i).
Definition set_available_kb v i := mkMemoryInfo (total_kb i) v (free_kb i) (buffers_kb i) (cached_kb i) (swap_total_kb i) (swap_free_kb i) (swap_cached_kb i) (shmem_kb i) (sreclaimable_kb i) (sunreclaim_kb i).
Definition set_free_kb v i := mkMemoryInfo (total_kb i) (available_kb i) v (buffers_kb i) (cached_kb i) (swap_total_kb i) (swap_free_kb i) (swap_cached_kb i) (shmem_kb i) (sreclaimable_kb i) (sunreclaim_kb i).
Definition set_buffers_kb v i := mkMemoryInfo (total_kb i) (available_kb i) (free_kb i) v (cached_kb i) (swap_total_kb i) (swap_free_kb i) (swap_cached_kb i) (shmem_kb i) (sreclaimable_kb i) (sunreclaim_kb i).
Definition set_cached_kb v i := mkMemoryInfo (total_kb i) (available_kb i) (free_kb i) (buffers_kb i) v (swap_total_kb i) (swap_free_kb i) (swap_cached_kb i) (shmem_kb i) (sreclaimable_kb i) (sunreclaim_kb i).
Definition set_swap_total_kb v i := mkMemoryInfo (total_kb i) (available_kb i) (free_kb i) (buffers_kb i) (cached_kb i) v (swap_free_kb i) (swap_cached_kb i) (shmem_kb i) (sreclaimable_kb i) (sunreclaim_kb i).
Definition set_swap_free_kb v i := mkMemoryInfo (total_kb i) (available_kb i) (free_kb i) (buffers_kb i) (cached_kb i) (swap_total_kb i) v (swap_cached_kb i) (shmem_kb i) (sreclaimable_kb i) (sunreclaim_kb i).
Definition set_swap_cached_kb v i := mkMemoryInfo (total_kb i) (available_kb i) (free_kb i) (buffers_kb i) (cached_kb i) (swap_total_kb i) (swap_free_kb i) v (shmem_kb i) (sreclaimable_kb i) (sunreclaim_kb i).
Definition set_shmem_kb v i := mkMemoryInfo (total_kb i) (available_kb i) (free_kb i) (buffers_kb i) (cached_kb i) (swap_total_kb i) (swap_free_kb i) (swap_cached_kb i) v (sreclaimable_kb i) (sunreclaim_kb i).
Definition set_sreclaimable_kb v i := mkMemoryInfo (total_kb i) (available_kb i) (free_kb i) (buffers_kb i) (cached_kb i) (swap_total_kb i) (swap_free_kb i) (swap_cached_kb i) (shmem_kb i) v (sunreclaim_kb i).
Definition set_sunreclaim_kb v i := mkMemoryInfo (total_kb i) (available_kb i) (free_kb i) (buffers_kb i) (cached_kb i) (swap_total_kb i) (swap_free_kb i) (swap_cached_kb i) (shmem_kb i) (sreclaimable_kb i) v.

(** The chain of comparisons that chooses the slot of a key. *)
Definition store (key : string) (value : Z) (info : MemoryInfo) : MemoryInfo :=
  if String.eqb key "MemTotal:" then set_total_kb value info
  else if String.eqb key "MemAvailable:" then set_available_kb value info
  else if String.eqb key "MemFree:" then set_free_kb value info
  else if String.eqb key "Buffers:" then set_buffers_kb value info
  else if String.eqb key "Cached:" then set_cached_kb value info
  else if String.eqb key "SwapTotal:" then set_swap_total_kb value info
  else if String.eqb key "SwapFree:" then set_swap_free_kb value info
  else if String.eqb key "SwapCached:" then set_swap_cached_kb value info
  else if String.eqb key "Shmem:" then set_shmem_kb value info
  else if String.eqb key "SReclaimable:" then set_sreclaimable_kb value info
  else if String.eqb key "SUnreclaim:" then set_sunreclaim_kb value info
  else info.

(** The body of the loop of [getMemoryInfo]: [if (iss >> key >> value)]
    and the chain.  [value] is read only when both extractions succeed, so
    its value before the extraction does not matter. *)
Definition step (info : MemoryInfo) (line : string) : MemoryInfo :=
  let iss := open line in
  let '(key, iss) := get_word "" iss in
  let '(value, iss) := get_unsigned 0 iss in
  if failed iss then info else store key value info.

(** [MemInfoUtil::getMemoryInfo], on the text of /proc/meminfo. *)
Definition getMemoryInfo (text : string) : MemoryInfo :=
  fold_left step (getlines text) default_info.

(** [printGeneralInfo]: the two values computed before anything is
    printed. *)
Definition used_kb (info : MemoryInfo) : Z :=
  usub (total_kb info) (available_kb info).

Definition used_percentage (info : MemoryInfo) : double :=
  dmul (ddiv (used_kb info) (total_kb info)) 100.

(** The swap section computes its percentage under
    [if (info.swap_total_kb > 0)]. *)
Definition swap_used_percentage (info : MemoryInfo) : option double :=
  if 0 <? swap_total_kb info
  then Some (dmul (ddiv (usub (swap_total_kb info) (swap_free_kb info))
                        (swap_total_kb info)) 100)
  else None.

(** [struct ProcessInfo]. *)
Record ProcessInfo := mkProcessInfo {
  pid : Z;
  name : string;
  memory_kb : Z;
  cmd : string
}.

(** An entry of /proc as the probe sees it: its name, whether it is a
    directory, and the texts of its status and cmdline files ([None] when
    the file cannot be opened). *)
Record proc_entry := mkProcEntry {
  dirname : string;
  is_directory : bool;
  status_file : option string;
  cmdline_file : option string
}.

(** The loop over the lines of the status file.  [line.substr(0, n)] cannot
    throw; [line.substr(6)] throws on a line shorter than 6 characters. *)
Fixpoint scan_status (name : string) (memory_kb : Z) (lines : list string)
  : result (string * Z) :=
  match lines with
  | [] => Ok (name, memory_kb)
  | line :: rest =>
      if String.eqb (take 5 line) "Name:" then
        bind (substr_from line 6) (fun n => scan_status n memory_kb rest)
      else if String.eqb (take 6 line) "VmRSS:" then
        let iss := open line in
        let '(key, iss) := get_word "" iss in
        let '(memory_kb, iss) := get_unsigned memory_kb iss in
        if failed iss then scan_status name memory_kb rest
        else Ok (name, memory_kb)
      else scan_status name memory_kb rest
  end.

(** The command line: one [std::getline], NUL bytes replaced by spaces, and
    more than 40 characters cut to 37 followed by three dots. *)
Definition read_cmd (cmdline : option string) : string :=
  match cmdline with
  | None => EmptyString
  | Some text =>
      let cmd := match getline_first text with Some l => l | None => EmptyString end in
      let cmd := replace "000"%char " "%char cmd in
      if (40 <? String.length cmd)%nat then (take 37 cmd ++ "...")%string
      else cmd
  end.

(** The body of the loop over /proc for one entry: [Ok None] is a
    [continue] or an entry that does not qualify, [Ok (Some p)] a
    [push_back], [Throw] an exception leaving the body. *)
Definition visit (e : proc_entry) : result (option ProcessInfo) :=
  if negb (is_directory e) then Ok None
  else if negb (all_of isdigit (dirname e)) then Ok None
  else
    bind (stoi (dirname e)) (fun pid =>
    match status_file e with
    | None => Ok None
    | Some status =>
        bind (scan_status "" 0 (getlines status)) (fun '(name, memory_kb) =>
        let cmd := read_cmd (cmdline_file e) in
        if negb (empty name) && (0 <? memory_kb)
        then Ok (Some (mkProcessInfo pid name memory_kb cmd))
        else Ok None)
    end).

(** The [for] loop inside [try]: an exception ends the loop and the handler
    writes the warning ([true] in the second component); the records pushed
    before stay in the vector. *)
Fixpoint collect (acc : list ProcessInfo) (entries : list proc_entry)
  : list ProcessInfo * bool :=
  match entries with
  | [] => (acc, false)
  | e :: rest =>
      match visit e with
      | Throw _ => (acc, true)
      | Ok None => collect acc rest
      | Ok (Some p) => collect (acc ++ [p]) rest
      end
  end.

(** [std::sort] with the comparison [a.memory_kb > b.memory_kb]; the order
    of records with equal sizes is not fixed by the library, an insertion
    sort is one of the orders it may produce. *)
Fixpoint insert_desc (p : ProcessInfo) (l : list ProcessInfo) : list ProcessInfo :=
  match l with
  | [] => [p]
  | q :: l' =>
      if memory_kb q <? memory_kb p then p :: l
      else q :: insert_desc p l'
  end.

Definition sort_desc (l : list ProcessInfo) : list ProcessInfo :=
  fold_right insert_desc [] l.

(** [MemInfoUtil::getTopProcesses(limit)]: the records and whether the
    warning was written. *)
Definition getTopProcesses (limit : nat) (entries : list proc_entry)
  : list ProcessInfo * bool :=
  let '(processes, warned) := collect [] entries in
  (firstn limit (sort_desc processes), warned).


(** *** Fixtures *)

Definition memtotal_other_unit : string := ("MemTotal:       8000 MB" ++ nl)%string.
Definition memtotal_no_unit : string := ("MemTotal: 8000" ++ nl)%string.

Definition memtotal_zero : string :=
  ("MemTotal:       0 kB" ++ nl ++ "MemAvailable:   0 kB" ++ nl)%string.

Definition available_above_total : string :=
  ("MemTotal:       1000 kB" ++ nl ++ "MemAvailable:   2000 kB" ++ nl)%string.

Definition init_entry : proc_entry :=
  mkProcEntry "1" true
    (Some ("Name:" ++ tab ++ "init" ++ nl ++ "VmRSS:" ++ tab ++ "    2048 kB" ++ nl)%string)
    (Some ("/sbin/init" ++ String "000"%char "splash")%string).

Definition init_record : ProcessInfo :=
  mkProcessInfo 1 "init" 2048 "/sbin/init splash".

(** A directory whose name is made of digits and exceeds [INT_MAX]. *)
Definition overflow_entry : proc_entry :=
  mkProcEntry "99999999999" true
    (Some ("Name:" ++ tab ++ "big" ++ nl ++ "VmRSS:" ++ tab ++ "     100 kB" ++ nl)%string)
    (Some "big").

(** A status file whose name line stops after the colon. *)
Definition short_name_entry : proc_entry :=
  mkProcEntry "7" true (Some ("Name:" ++ nl)%string) None.

End MemInfo.

(** ** diskls: the block-device inventory and the mount-usage probes *)

Module DiskLs.
Import Std.

(** [struct DiskInfo], without [size_human] (the size rendered by
    [formatBytes], a floating-point formatting of [size_bytes]). *)
Record DiskInfo := mkDiskInfo {
  device : string;
  model : string;
  vendor : string;
  type : string;
  size_bytes : Z;
  removable : bool;
  rotational : bool;
  scheduler : string;
  queue_depth : Z;
  partitions : list string
}.

(** A child of /sys/block as the probe sees it: its name, the texts of the
    files the probe opens under it ([None] when a file cannot be opened),
    and the names that the iteration over the child itself yields (an
    exception ending that iteration is swallowed by the inner handler). *)
Record block_entry := mkBlockEntry {
  device_name : string;
  size_file : option string;
  model_file : option string;
  vendor_file : option string;
  removable_file : option string;
  rotational_file : option string;
  scheduler_file : option string;
  nr_requests_file : option string;
  children : list string
}.

(** The set [" \t\n\r"]. *)
Definition blanks : string :=
  String " "%char (String "009"%char (String "010"%char (String "013"%char EmptyString))).

(** [std::getline(f, s); s.erase(s.find_last_not_of(" \t\n\r") + 1)]. *)
Definition read_trimmed (text : string) : string :=
  let s := match getline_first text with Some l => l | None => EmptyString end in
  match find_last_not_of blanks s with
  | Some i => take (S i) s
  | None => EmptyString
  end.

(** The text between the first "[" and the first "]" of the scheduler line:
    [substr(start + 1, end - start - 1)], whose count wraps to a huge value
    when the bracket closes before it opens. *)
Definition active_scheduler (line : string) : string :=
  match find_char "["%char line, find_char "]"%char line with
  | Some start, Some e =>
      if (start <? e)%nat then take (e - start - 1) (drop (S start) line)
      else drop (S start) line
  | _, _ => EmptyString
  end.

(** [device_name.find("loop") == 0 || device_name.find("ram") == 0]. *)
Definition skipped (name : string) : bool :=
  starts_with "loop" name || starts_with "ram" name.

Definition disk_type (name : string) (rotational : bool) : string :=
  if starts_with "nvme" name then "NVMe"
  else if negb rotational then "SSD"
  else "HDD".

Section Inventory.

(** The locals [sectors], [removable_flag] and [rotational_flag] are
    declared without initial value and read after the extraction; when the
    file holds no token they keep these indeterminate values. *)
Variable indeterminate_sectors : Z.
Variable indeterminate_flag : Z.

(** The value of [sectors] after [size_file >> sectors]. *)
Definition read_sectors (text : string) : Z :=
  fst (get_unsigned indeterminate_sectors (open text)).

Definition read_flag (text : string) : Z :=
  fst (get_int indeterminate_flag (open text)).

(** The body of the loop for an entry that is not skipped. *)
Definition disk_of (e : block_entry) : DiskInfo :=
  let name := device_name e in
  let size_bytes :=
    match size_file e with
    | Some text => umul (read_sectors text) 512
    | None => 0
    end in
  let model := match model_file e with Some t => read_trimmed t | None => EmptyString end in
  let vendor := match vendor_file e with Some t => read_trimmed t | None => EmptyString end in
  let removable :=
    match removable_file e with
    | Some t => read_flag t =? 1
    | None => false
    end in
  let rotational :=
    match rotational_file e with
    | Some t => read_flag t =? 1
    | None => true
    end in
  let scheduler :=
    match scheduler_file e with
    | Some t =>
        active_scheduler
          (match getline_first t with Some l => l | None => EmptyString end)
    | None => EmptyString
    end in
  let queue_depth :=
    match nr_requests_file e with
    | Some t => fst (get_uint 0 (open t))
    | None => 0
    end in
  let partitions :=
    map (fun p => ("/dev/" ++ p)%string)
        (List.filter (fun p => starts_with name p && negb (String.eqb p name))
                     (children e)) in
  mkDiskInfo ("/dev/" ++ name)%string model vendor (disk_type name rotational)
             size_bytes removable rotational scheduler queue_depth partitions.

(** [DiskLsUtil::getDiskInfo], on the entries that the iteration over
    /sys/block yields. *)
Fixpoint getDiskInfo (entries : list block_entry) : list DiskInfo :=
  match entries with
  | [] => []
  | e :: rest =>
      if skipped (device_name e) then getDiskInfo rest
      else disk_of e :: getDiskInfo rest
  end.

End Inventory.

(** [struct PartitionInfo]. *)
Record PartitionInfo := mkPartitionInfo {
  part_device : string;
  mountpoint : string;
  filesystem : string;
  total_bytes : Z;
  used_bytes : Z;
  available_bytes : Z;
  usage_percent : double;
  mount_options : string
}.

(** The members of [struct statvfs] that the probe reads. *)
Record statvfs_t := mkStatvfs {
  f_blocks : Z;
  f_bfree : Z;
  f_bavail : Z;
  f_frsize : Z
}.

(** The four words [iss >> device >> mountpoint >> filesystem >> options]
    of a line, when all four extractions succeed. *)
Definition parse_row (line : string) : option (string * string * string * string) :=
  let iss := open line in
  let '(device, iss) := get_word "" iss in
  let '(mountpoint, iss) := get_word "" iss in
  let '(filesystem, iss) := get_word "" iss in
  let '(options, iss) := get_word "" iss in
  if failed iss then None else Some (device, mountpoint, filesystem, options).

(** The two [continue] tests of the loop. *)
Definition special (device filesystem : string) : bool :=
  negb (starts_with "/dev/" device)
  || String.eqb filesystem "proc" || String.eqb filesystem "sysfs"
  || String.eqb filesystem "devtmpfs" || String.eqb filesystem "tmpfs".

Definition usage (used total : Z) : double :=
  if 0 <? total then dmul (ddiv used total) 100 else DFin 0.

Section Mounts.

(** The [statvfs] call: [None] when it does not return 0. *)
Variable statvfs : string -> option statvfs_t.

Definition part_of (device mountpoint filesystem options : string) : PartitionInfo :=
  match statvfs mountpoint with
  | Some st =>
      let total := umul (f_blocks st) (f_frsize st) in
      let available := umul (f_bavail st) (f_frsize st) in
      let used := umul (usub (f_blocks st) (f_bfree st)) (f_frsize st) in
      mkPartitionInfo device mountpoint filesystem total used available
                      (usage used total) options
  | None =>
      mkPartitionInfo device mountpoint filesystem 0 0 0 (DFin 0) options
  end.

(** The records that one line of the mounts file adds to the vector. *)
Definition row_records (line : string) : list PartitionInfo :=
  match parse_row line with
  | Some (device, mountpoint, filesystem, options) =>
      if special device filesystem then []
      else [part_of device mountpoint filesystem options]
  | None => []
  end.

(** [DiskLsUtil::getPartitionInfo], on the text of /proc/mounts. *)
Fixpoint getPartitionInfo_lines (lines : list string) : list PartitionInfo :=
  match lines with
  | [] => []
  | line :: rest => row_records line ++ getPartitionInfo_lines rest
  end.

Definition getPartitionInfo (text : string) : list PartitionInfo :=
  getPartitionInfo_lines (getlines text).

End Mounts.

(** The filesystem types that the probe leaves out. *)
Definition excluded : list string := ["proc"; "sysfs"; "devtmpfs"; "tmpfs"].

(** A row is kept when its device path starts with /dev/ and its filesystem
    type is not excluded. *)
Definition kept (device filesystem : string) : Prop :=
  starts_with "/dev/" device = true /\ ~ In filesystem excluded.

#[global] Instance kept_dec (device filesystem : string) :
  Decision (kept device filesystem).
Proof.
  unfold kept. apply and_dec; [apply _|].
  apply not_dec. apply (In_dec string_dec).
Defined.

(** The four words of a record: device path, mount point, filesystem type
    and options. *)
Definition row_fields (r : PartitionInfo) : string * string * string * string :=
  (part_device r, mountpoint r, filesystem r, mount_options r).

(** The rows of the mounts file that are kept, in the words of the
    specification: the lines with four words whose device path starts with
    /dev/ and whose filesystem type is not excluded, in the order of the
    file. *)
Fixpoint kept_rows (lines : list string) : list (string * string * string * string) :=
  match lines with
  | [] => []
  | line :: rest =>
      match parse_row line with
      | Some (device, mp, fs, opts) =>
          if bool_decide (kept device fs) then (device, mp, fs, opts) :: kept_rows rest
          else kept_rows rest
      | None => kept_rows rest
      end
  end.

(** *** Fixtures *)

(** The diskls inventory scenario: sda, loop0 and nvme0n1. *)
Definition sda : block_entry :=
  mkBlockEntry "sda" (Some ("2048" ++ nl)%string) (Some ("Example Disk    " ++ nl)%string)
    (Some ("ATA     " ++ nl)%string) (Some ("0" ++ nl)%string) (Some ("1" ++ nl)%string)
    (Some ("noop deadline [cfq]" ++ nl)%string) (Some ("128" ++ nl)%string)
    ["sda1"; "sda2"; "queue"; "device"].

Definition loop0 : block_entry :=
  mkBlockEntry "loop0" (Some ("0" ++ nl)%string) None None (Some ("0" ++ nl)%string)
    (Some ("1" ++ nl)%string) (Some ("[none]" ++ nl)%string) (Some ("128" ++ nl)%string) [].

Definition nvme0n1 : block_entry :=
  mkBlockEntry "nvme0n1" (Some ("4096" ++ nl)%string) (Some ("Example NVMe" ++ nl)%string)
    None (Some ("0" ++ nl)%string) (Some ("0" ++ nl)%string)
    (Some ("[none] mq-deadline" ++ nl)%string) (Some ("1023" ++ nl)%string)
    ["nvme0n1p1"; "queue"].

Definition sda_record : DiskInfo :=
  mkDiskInfo "/dev/sda" "Example Disk" "ATA" "HDD" 1048576 false true "cfq" 128
    ["/dev/sda1"; "/dev/sda2"].

(** The diskls mounts scenario. *)
Definition mounts : string :=
  ("/dev/sda1 / ext4 rw,relatime 0 0" ++ nl
   ++ "proc /proc proc rw,nosuid 0 0" ++ nl
   ++ "/dev/sdb2 /home xfs rw 0 0" ++ nl
   ++ "tmpfs /run tmpfs rw,nosuid 0 0" ++ nl)%string.

(** A [statvfs] that always fails. *)
Definition no_statvfs : string -> option statvfs_t := fun _ => None.

End DiskLs.

(** ** osinfo: the distro-identity probe (OsInfoUtil::getDistroInfo) *)

Module OsInfo.
Import Std.

(** [struct DistroInfo]. *)
Record DistroInfo := mkDistroInfo {
  name : string;
  version : string;
  id : string;
  id_like : string;
  version_codename : string;
  version_id : string;
  pretty_name : string;
  home_url : string;
  support_url : string;
  bug_report_url : string
}.

Definition default_info : DistroInfo := mkDistroInfo "" "" "" "" "" "" "" "" "" "".

Definition set_name v i := mkDistroInfo v (version i) (id i) (id_like i) (version_codename i) (version_id i) (pretty_name i) (home_url i) (support_url i) (bug_report_url i).
Definition set_version v i := mkDistroInfo (name i) v (id i) (id_like i) (version_codename i) (version_id i) (pretty_name i) (home_url i) (support_url i) (bug_report_url i).
Definition set_id v i := mkDistroInfo (name i) (version i) v (id_like i) (version_codename i) (version_id i) (pretty_name i) (home_url i) (support_url i) (bug_report_url i).
Definition set_id_like v i := mkDistroInfo (name i) (version i) (id i) v (version_codename i) (version_id i) (pretty_name i) (home_url i) (support_url i) (bug_report_url i).
Definition set_version_codename v i := mkDistroInfo (name i) (version i) (id i) (id_like i) v (version_id i) (pretty_name i) (home_url i) (support_url i) (bug_report_url i).
Definition set_version_id v i := mkDistroInfo (name i) (version i) (id i) (id_like i) (version_codename i) v (pretty_name i) (home_url i) (support_url i) (bug_report_url i).
Definition set_pretty_name v i := mkDistroInfo (name i) (version i) (id i) (id_like i) (version_codename i) (version_id i) v (home_url i) (support_url i) (bug_report_url i).
Definition set_home_url v i := mkDistroInfo (name i) (version i) (id i) (id_like i) (version_codename i) (version_id i) (pretty_name i) v (support_url i) (bug_report_url i).
Definition set_support_url v i := mkDistroInfo (name i) (version i) (id i) (id_like i) (version_codename i) (version_id i) (pretty_name i) (home_url i) v (bug_report_url i).
Definition set_bug_report_url v i := mkDistroInfo (name i) (version i) (id i) (id_like i) (version_codename i) (version_id i) (pretty_name i) (home_url i) (support_url i) v.

(** The double quote character. *)
Definition dquote : ascii := "034"%char.

(** The quote-stripping step,
    [if (value.front() == '"' && value.back() == '"')
       value = value.substr(1, value.length() - 2);]
    with character access returning an option: [None] is the access to the
    first or last character of a string that has none.  [back] is evaluated
    only when the first comparison holds.  The position 1 is in range
    whenever the test holds; on the one-character value the count
    [length() - 2] wraps and the rest of the string (nothing) is taken. *)
Definition unquote (value : string) : option string :=
  match front value with
  | None => None
  | Some f =>
      if Ascii.eqb f dquote then
        match back value with
        | None => None
        | Some b =>
            if Ascii.eqb b dquote then
              Some (if (String.length value <? 2)%nat then drop 1 value
                    else take (String.length value - 2) (drop 1 value))
            else Some value
        end
      else Some value
  end.

Definition store (key value : string) (info : DistroInfo) : DistroInfo :=
  if String.eqb key "NAME" then set_name value info
  else if String.eqb key "VERSION" then set_version value info
  else if String.eqb key "ID" then set_id value info
  else if String.eqb key "ID_LIKE" then set_id_like value info
  else if String.eqb key "VERSION_CODENAME" then set_version_codename value info
  else if String.eqb key "VERSION_ID" then set_version_id value info
  else if String.eqb key "PRETTY_NAME" then set_pretty_name value info
  else if String.eqb key "HOME_URL" then set_home_url value info
  else if String.eqb key "SUPPORT_URL" then set_support_url value info
  else if String.eqb key "BUG_REPORT_URL" then set_bug_report_url value info
  else info.

(** The body of the loop: a line without "=" is skipped; otherwise the key
    is what precedes the first "=", the value what follows it. *)
Definition step (info : DistroInfo) (line : string) : option DistroInfo :=
  match find_char "="%char line with
  | None => Some info
  | Some equals =>
      let key := take equals line in
      let value := drop (S equals) line in
      match unquote value with
      | None => None
      | Some value => Some (store key value info)
      end
  end.

Fixpoint loop (info : DistroInfo) (lines : list string) : option DistroInfo :=
  match lines with
  | [] => Some info
  | line :: rest =>
      match step info line with
      | None => None
      | Some info' => loop info' rest
      end
  end.

(** [OsInfoUtil::getDistroInfo], on the text of /etc/os-release; [None] when
    the run reaches a character access without character. *)
Definition getDistroInfo (text : string) : option DistroInfo :=
  loop default_info (getlines text).

(** *** Fixtures *)

(** The distro quoting scenario. *)
Definition os_release_quoted : string :=
  ("NAME=" ++ String dquote "Ubuntu" ++ String dquote nl
   ++ "VERSION_ID=22.04" ++ nl)%string.

(** An os-release file with a key that has no value. *)
Definition os_release_empty_value : string :=
  (os_release_quoted ++ "VERSION_CODENAME=" ++ nl)%string.

End OsInfo.

(** ** The argument loops (parseArgs of the four tools) *)

Module Cli.
Import Std.

Inductive tool := cpuinfo | meminfo | diskls | osinfo.

Definition tool_name (t : tool) : string :=
  match t with
  | cpuinfo => "cpuinfo"
  | meminfo => "meminfo"
  | diskls => "diskls"
  | osinfo => "osinfo"
  end.

(** The boolean members [show_...] of the four classes. *)
Inductive selector :=
| detailed | frequencies | load | topology
| processes | swap
| usage | mounts | types
| distro | users | environment.

(** The selectors of each tool with their long and short spellings, in the
    order of the comparisons of its [parseArgs]. *)
Definition selectors (t : tool) : list (string * string * selector) :=
  match t with
  | cpuinfo =>
      [("--detailed", "-d", detailed); ("--frequencies", "-f", frequencies);
       ("--load", "-l", load); ("--topology", "-t", topology)]
  | meminfo =>
      [("--processes", "-p", processes); ("--detailed", "-d", detailed);
       ("--swap", "-s", swap)]
  | diskls =>
      [("--detailed", "-d", detailed); ("--usage", "-u", usage);
       ("--mounts", "-m", mounts); ("--types", "-t", types)]
  | osinfo =>
      [("--detailed", "-d", detailed); ("--distro", "-r", distro);
       ("--users", "-u", users); ("--environment", "-e", environment)]
  end.

(** The members that [parseArgs] writes: the selectors that are set, and
    [use_colors]. *)
Record options := mkOptions {
  shown : list selector;
  use_colors : bool
}.

(** Namespace [Colors]. *)
Definition ESC : string := String "027"%char EmptyString.
Definition RESET : string := (ESC ++ "[0m")%string.
Definition RED : string := (ESC ++ "[31m")%string.

Definition colorize (o : options) (text color : string) : string :=
  if use_colors o then (color ++ text ++ RESET)%string else text.

Definition endl : string := String "010"%char EmptyString.

(** What a run of [parseArgs] leaves: either the loop ends and [main] goes
    on with the options, or [exit(code)] is called; [banner] tells which of
    [printHelp] and [printVersion] wrote to standard output, [err] is what
    was written to standard error. *)
Inductive banner := no_banner | help_banner | version_banner.

Inductive outcome :=
| Continue (o : options)
| Exit (code : Z) (out : banner) (err : string).

Definition lookup_selector (t : tool) (arg : string) : option selector :=
  match List.find (fun e => String.eqb arg (fst (fst e)) || String.eqb arg (snd (fst e)))
                  (selectors t) with
  | Some e => Some (snd e)
  | None => None
  end.

Definition invalid_option (t : tool) (o : options) (arg : string) : string :=
  (colorize o (tool_name t ++ ": invalid option -- '" ++ arg ++ "'") RED ++ endl
   ++ "Try '" ++ tool_name t ++ " --help' for more information." ++ endl)%string.

(** The loop [for (int i = 1; i < argc; ++i)] over [argv[1..]]. *)
Fixpoint parseArgs (t : tool) (o : options) (args : list string) : outcome :=
  match args with
  | [] => Continue o
  | arg :: rest =>
      if String.eqb arg "--help" || String.eqb arg "-h" then
        Exit 0 help_banner ""
      else if String.eqb arg "--version" || String.eqb arg "-V" then
        Exit 0 version_banner ""
      else
        match lookup_selector t arg with
        | Some s => parseArgs t (mkOptions (s :: shown o) (use_colors o)) rest
        | None =>
            if String.eqb arg "--all" || String.eqb arg "-a" then
              parseArgs t (mkOptions (map snd (selectors t) ++ shown o) (use_colors o)) rest
            else if String.eqb arg "--no-color" then
              parseArgs t (mkOptions (shown o) false) rest
            else Exit 1 no_banner (invalid_option t o arg)
        end
  end.

(** The flags a tool accepts. *)
Definition known (t : tool) (arg : string) : bool :=
  String.eqb arg "--help" || String.eqb arg "-h"
  || String.eqb arg "--version" || String.eqb arg "-V"
  || match lookup_selector t arg with Some _ => true | None => false end
  || String.eqb arg "--all" || String.eqb arg "-a"
  || String.eqb arg "--no-color".

(** The arguments that end the run with status 0. *)
Definition stops (arg : string) : bool :=
  String.eqb arg "--help" || String.eqb arg "-h"
  || String.eqb arg "--version" || String.eqb arg "-V".

(** The number of lines of a text written to a stream: its newlines. *)
Fixpoint count_lines (s : string) : nat :=
  match s with
  | EmptyString => O
  | String c s' => ((if Ascii.eqb c "010"%char then 1 else 0) + count_lines s')%nat
  end.

(** [needle] occurs in [hay]. *)
Definition contains (needle hay : string) : Prop :=
  exists pre post, hay = (pre ++ needle ++ post)%string.

(** The options of a tool whose output is not a terminal. *)
Definition plain : options := mkOptions [] false.

End Cli.

(** ** cpuinfo: the cpu-frequency probe (CpuInfoUtil::getCpuFrequencies) *)

Module CpuFreq.
Import Std.

(** [struct CpuFrequency]. *)
Record CpuFrequency := mkCpuFrequency {
  current_mhz : double;
  min_mhz : double;
  max_mhz : double;
  governor : string;
  driver : string
}.

(** The files of a cpufreq directory ([None]: cannot be opened). *)
Record cpufreq_dir := mkCpufreqDir {
  scaling_cur_freq : option string;
  scaling_min_freq : option string;
  scaling_max_freq : option string;
  scaling_governor : option string;
  scaling_driver : option string
}.

(** An entry of /sys/devices/system/cpu/: its name and its cpufreq
    directory when it exists. *)
Record cpu_entry := mkCpuEntry {
  dirname : string;
  cpufreq : option cpufreq_dir
}.

(** [dirname.find("cpu") != 0 || !std::isdigit(dirname[3])] is the test to
    skip an entry; [dirname[3]] of a three-character name is the
    terminating NUL, which is not a digit. *)
Definition is_cpu_dir (dirname : string) : bool :=
  starts_with "cpu" dirname &&
  match drop 3 dirname with
  | String c _ => isdigit c
  | EmptyString => false
  end.

Section Probe.

(** The local [khz] has no initial value; it keeps this one when the file
    holds no token. *)
Variable indeterminate_khz : Z.

(** [unsigned long khz; f >> khz; mhz = khz / 1000.0;] on an open file,
    0.0 otherwise. *)
Definition read_mhz (file : option string) : double :=
  match file with
  | Some text =>
      DFin (inject_Z (fst (get_unsigned indeterminate_khz (open text))) / 1000)%Q
  | None => DFin 0
  end.

Definition read_line (file : option string) : string :=
  match file with
  | Some text => match getline_first text with Some l => l | None => EmptyString end
  | None => EmptyString
  end.

Definition freq_of (d : cpufreq_dir) : CpuFrequency :=
  mkCpuFrequency (read_mhz (scaling_cur_freq d)) (read_mhz (scaling_min_freq d))
                 (read_mhz (scaling_max_freq d))
                 (read_line (scaling_governor d)) (read_line (scaling_driver d)).

(** [getCpuFrequencies], on the entries the directory iteration yields:
    the first entry that passes both tests gives the only record
    ([break]). *)
Fixpoint getCpuFrequencies (entries : list cpu_entry) : list CpuFrequency :=
  match entries with
  | [] => []
  | e :: rest =>
      if negb (is_cpu_dir (dirname e)) then getCpuFrequencies rest
      else
        match cpufreq e with
        | None => getCpuFrequencies rest
        | Some d => [freq_of d]
        end
  end.

End Probe.

(** An entry that the probe reads. *)
Definition qualifies (e : cpu_entry) : Prop :=
  is_cpu_dir (dirname e) = true /\ cpufreq e <> None.

End CpuFreq.

(** ** diskls: the I/O statistics (DiskLsUtil::getDiskStats) *)

Module DiskStats.
Import Std.

(** [struct DiskStats]. *)
Record DiskStats := mkDiskStats {
  device : string;
  reads_completed : Z;
  reads_merged : Z;
  sectors_read : Z;
  time_reading : Z;
  writes_completed : Z;
  writes_merged : Z;
  sectors_written : Z;
  time_writing : Z;
  io_in_progress : Z;
  time_io : Z;
  weighted_time_io : Z
}.

(** The extraction
    [iss >> major >> minor >> device >> stat.reads_completed >> ...] of one
    line: the device name and the record (with [stat.device = device]) when
    all fourteen extractions succeed.  The values of [major] and [minor]
    before the extraction are never read. *)
Definition parse_line (line : string) : option (string * DiskStats) :=
  let iss := open line in
  let '(major, iss) := get_uint 0 iss in
  let '(minor, iss) := get_uint 0 iss in
  let '(device, iss) := get_word "" iss in
  let '(rc, iss) := get_unsigned 0 iss in
  let '(rm, iss) := get_unsigned 0 iss in
  let '(sr, iss) := get_unsigned 0 iss in
  let '(tr, iss) := get_unsigned 0 iss in
  let '(wc, iss) := get_unsigned 0 iss in
  let '(wm, iss) := get_unsigned 0 iss in
  let '(sw, iss) := get_unsigned 0 iss in
  let '(tw, iss) := get_unsigned 0 iss in
  let '(ip, iss) := get_unsigned 0 iss in
  let '(ti, iss) := get_unsigned 0 iss in
  let '(wt, iss) := get_unsigned 0 iss in
  if failed iss then None
  else Some (device, mkDiskStats device rc rm sr tr wc wm sw tw ip ti wt).

(** The body of the loop: [stats[device] = stat]. *)
Definition step (stats : gmap string DiskStats) (line : string)
  : gmap string DiskStats :=
  match parse_line line with
  | Some (device, stat) => <[device := stat]> stats
  | None => stats
  end.

(** [getDiskStats], on the text of /proc/diskstats. *)
Definition getDiskStats (text : string) : gmap string DiskStats :=
  fold_left step (getlines text) ∅.

(** The line gives statistics for the device [d]. *)
Definition names_device (d : string) (line : string) : Prop :=
  exists stat, parse_line line = Some (d, stat).

End DiskStats.

(** ** osinfo: the uptime text and the environment probe *)

Module OsMisc.
Import Std.

(** [operator<<] of an unsigned number: its decimal digits. *)
Definition to_string (n : Z) : string :=
  NilZero.string_of_uint (N.to_uint (Z.to_N n)).

(** The four numbers that [formatUptime] computes from [seconds]. *)
Definition days (seconds : Z) : Z := seconds / 86400.
Definition hours (seconds : Z) : Z := (seconds mod 86400) / 3600.
Definition minutes (seconds : Z) : Z := (seconds mod 3600) / 60.
Definition secs (seconds : Z) : Z := seconds mod 60.

Definition plural (n : Z) : string := if n =? 1 then "" else "s".

(** One [oss << n << " unit" << (n != 1 ? "s" : "")]. *)
Definition counted (n : Z) (unit : string) : string :=
  (to_string n ++ " " ++ unit ++ plural n)%string.

(** [OsInfoUtil::formatUptime]. *)
Definition formatUptime (seconds : Z) : string :=
  let d := days seconds in
  let h := hours seconds in
  let m := minutes seconds in
  let s := secs seconds in
  let days_part :=
    if 0 <? d then (counted d "day" ++ ", ")%string else EmptyString in
  let hours_part :=
    if (0 <? h) || (0 <? d) then (counted h "hour" ++ ", ")%string
    else EmptyString in
  let minutes_part :=
    if (0 <? m) || (0 <? h) || (0 <? d) then (counted m "minute" ++ ", ")%string
    else EmptyString in
  (days_part ++ hours_part ++ minutes_part ++ counted s "second")%string.

(** [struct EnvironmentInfo]. *)
Record EnvironmentInfo := mkEnvironmentInfo {
  path : string;
  lang : string;
  editor : string;
  pager : string;
  browser : string;
  desktop_session : string;
  display_manager : string;
  window_manager : string
}.

Definition set_path v i := mkEnvironmentInfo v (lang i) (editor i) (pager i) (browser i) (desktop_session i) (display_manager i) (window_manager i).
Definition set_lang v i := mkEnvironmentInfo (path i) v (editor i) (pager i) (browser i) (desktop_session i) (display_manager i) (window_manager i).
Definition set_editor v i := mkEnvironmentInfo (path i) (lang i) v (pager i) (browser i) (desktop_session i) (display_manager i) (window_manager i).
Definition set_pager v i := mkEnvironmentInfo (path i) (lang i) (editor i) v (browser i) (desktop_session i) (display_manager i) (window_manager i).
Definition set_browser v i := mkEnvironmentInfo (path i) (lang i) (editor i) (pager i) v (desktop_session i) (display_manager i) (window_manager i).
Definition set_desktop_session v i := mkEnvironmentInfo (path i) (lang i) (editor i) (pager i) (browser i) v (display_manager i) (window_manager i).
Definition set_window_manager v i := mkEnvironmentInfo (path i) (lang i) (editor i) (pager i) (browser i) (desktop_session i) (display_manager i) v.

(** The array [env_vars]. *)
Definition env_vars : list string :=
  ["PATH"; "LANG"; "EDITOR"; "PAGER"; "BROWSER";
   "DESKTOP_SESSION"; "XDG_CURRENT_DESKTOP"; "WINDOWMANAGER"].

Section Environment.

(** [getenv]: [None] for a null pointer. *)
Variable getenv : string -> option string.

(** The body of the loop over [env_vars]. *)
Definition step (info : EnvironmentInfo) (var : string) : EnvironmentInfo :=
  match getenv var with
  | None => info
  | Some value =>
      if String.eqb var "PATH" then set_path value info
      else if String.eqb var "LANG" then set_lang value info
      else if String.eqb var "EDITOR" then set_editor value info
      else if String.eqb var "PAGER" then set_pager value info
      else if String.eqb var "BROWSER" then set_browser value info
      else if String.eqb var "DESKTOP_SESSION" then set_desktop_session value info
      else if String.eqb var "XDG_CURRENT_DESKTOP" then set_window_manager value info
      else if String.eqb var "WINDOWMANAGER" then
        (if empty (window_manager info) then set_window_manager value info else info)
      else info
  end.

(** [OsInfoUtil::getEnvironmentInfo]. *)
Definition getEnvironmentInfo : EnvironmentInfo :=
  fold_left step env_vars (mkEnvironmentInfo "" "" "" "" "" "" "" "").

End Environment.

End OsMisc.

(** ** The reports ([run] of the four tools) *)

Module Report.
Import Std Cli.

#[global] Instance selector_eq_dec : EqDecision selector.
Proof. solve_decision. Defined.

(** The files that the tools read before the first title of their report. *)
Record inputs := mkInputs {
  proc_cpuinfo : string;
  proc_meminfo : string;
  os_release : string
}.

(** What [run] prints, as far as the sections of the report go: the titles
    that it passes to [printSeparator], in order, when it returns; or the
    exception, or the access to [front()] of an empty string, that ends it
    before the first title. *)
Inductive printed :=
| Titles (titles : list string)
| Thrown (x : exn)
| Undefined.

(** The member [show_...] of a selector. *)
Definition on (s : selector) (o : options) : bool := bool_decide (s ∈ shown o).

(** [if (c) { ... printSeparator(title); ... }]. *)
Definition when (c : bool) (title : string) : list string :=
  if c then [title] else [].

(** The title of the section that [run] prints first, without a test. *)
Definition general_title (t : tool) : string :=
  match t with
  | cpuinfo => "CPU Information"
  | meminfo => "Memory Information"
  | diskls => "Disk Information"
  | osinfo => "System Information"
  end.

Section Run.

Variable stod : string -> result double.

(** [run].  [printGeneralInfo] of cpuinfo calls [getCpuInfo] and
    [printSystemInfo] of osinfo calls [getDistroInfo] before the first title;
    [printGeneralInfo] of meminfo prints the swap section under
    [info.swap_total_kb > 0 || show_swap]; the other probes on the way catch
    their exceptions. *)
Definition run (t : tool) (inp : inputs) (o : options) : printed :=
  match t with
  | cpuinfo =>
      match CpuInfo.getCpuInfo stod (proc_cpuinfo inp) with
      | Throw x => Thrown x
      | Ok _ =>
          Titles (general_title cpuinfo
                  :: when (on load o) "CPU Load"
                  ++ when (on frequencies o) "CPU Frequency"
                  ++ when (on topology o) "CPU Topology")
      end
  | meminfo =>
      let info := MemInfo.getMemoryInfo (proc_meminfo inp) in
      Titles (general_title meminfo
              :: when ((0 <? MemInfo.swap_total_kb info) || on swap o) "Swap Information"
              ++ when (on processes o) "Top Memory Consumers")
  | diskls =>
      Titles (general_title diskls
              :: when (on usage o) "Disk Usage"
              ++ when (on mounts o) "Mount Information"
              ++ when (on types o) "Disk Types and Filesystems")
  | osinfo =>
      match OsInfo.getDistroInfo (os_release inp) with
      | None => Undefined
      | Some _ =>
          Titles (general_title osinfo
                  :: when (on distro o) "Distribution Information"
                  ++ when (on users o) "User Information"
                  ++ when (on environment o) "Environment Information")
      end
  end.

(** [main] up to the report: [None] when [parseArgs] exits. *)
Definition report (t : tool) (inp : inputs) (o : options) (args : list string)
  : option printed :=
  match parseArgs t o args with
  | Continue o' => Some (run t inp o')
  | Exit _ _ _ => None
  end.

End Run.

End Report.

(** ** Statements about records, used by the properties below *)

Module Shapes.
Import Std.

(** The first value that is not empty, and the empty text when there is
    none. *)
Fixpoint first_nonempty (vs : list string) : string :=
  match vs with
  | [] => EmptyString
  | v :: rest => if empty v then first_nonempty rest else v
  end.

(** A 64-bit unsigned value. *)
Definition u64 (z : Z) : Prop := 0 <= z < 2 ^ 64.

(** Every slot of a memory summary is a 64-bit unsigned value. *)
Definition summary_in_range (i : MemInfo.MemoryInfo) : Prop :=
  u64 (MemInfo.total_kb i) /\ u64 (MemInfo.available_kb i) /\
  u64 (MemInfo.free_kb i) /\ u64 (MemInfo.buffers_kb i) /\
  u64 (MemInfo.cached_kb i) /\ u64 (MemInfo.swap_total_kb i) /\
  u64 (MemInfo.swap_free_kb i) /\ u64 (MemInfo.swap_cached_kb i) /\
  u64 (MemInfo.shmem_kb i) /\ u64 (MemInfo.sreclaimable_kb i) /\
  u64 (MemInfo.sunreclaim_kb i).

(** The slot that [getMemoryInfo] fills for a key, for the eleven keys it
    recognises. *)
Definition slot (key : string) (i : MemInfo.MemoryInfo) : option Z :=
  if String.eqb key "MemTotal:" then Some (MemInfo.total_kb i)
  else if String.eqb key "MemAvailable:" then Some (MemInfo.available_kb i)
  else if String.eqb key "MemFree:" then Some (MemInfo.free_kb i)
  else if String.eqb key "Buffers:" then Some (MemInfo.buffers_kb i)
  else if String.eqb key "Cached:" then Some (MemInfo.cached_kb i)
  else if String.eqb key "SwapTotal:" then Some (MemInfo.swap_total_kb i)
  else if String.eqb key "SwapFree:" then Some (MemInfo.swap_free_kb i)
  else if String.eqb key "SwapCached:" then Some (MemInfo.swap_cached_kb i)
  else if String.eqb key "Shmem:" then Some (MemInfo.shmem_kb i)
  else if String.eqb key "SReclaimable:" then Some (MemInfo.sreclaimable_kb i)
  else if String.eqb key "SUnreclaim:" then Some (MemInfo.sunreclaim_kb i)
  else None.

(** The first word of a line, as [iss >> key] reads it. *)
Definition first_word (line : string) : string :=
  fst (get_word "" (open line)).

(** A record that the per-process probe may emit. *)
Definition qualifying (p : MemInfo.ProcessInfo) : Prop :=
  MemInfo.name p <> EmptyString /\ 0 < MemInfo.memory_kb p.

(** Records in non-increasing order of resident size. *)
Fixpoint descending (l : list MemInfo.ProcessInfo) : Prop :=
  match l with
  | [] => True
  | p :: rest =>
      Forall (fun q => MemInfo.memory_kb q <= MemInfo.memory_kb p) rest
      /\ descending rest
  end.

(** A text that holds neither "[" nor "]". *)
Definition bracket_free (s : string) : Prop :=
  find_char "["%char s = None /\ find_char "]"%char s = None.

(** A line whose value, after its first "=", is empty. *)
Definition empty_value (line : string) : Prop :=
  exists i, find_char "="%char line = Some i /\ drop (S i) line = EmptyString.

End Shapes.

(** ** Fixtures for the properties below *)

Module Fixtures.
Import Std.

(** A processor-info file with a flags line. *)
Definition with_flags : string :=
  ("processor" ++ tab ++ ": 0" ++ nl
   ++ "flags" ++ tab ++ tab ++ ": fpu vme  de" ++ nl)%string.

Definition with_flags_info : CpuInfo.CpuInfo :=
  CpuInfo.mkCpuInfo "" "" "" "" "" "" "" ["fpu"; "vme"; "de"] (DFin 0) 1 1 0.

Definition model_name_line : string := ("model name" ++ tab ++ ": Example CPU")%string.

(** An aggregate line of /proc/stat. *)
Definition stat_text : string := ("cpu  100 0 50 800 50 0 0 0 0 0" ++ nl)%string.

(** Entries of /sys/devices/system/cpu/. *)
Definition cpufreq_entry : CpuFreq.cpu_entry := CpuFreq.mkCpuEntry "cpufreq" None.
Definition cpu0_entry : CpuFreq.cpu_entry := CpuFreq.mkCpuEntry "cpu0" None.
Definition cpu1_dir : CpuFreq.cpufreq_dir :=
  CpuFreq.mkCpufreqDir (Some ("2400000" ++ nl)%string) (Some ("800000" ++ nl)%string)
    (Some ("3600000" ++ nl)%string) (Some ("powersave" ++ nl)%string)
    (Some ("intel_pstate" ++ nl)%string).
Definition cpu1_entry : CpuFreq.cpu_entry := CpuFreq.mkCpuEntry "cpu1" (Some cpu1_dir).
Definition cpu2_entry : CpuFreq.cpu_entry := CpuFreq.mkCpuEntry "cpu2" (Some cpu1_dir).

(** The meminfo usage scenario. *)
Definition meminfo_usage : string :=
  ("MemTotal:       8000 kB" ++ nl ++ "MemAvailable:   2000 kB" ++ nl)%string.

(** A memory-info file that gives MemTotal twice. *)
Definition memtotal_first : string := "MemTotal: 1 kB".
Definition memtotal_second : string := "MemTotal: 8000 kB".
Definition memfree_line : string := "MemFree: 5 kB".
Definition memtotal_twice : string :=
  (memtotal_first ++ nl ++ memtotal_second ++ nl ++ memfree_line ++ nl)%string.

(** A process whose command line has 116 characters, NUL bytes between
    its arguments. *)
Definition long_cmdline_entry : MemInfo.proc_entry :=
  MemInfo.mkProcEntry "42" true
    (Some ("Name:" ++ tab ++ "example" ++ nl ++ "VmRSS:" ++ tab ++ "    4096 kB" ++ nl)%string)
    (Some ("/usr/bin/example" ++ String "000"%char "--with-a-long-option"
           ++ String "000"%char "--and-another-long-option-that-goes-on"
           ++ String "000"%char "--and-one-more-option-to-pass-the-limit")%string).

(** A kernel thread: its status file has no VmRSS line. *)
Definition kthread_status : string :=
  ("Name:" ++ tab ++ "kthreadd" ++ nl ++ "State:" ++ tab ++ "S (sleeping)" ++ nl)%string.
Definition kthread_entry : MemInfo.proc_entry :=
  MemInfo.mkProcEntry "2" true (Some kthread_status) (Some "").

(** The files of a machine without swap, and of one with swap. *)
Definition no_swap : Report.inputs :=
  Report.mkInputs CpuInfo.two_threads meminfo_usage OsInfo.os_release_quoted.
Definition with_swap : Report.inputs :=
  Report.mkInputs CpuInfo.bad_siblings
    ("MemTotal: 8000 kB" ++ nl ++ "SwapTotal: 1024 kB" ++ nl)%string
    OsInfo.os_release_empty_value.

(** A block device whose queue/rotational file reads 0. *)
Definition sdb : DiskLs.block_entry :=
  DiskLs.mkBlockEntry "sdb" (Some ("4096" ++ nl)%string) (Some ("Example SSD " ++ nl)%string)
    (Some ("ATA" ++ nl)%string) (Some ("0" ++ nl)%string) (Some ("0" ++ nl)%string)
    (Some ("[mq-deadline] none" ++ nl)%string) (Some ("64" ++ nl)%string) ["sdb1"].

(** A size file that holds 2^55 + 1 sectors. *)
Definition sdc : DiskLs.block_entry :=
  DiskLs.mkBlockEntry "sdc" (Some ("36028797018963969" ++ nl)%string) None None None None
    None None [].

(** A [statvfs] with consistent counts. *)
Definition statvfs_fixture : string -> option DiskLs.statvfs_t :=
  fun _ => Some (DiskLs.mkStatvfs 1000 400 300 4096).

(** A disk-stats file with two lines for sda. *)
Definition diskstats_old : string := "   8       0 sda 100 5 2000 30 50 2 1000 20 0 40 50".
Definition diskstats_new : string := "   8       0 sda 200 5 4000 60 50 2 1000 20 0 70 80".
Definition diskstats_other : string := "   8      16 sdb 1 1 1 1 1 1 1 1 0 1 1".
Definition diskstats : string :=
  (diskstats_old ++ nl ++ diskstats_new ++ nl ++ diskstats_other ++ nl)%string.
Definition sda_stats : DiskStats.DiskStats :=
  DiskStats.mkDiskStats "sda" 200 5 4000 60 50 2 1000 20 0 70 80.

End Fixtures.

(** * Properties of the probes *)

(** ** Facts about the library model *)

Module StdFacts.
Import Std.

Lemma bind_Ok {A B} (r : result A) (k : A -> result B) (b : B) :
  bind r k = Ok b -> exists a, r = Ok a /\ k a = Ok b.
Proof. destruct r as [a|e]; simpl; [eauto | discriminate]. Qed.

Lemma append_assoc (a b c : string) :
  ((a ++ b) ++ c = a ++ b ++ c)%string.
Proof.
  induction a as [|x a IH]; [reflexivity|].
  change ((String x a ++ b) ++ c)%string with (String x ((a ++ b) ++ c)).
  rewrite IH. reflexivity.
Qed.

Lemma wrap64_small (z : Z) : 0 <= z < 2 ^ 64 -> wrap64 z = z.
Proof. intros H. unfold wrap64. apply Z.mod_small. exact H. Qed.

(** A quotient [used / total * 100] with [0 <= used <= total] and
    [0 < total] is a percentage. *)
Lemma ratio_in_range (used total : Z) :
  0 <= used <= total -> 0 < total ->
  percent_in_range (dmul (ddiv used total) 100).
Proof.
  intros [Hu Hut] Ht. unfold ddiv.
  destruct (Z.eqb_spec total 0) as [->|_]; [lia|]. simpl.
  destruct total as [|p|p]; try lia.
  unfold Qle, Qdiv, Qmult, Qinv, inject_Z. simpl.
  split; nia.
Qed.

Lemma zero_in_range : percent_in_range (DFin 0).
Proof. simpl. unfold Qle. simpl. lia. Qed.

Lemma digit_not_space c : isdigit c = true -> isspace c = false.
Proof.
  unfold isdigit, isspace. intros H.
  apply andb_true_iff in H. destruct H as [H1 H2].
  apply Nat.leb_le in H1. apply Nat.leb_le in H2.
  destruct (Nat.eqb_spec (nat_of_ascii c) 32); [lia|]. simpl.
  apply andb_false_iff. right. apply Nat.leb_gt. lia.
Qed.

Lemma digit_not_sign c s :
  isdigit c = true -> scan_sign (String c s) = (false, String c s).
Proof.
  intros H. unfold scan_sign.
  destruct (Ascii.eqb_spec c "-"%char) as [->|]; [discriminate H|].
  destruct (Ascii.eqb_spec c "+"%char) as [->|]; [discriminate H|].
  destruct c as [[] [] [] [] [] [] [] []]; try reflexivity; congruence.
Qed.

Lemma digit_value_nonneg c : isdigit c = true -> 0 <= digit_value c.
Proof.
  unfold isdigit, digit_value. intros H.
  apply andb_true_iff in H. destruct H as [H _]. apply Nat.leb_le in H. lia.
Qed.

Lemma skipws_blank (sep s : string) :
  all_of isspace sep = true -> skipws (sep ++ s) = skipws s.
Proof.
  induction sep as [|c sep IH]; [reflexivity|].
  change (String c sep ++ s)%string with (String c (sep ++ s)).
  cbn [all_of skipws]. intros H.
  apply andb_true_iff in H. destruct H as [-> H]. auto.
Qed.

Lemma span_word_app (w sep s : string) :
  all_of (fun c => negb (isspace c)) w = true -> is_blank sep ->
  span_word (w ++ sep ++ s) = (w, (sep ++ s)%string).
Proof.
  intros Hw [Hne Hsep]. induction w as [|c w IH].
  - destruct sep as [|b sep]; [congruence|].
    change (span_word (String b (sep ++ s)) = (EmptyString, String b (sep ++ s))).
    cbn [all_of span_word] in *.
    apply andb_true_iff in Hsep. destruct Hsep as [-> _]. reflexivity.
  - change (String c w ++ sep ++ s)%string with (String c (w ++ sep ++ s)).
    cbn [all_of span_word] in *.
    apply andb_true_iff in Hw. destruct Hw as [Hc Hw].
    apply negb_true_iff in Hc. rewrite Hc, (IH Hw). reflexivity.
Qed.

Lemma scan_digits_app (digits tail : string) :
  all_of isdigit digits = true -> no_digit_ahead tail ->
  forall acc, scan_digits acc (digits ++ tail) =
    (fst (fst (scan_digits acc digits)), String.length digits, tail).
Proof.
  intros Hd Ht. induction digits as [|c d IH]; intros acc;
    cbn [all_of scan_digits String.length fst] in *.
  - destruct tail as [|t tail]; [reflexivity|].
    change (scan_digits acc (String t tail) = (acc, 0%nat, String t tail)).
    cbn [no_digit_ahead scan_digits] in *. rewrite Ht. reflexivity.
  - apply andb_true_iff in Hd. destruct Hd as [Hc Hd].
    change (String c d ++ tail)%string with (String c (d ++ tail)).
    cbn [scan_digits]. rewrite Hc.
    rewrite (IH Hd). destruct (scan_digits _ d) as [[v n] r]. reflexivity.
Qed.

Lemma scan_digits_nonneg (s : string) :
  forall acc, 0 <= acc -> 0 <= fst (fst (scan_digits acc s)).
Proof.
  induction s as [|c s IH]; intros acc Hacc; cbn [scan_digits]; [exact Hacc|].
  destruct (isdigit c) eqn:Hc; [|exact Hacc].
  specialize (IH (acc * 10 + digit_value c)).
  destruct (scan_digits (acc * 10 + digit_value c) s) as [[v n] r].
  apply IH. pose proof (digit_value_nonneg c Hc). lia.
Qed.

(** [is >> word] at the head of a line. *)
Lemma get_word_head (w sep s : string) (old : string) :
  is_word w -> is_blank sep ->
  get_word old (open (w ++ sep ++ s)) =
    (w, {| buf := (sep ++ s)%string; failed := false |}).
Proof.
  intros [Hne Hw] Hsep. unfold get_word, open. cbn [failed buf].
  destruct w as [|c w]; [congruence|].
  pose proof Hw as Hw'. cbn [all_of] in Hw'.
  apply andb_true_iff in Hw'. destruct Hw' as [Hc Hw'].
  apply negb_true_iff in Hc.
  change (String c w ++ sep ++ s)%string with (String c (w ++ sep ++ s)).
  cbn [skipws span_word]. rewrite !Hc.
  rewrite (span_word_app _ _ _ Hw' Hsep). reflexivity.
Qed.

(** [is >> n] on white space followed by digits. *)
Lemma get_unsigned_head (sep digits tail : string) (old : Z) :
  is_blank sep -> is_digits digits -> no_digit_ahead tail ->
  number digits <= ULONG_MAX ->
  get_unsigned old {| buf := (sep ++ digits ++ tail)%string; failed := false |} =
    (number digits, {| buf := tail; failed := false |}).
Proof.
  intros [_ Hsep] [Hne Hd] Ht Hmax.
  unfold get_unsigned, get_unsigned_bits. cbn [failed buf].
  rewrite (skipws_blank _ _ Hsep).
  destruct digits as [|c d]; [congruence|].
  pose proof Hd as Hd'. cbn [all_of] in Hd'.
  apply andb_true_iff in Hd'. destruct Hd' as [Hc _].
  change (String c d ++ tail)%string with (String c (d ++ tail)).
  cbn [skipws]. rewrite (digit_not_space _ Hc).
  rewrite (digit_not_sign _ _ Hc).
  change (String c (d ++ tail)) with (String c d ++ tail)%string.
  rewrite (scan_digits_app _ _ Hd Ht). fold (number (String c d)).
  cbn [String.length].
  unfold ULONG_MAX in Hmax.
  destruct (Z.ltb_spec (2 ^ 64 - 1) (number (String c d))); [lia|reflexivity].
Qed.

(** A counter read by [>>] is a 64-bit value. *)
Lemma get_unsigned_range (old : Z) (ins : istream) :
  0 <= old < 2 ^ 64 -> 0 <= fst (get_unsigned old ins) < 2 ^ 64.
Proof.
  intros Hold. unfold get_unsigned, get_unsigned_bits.
  destruct (failed ins); [exact Hold|].
  destruct (skipws (buf ins)) as [|c s]; [exact Hold|].
  destruct (scan_sign (String c s)) as [neg s1].
  pose proof (scan_digits_nonneg s1 0 ltac:(lia)) as Hv.
  destruct (scan_digits 0 s1) as [[v n] r]. cbn [fst] in Hv.
  destruct n; cbn [fst]; [lia|].
  destruct (Z.ltb_spec (2 ^ 64 - 1) v); cbn [fst]; [lia|].
  destruct neg; [apply Z.mod_pos_bound; lia | lia].
Qed.

End StdFacts.

(** ** The cpu-identity probe *)

Module CpuInfoFacts.
Import Std CpuInfo StdFacts.

Section Facts.
Variable stod : string -> result double.

Lemma loop_app (a b : list string) :
  forall st, loop stod st (a ++ b) = bind (loop stod st a) (fun s => loop stod s b).
Proof.
  induction a as [|l a IH]; intros st; simpl; [reflexivity|].
  destruct (step stod st l) as [st'|e]; simpl; [apply IH | reflexivity].
Qed.

(** Case analysis of one run of the loop body that does not throw: one
    case per branch of the chain, with the key replaced by its text in the
    branches that compare it successfully. *)
Ltac step_cases H :=
  unfold step in H;
  repeat match type of H with
    | context [match split_line ?l with _ => _ end] =>
        destruct (split_line l) as [[? ?]|] eqn:?
    | context [if ?c then _ else _] => destruct c eqn:?
    | bind ?r _ = Ok _ =>
        let x := fresh "x" in let Hx := fresh "Hx" in
        let H' := fresh "H" in
        apply bind_Ok in H; destruct H as (x & Hx & H'); rename H' into H
    end;
  simplify_eq;
  repeat match goal with
    | E : (_ && _)%bool = true |- _ => apply andb_true_iff in E; destruct E
    | E : String.eqb _ _ = true |- _ => apply String.eqb_eq in E; subst
    end.

Ltac use_key k :=
  try match goal with
    | E : String.eqb _ k = false |- _ => rewrite E
    end.

Lemma step_logical info cc line info' cc' :
  step stod (info, cc) line = Ok (info', cc') ->
  logical_cores info' =
    logical_cores info + (if value_at "processor" line is Some _ then 1 else 0).
Proof.
  intros H. unfold value_at. step_cases H; simpl; use_key "processor"; simpl; lia.
Qed.

Lemma step_core_count info cc line info' cc' :
  step stod (info, cc) line = Ok (info', cc') ->
  dom cc' = dom cc ∪ (if value_at "core id" line is Some v then {[ v ]} else ∅).
Proof.
  intros H. unfold value_at.
  step_cases H; simpl; use_key "core id"; simpl;
    rewrite ?dom_insert_L;
    first [ symmetry; apply (right_id_L ∅ (∪)) | apply (comm_L (∪)) ].
Qed.

Lemma step_siblings info cc line info' cc' :
  step stod (info, cc) line = Ok (info', cc') ->
  match value_at "siblings" line with
  | Some v => stoi v = Ok (siblings info')
  | None => siblings info' = siblings info
  end.
Proof.
  intros H. unfold value_at.
  step_cases H; simpl; use_key "siblings"; simpl; auto.
Qed.

(** A [siblings] value that [std::stoi] rejects leaves the loop body by the
    exception, whatever the record holds. *)
Lemma step_siblings_throw (st : state) (line v : string) (e : exn) :
  value_at "siblings" line = Some v -> stoi v = Throw e ->
  step stod st line = Throw e.
Proof.
  unfold value_at, step. destruct st as [info cc].
  destruct (split_line line) as [[key value]|]; [|discriminate].
  destruct (String.eqb_spec key "siblings") as [->|]; [|discriminate].
  intros [= ->] Hv. cbn. rewrite Hv. reflexivity.
Qed.

Lemma loop_logical lines : forall info cc info' cc',
  loop stod (info, cc) lines = Ok (info', cc') ->
  logical_cores info' =
    logical_cores info + Z.of_nat (length (values_in "processor" lines)).
Proof.
  induction lines as [|l r IH]; intros info cc info' cc' H; simpl in H.
  - injection H as <- <-. simpl. lia.
  - apply bind_Ok in H. destruct H as ([i1 c1] & H1 & H2).
    apply step_logical in H1. apply IH in H2. rewrite H2, H1.
    simpl. destruct (value_at "processor" l); simpl length; lia.
Qed.

Lemma loop_core_count lines : forall info cc info' cc',
  loop stod (info, cc) lines = Ok (info', cc') ->
  dom cc' = dom cc ∪ list_to_set (values_in "core id" lines).
Proof.
  induction lines as [|l r IH]; intros info cc info' cc' H; simpl in H.
  - injection H as <- <-. simpl. symmetry. apply (right_id_L ∅ (∪)).
  - apply bind_Ok in H. destruct H as ([i1 c1] & H1 & H2).
    apply step_core_count in H1. apply IH in H2. rewrite H2, H1.
    simpl. destruct (value_at "core id" l); simpl.
    + symmetry. apply (assoc_L (∪)).
    + by rewrite (right_id_L ∅ (∪)).
Qed.

Lemma loop_siblings lines : forall info cc info' cc',
  loop stod (info, cc) lines = Ok (info', cc') ->
  match last (values_in "siblings" lines) with
  | Some v => stoi v = Ok (siblings info')
  | None => siblings info' = siblings info
  end.
Proof.
  induction lines as [|l r IH]; intros info cc info' cc' H; simpl in H.
  - injection H as <- <-. reflexivity.
  - apply bind_Ok in H. destruct H as ([i1 c1] & H1 & H2).
    apply step_siblings in H1. apply IH in H2.
    simpl. destruct (value_at "siblings" l) as [v|].
    + rewrite last_cons. destruct (last (values_in "siblings" r)); congruence.
    + destruct (last (values_in "siblings" r)); congruence.
Qed.

Lemma size_distinct (vs : list string) :
  size (list_to_set vs : gset string) = length (remove_dups vs).
Proof.
  rewrite <- (size_list_to_set (C := gset string) (remove_dups vs))
    by apply NoDup_remove_dups.
  f_equal. apply set_eq. intros x.
  rewrite !elem_of_list_to_set. symmetry. apply elem_of_remove_dups.
Qed.

Lemma finish_logical st : logical_cores (finish st) = logical_cores (fst st).
Proof. destruct st. unfold finish. simpl. destruct (_ =? _); reflexivity. Qed.

Lemma finish_siblings st : siblings (finish st) = siblings (fst st).
Proof. destruct st. unfold finish. simpl. destruct (_ =? _); reflexivity. Qed.

Lemma finish_physical st :
  physical_cores (finish st) =
    if size (snd st) is O then logical_cores (fst st)
    else Z.of_nat (size (snd st)).
Proof.
  destruct st as [info cc]. unfold finish. simpl.
  destruct (size cc) eqn:E; simpl; reflexivity.
Qed.

(** C1.  A [siblings] value that cannot be converted does not leave that
    field at its default with the other fields populated: [std::stoi] throws,
    the probe returns no record and [main] ends with status 1.  Evaluated on
    a file whose second line is "siblings : abc", for every [stod]. *)
Theorem siblings_not_a_number :
  getCpuInfo stod bad_siblings = Throw invalid_argument /\
  main_status stod bad_siblings = 1.
Proof. split; reflexivity. Qed.

(** C7.  When the probe returns a record, its logical-cpu count is the
    number of [processor] keys of the file, and its physical-core count is
    the number of distinct [core id] values, or the logical count when the
    file has no [core id] key. *)
Theorem core_counts (text : string) (info : CpuInfo) :
  getCpuInfo stod text = Ok info ->
  logical_cores info = Z.of_nat (length (values_of "processor" text)) /\
  physical_cores info =
    match values_of "core id" text with
    | [] => logical_cores info
    | ids => Z.of_nat (length (remove_dups ids))
    end.
Proof.
  unfold getCpuInfo, values_of. intros H.
  apply bind_Ok in H. destruct H as (st & Hl & Hf).
  injection Hf as <-.
  rewrite finish_logical, finish_physical.
  destruct st as [i c]. simpl fst; simpl snd.
  pose proof (loop_logical _ _ _ _ _ Hl) as Hlog.
  pose proof (loop_core_count _ _ _ _ _ Hl) as Hdom.
  simpl in Hlog.
  split; [lia|].
  assert (Hsz : size c = length (remove_dups (values_in "core id" (getlines text)))).
  { rewrite <- size_distinct, <- size_dom. f_equal.
    rewrite Hdom, dom_empty_L. apply (left_id_L ∅ (∪)). }
  rewrite Hsz.
  destruct (values_in "core id" (getlines text)) as [|v vs] eqn:E; [reflexivity|].
  destruct (remove_dups (v :: vs)) eqn:E'; [|reflexivity].
  exfalso. assert (Hin : v ∈ remove_dups (v :: vs))
    by (apply elem_of_remove_dups; left).
  rewrite E' in Hin. inversion Hin.
Qed.

(** What the [siblings] branch does, alone among the scalar branches of the
    chain: when the probe returns a record, its [siblings] field is the
    conversion of the value of the last [siblings] key of the file, each
    occurrence overwriting the previous one. *)
Theorem siblings_last (text : string) (info : CpuInfo) (vs : list string) (v : string) :
  getCpuInfo stod text = Ok info ->
  values_of "siblings" text = (vs ++ [v])%list ->
  stoi v = Ok (siblings info).
Proof.
  unfold getCpuInfo, values_of. intros H Hv.
  apply bind_Ok in H. destruct H as (st & Hl & Hf).
  injection Hf as <-. rewrite finish_siblings.
  destruct st as [i c].
  apply loop_siblings in Hl. rewrite Hv, last_snoc in Hl. exact Hl.
Qed.

End Facts.

(** The same failure for a [cpu MHz] value, with the decimal [stod]. *)
Remark mhz_not_a_number :
  getCpuInfo stod_decimal bad_mhz = Throw invalid_argument.
Proof. reflexivity. Qed.

(** The cpuinfo base scenario: logical_cores = 2, physical_cores = 1. *)
Lemma core_counts_two_threads :
  getCpuInfo stod_decimal two_threads = Ok two_threads_info /\
  logical_cores two_threads_info = 2 /\ physical_cores two_threads_info = 1.
Proof.
  assert (H : getCpuInfo stod_decimal two_threads = Ok two_threads_info)
    by reflexivity.
  split; [exact H|].
  exact (core_counts stod_decimal two_threads two_threads_info H).
Defined.

(** C5.  On the file with "siblings : 4" then "siblings : 8" the probe
    returns a record whose [siblings] field is not the first value: the
    branch has no first-occurrence guard, unlike the branches of the seven
    text fields, of [cpu MHz] and of [flags]. *)
Lemma siblings_first_refuted :
  ~ (forall info v,
       getCpuInfo stod_decimal two_siblings = Ok info ->
       head (values_of "siblings" two_siblings) = Some v ->
       stoi v = Ok (siblings info)).
Proof.
  intros H. specialize (H two_siblings_info "4" eq_refl eq_refl).
  vm_compute in H. discriminate H.
Qed.

Lemma siblings_last_two_siblings :
  (getCpuInfo stod_decimal two_siblings = Ok two_siblings_info /\
   values_of "siblings" two_siblings = ["4"; "8"]) /\
  stoi "8" = Ok (siblings two_siblings_info).
Proof.
  assert (H : getCpuInfo stod_decimal two_siblings = Ok two_siblings_info)
    by reflexivity.
  assert (Hv : values_of "siblings" two_siblings = (["4"] ++ ["8"])%list)
    by reflexivity.
  split; [split; [exact H | exact Hv]|].
  exact (siblings_last stod_decimal two_siblings two_siblings_info ["4"] "8" H Hv).
Defined.

End CpuInfoFacts.

(** ** The cpu-load probe *)

Module CpuLoadFacts.
Import Std CpuLoad StdFacts.

Lemma usage_in_range (l : CpuLoad) :
  0 <= user l -> 0 <= nice l -> 0 <= system l -> 0 <= idle l ->
  0 <= iowait l -> 0 <= irq l -> 0 <= softirq l ->
  user l + nice l + system l + idle l + iowait l + irq l + softirq l < 2 ^ 64 ->
  percent_in_range (usage (used_of l) (total_of l)).
Proof.
  intros. unfold usage, used_of, total_of, uadd, usub.
  rewrite (wrap64_small (user l + nice l)) by lia.
  rewrite (wrap64_small (user l + nice l + system l)) by lia.
  rewrite (wrap64_small (user l + nice l + system l + idle l)) by lia.
  rewrite (wrap64_small (user l + nice l + system l + idle l + iowait l)) by lia.
  rewrite (wrap64_small (user l + nice l + system l + idle l + iowait l + irq l)) by lia.
  rewrite (wrap64_small (user l + nice l + system l + idle l + iowait l + irq l + softirq l)) by lia.
  rewrite (wrap64_small (_ - idle l)) by lia.
  rewrite (wrap64_small (_ - idle l - iowait l)) by lia.
  destruct (Z.ltb_spec 0 (user l + nice l + system l + idle l + iowait l
                          + irq l + softirq l)).
  - apply ratio_in_range; lia.
  - apply zero_in_range.
Qed.

Lemma getCpuLoad_usage (stat : option string) :
  cpu_usage (getCpuLoad stat) =
    usage (used_of (getCpuLoad stat)) (total_of (getCpuLoad stat)).
Proof.
  unfold getCpuLoad. destruct stat as [text|]; [|reflexivity].
  destruct (getline_first text) as [line|]; [|reflexivity].
  repeat match goal with
    | |- context [get_word ?o ?s] => destruct (get_word o s)
    | |- context [get_unsigned ?o ?s] => destruct (get_unsigned o s)
    end.
  unfold used_of, total_of.
  cbn [cpu_usage user nice system idle iowait irq softirq].
  reflexivity.
Qed.

Lemma getCpuLoad_counters (stat : option string) :
  let l := getCpuLoad stat in
  (0 <= user l < 2 ^ 64) /\ (0 <= nice l < 2 ^ 64) /\ (0 <= system l < 2 ^ 64) /\
  (0 <= idle l < 2 ^ 64) /\ (0 <= iowait l < 2 ^ 64) /\ (0 <= irq l < 2 ^ 64) /\
  (0 <= softirq l < 2 ^ 64).
Proof.
  unfold getCpuLoad. destruct stat as [text|]; [|simpl; lia].
  destruct (getline_first text) as [line|]; [|simpl; lia].
  destruct (get_word _ _) as [cpu s0].
  pose proof (get_unsigned_range 0 s0 ltac:(lia)) as H1.
  destruct (get_unsigned 0 s0) as [a s1].
  pose proof (get_unsigned_range 0 s1 ltac:(lia)) as H2.
  destruct (get_unsigned 0 s1) as [b s2].
  pose proof (get_unsigned_range 0 s2 ltac:(lia)) as H3.
  destruct (get_unsigned 0 s2) as [c s3].
  pose proof (get_unsigned_range 0 s3 ltac:(lia)) as H4.
  destruct (get_unsigned 0 s3) as [d s4].
  pose proof (get_unsigned_range 0 s4 ltac:(lia)) as H5.
  destruct (get_unsigned 0 s4) as [e s5].
  pose proof (get_unsigned_range 0 s5 ltac:(lia)) as H6.
  destruct (get_unsigned 0 s5) as [f s6].
  pose proof (get_unsigned_range 0 s6 ltac:(lia)) as H7.
  destruct (get_unsigned 0 s6) as [g s7].
  cbn [fst] in *. cbn. repeat split; lia.
Qed.

(** X6.  The cpu-usage percentage is in range as long as the seven counters do
    not add up to 2^64 or more. *)
Lemma cpu_usage_in_range (stat : option string) :
  let l := getCpuLoad stat in
  user l + nice l + system l + idle l + iowait l + irq l + softirq l < 2 ^ 64 ->
  percent_in_range (cpu_usage l).
Proof.
  intros l Hsum. subst l. rewrite getCpuLoad_usage.
  pose proof (getCpuLoad_counters stat) as H. cbv zeta in H.
  apply usage_in_range; lia.
Qed.

(** With counters that add up beyond 64 bits the sum wraps and the
    percentage leaves the range. *)
Remark cpu_usage_wraps :
  ~ percent_in_range
      (cpu_usage (getCpuLoad (Some "cpu 18446744073709551615 0 0 2 0 0 0"))).
Proof. intros H. vm_compute in H. destruct H as [_ H]. apply H. reflexivity. Qed.

End CpuLoadFacts.

(** ** The memory probes *)

Module MemInfoFacts.
Import Std MemInfo StdFacts.

(** *** The memory summary *)

(** C4, amended.  The probe stores the number that follows the key of a
    line into the slot of that key whatever follows the number: a line with
    another unit, or with no unit, fills the slot as a line with kB does. *)
Theorem unit_not_examined (info : MemoryInfo) (key sep digits tail : string) :
  is_word key -> is_blank sep -> is_digits digits ->
  number digits <= ULONG_MAX -> no_digit_ahead tail ->
  step info (key ++ sep ++ digits ++ tail) = store key (number digits) info.
Proof.
  intros Hk Hs Hd Hmax Ht. unfold step.
  rewrite (get_word_head _ _ _ _ Hk Hs).
  rewrite (get_unsigned_head _ _ _ _ Hs Hd Ht Hmax). reflexivity.
Qed.

(** A MemTotal line in MB, and one without unit, fill the slot. *)
Lemma unit_required_refuted :
  ~ (total_kb (getMemoryInfo memtotal_other_unit) = total_kb default_info /\
     total_kb (getMemoryInfo memtotal_no_unit) = total_kb default_info).
Proof. intros [H _]. vm_compute in H. discriminate H. Qed.

Lemma unit_not_examined_MB :
  (is_word "MemTotal:" /\ is_blank " " /\ is_digits "8000" /\
   number "8000" <= ULONG_MAX /\ no_digit_ahead " MB") /\
  step default_info "MemTotal: 8000 MB" = store "MemTotal:" (number "8000") default_info.
Proof.
  assert (Hk : is_word "MemTotal:") by (split; [discriminate | reflexivity]).
  assert (Hs : is_blank " ") by (split; [discriminate | reflexivity]).
  assert (Hd : is_digits "8000") by (split; [discriminate | reflexivity]).
  assert (Hm : number "8000" <= ULONG_MAX) by (vm_compute; discriminate).
  assert (Ht : no_digit_ahead " MB") by reflexivity.
  split; [auto|].
  exact (unit_not_examined default_info "MemTotal:" " " "8000" " MB" Hk Hs Hd Hm Ht).
Defined.

(** *** The memory percentage *)

(** X11.  Within [0 < MemTotal] and [MemAvailable <= MemTotal] the percentage is
    in range. *)
Lemma used_percentage_in_range (info : MemoryInfo) :
  0 < total_kb info < 2 ^ 64 ->
  0 <= available_kb info <= total_kb info ->
  percent_in_range (used_percentage info).
Proof.
  intros Ht Ha. unfold used_percentage, used_kb, usub.
  rewrite wrap64_small by lia. apply ratio_in_range; lia.
Qed.

(** C2.  The memory used-percentage is not in [0, 100] on the inputs that
    the claim names: with MemTotal = 0 (and on a file that cannot be read)
    the division is 0/0, and with MemAvailable > MemTotal the unsigned
    subtraction wraps. *)
Theorem memory_percentage_unguarded :
  used_percentage (getMemoryInfo memtotal_zero) = DNaN /\
  used_percentage (getMemoryInfo EmptyString) = DNaN /\
  ~ percent_in_range (used_percentage (getMemoryInfo memtotal_zero)) /\
  used_kb (getMemoryInfo available_above_total) = 2 ^ 64 - 1000 /\
  ~ percent_in_range (used_percentage (getMemoryInfo available_above_total)).
Proof.
  split; [reflexivity|]. split; [reflexivity|].
  split; [intros H; exact H|]. split; [reflexivity|].
  intros [_ H]. vm_compute in H. apply H. reflexivity.
Qed.

(** *** The per-process probe *)

Lemma collect_throw (e : proc_entry) (rest : list proc_entry) (x : exn)
    (acc : list ProcessInfo) :
  visit e = Throw x -> collect acc (e :: rest) = (acc, true).
Proof. intros H. simpl. rewrite H. reflexivity. Qed.


(** C3.  A failure in one process does not only skip that process: a
    directory name that overflows [int], or a status file whose name line
    stops after the colon, throws inside the loop, the handler around the
    loop ends the enumeration, and the process that follows, which
    qualifies, is not emitted. *)
Theorem process_failure_ends_enumeration :
  getTopProcesses 15 [init_entry] = ([init_record], false) /\
  visit overflow_entry = Throw out_of_range /\
  getTopProcesses 15 [overflow_entry; init_entry] = ([], true) /\
  visit short_name_entry = Throw out_of_range /\
  getTopProcesses 15 [short_name_entry; init_entry] = ([], true).
Proof. repeat split; reflexivity. Qed.

End MemInfoFacts.

(** ** The disk probes *)

Module DiskLsFacts.
Import Std DiskLs StdFacts.

(** *** The inventory *)

Section Inventory.
Variables indeterminate_sectors indeterminate_flag : Z.

Local Abbreviation disk_of := (disk_of indeterminate_sectors indeterminate_flag).
Local Abbreviation getDiskInfo := (getDiskInfo indeterminate_sectors indeterminate_flag).
Local Abbreviation read_sectors := (read_sectors indeterminate_sectors).
Local Abbreviation read_flag := (read_flag indeterminate_flag).

(** The probe maps the entries that are not skipped, in order. *)
Lemma getDiskInfo_filter (entries : list block_entry) :
  getDiskInfo entries =
    map disk_of (List.filter (fun e => negb (skipped (device_name e))) entries).
Proof.
  induction entries as [|e rest IH]; simpl; [reflexivity|].
  destruct (skipped (device_name e)); simpl; rewrite IH; reflexivity.
Qed.

Lemma disk_type_cases (name : string) (rotational : bool) :
  (disk_type name rotational = "NVMe" <-> starts_with "nvme" name = true) /\
  (starts_with "nvme" name = false ->
   disk_type name rotational = if rotational then "HDD" else "SSD").
Proof.
  unfold disk_type. destruct (starts_with "nvme" name); split.
  - split; reflexivity.
  - discriminate.
  - destruct rotational; split; discriminate.
  - destruct rotational; reflexivity.
Qed.

(** [size_file >> sectors] on a file that begins with digits. *)
Lemma read_sectors_digits (digits tail : string) :
  is_digits digits -> no_digit_ahead tail -> number digits <= ULONG_MAX ->
  read_sectors (digits ++ tail) = number digits.
Proof.
  intros [Hne Hd] Ht Hmax.
  unfold DiskLs.read_sectors, get_unsigned, get_unsigned_bits, open. cbn [failed buf].
  destruct digits as [|c d]; [congruence|].
  pose proof Hd as Hd'. cbn [all_of] in Hd'.
  apply andb_true_iff in Hd'. destruct Hd' as [Hc _].
  change (String c d ++ tail)%string with (String c (d ++ tail)).
  cbn [skipws]. rewrite (digit_not_space _ Hc).
  rewrite (digit_not_sign _ _ Hc).
  change (String c (d ++ tail)) with (String c d ++ tail)%string.
  rewrite (scan_digits_app _ _ Hd Ht). fold (number (String c d)).
  cbn [String.length].
  unfold ULONG_MAX in Hmax.
  destruct (Z.ltb_spec (2 ^ 64 - 1) (number (String c d))); [lia|reflexivity].
Qed.

(** [rotational_file >> rotational_flag; rotational_flag == 1] on a file
    that begins with digits. *)
Lemma read_flag_digits (digits tail : string) :
  is_digits digits -> no_digit_ahead tail ->
  (read_flag (digits ++ tail) =? 1) = (number digits =? 1).
Proof.
  intros [Hne Hd] Ht.
  unfold DiskLs.read_flag, get_int, open. cbn [failed buf].
  destruct digits as [|c d]; [congruence|].
  pose proof Hd as Hd'. cbn [all_of] in Hd'.
  apply andb_true_iff in Hd'. destruct Hd' as [Hc _].
  change (String c d ++ tail)%string with (String c (d ++ tail)).
  cbn [skipws]. rewrite (digit_not_space _ Hc).
  rewrite (digit_not_sign _ _ Hc).
  change (String c (d ++ tail)) with (String c d ++ tail)%string.
  rewrite (scan_digits_app _ _ Hd Ht). fold (number (String c d)).
  cbn [String.length].
  pose proof (scan_digits_nonneg (String c d) 0 ltac:(lia)) as Hnn.
  fold (number (String c d)) in Hnn.
  unfold INT_MIN, INT_MAX.
  destruct (Z.ltb_spec (number (String c d)) (- 2 ^ 31)); [lia|].
  destruct (Z.ltb_spec (2 ^ 31 - 1) (number (String c d))); cbn [fst]; [|reflexivity].
  destruct (Z.eqb_spec (number (String c d)) 1); [lia | reflexivity].
Qed.

(** The fields of the record that the loop body builds, against the files
    of its entry. *)
Lemma disk_of_fields (e : block_entry) :
  device (disk_of e) = ("/dev/" ++ device_name e)%string /\
  size_bytes (disk_of e) =
    match size_file e with
    | Some text => (read_sectors text * 512) mod 2 ^ 64
    | None => 0
    end /\
  (forall digits tail, size_file e = Some (digits ++ tail)%string ->
     is_digits digits -> no_digit_ahead tail -> number digits < 2 ^ 55 ->
     size_bytes (disk_of e) = number digits * 512) /\
  rotational (disk_of e) =
    match rotational_file e with
    | Some text => read_flag text =? 1
    | None => true
    end /\
  (forall digits tail, rotational_file e = Some (digits ++ tail)%string ->
     is_digits digits -> no_digit_ahead tail ->
     rotational (disk_of e) = (number digits =? 1)) /\
  (type (disk_of e) = "NVMe" <-> starts_with "nvme" (device_name e) = true) /\
  (starts_with "nvme" (device_name e) = false ->
   type (disk_of e) = if rotational (disk_of e) then "HDD" else "SSD").
Proof.
  unfold DiskLs.disk_of. cbn [device size_bytes rotational type].
  split; [reflexivity|]. split; [destruct (size_file e); reflexivity|]. split.
  { intros digits tail -> Hd Ht Hn.
    pose proof (scan_digits_nonneg digits 0 ltac:(lia)) as Hnn.
    fold (number digits) in Hnn.
    rewrite (read_sectors_digits _ _ Hd Ht) by (unfold ULONG_MAX; lia).
    unfold umul. apply wrap64_small. lia. }
  split; [reflexivity|]. split.
  { intros digits tail -> Hd Ht. apply read_flag_digits; assumption. }
  apply disk_type_cases.
Qed.

(** C8.  Every emitted device comes from an entry whose name begins with
    neither "loop" nor "ram", and every such entry is emitted; the size in
    bytes of the device is the sector count of the entry's size file times
    512, computed in 64 bits (exactly the product for a size file that holds
    a count below 2^55); its rotational flag is set exactly when the entry's
    queue/rotational file reads 1 (and when that file cannot be opened); and
    its type is NVMe exactly when the name begins with "nvme", and otherwise
    SSD when the rotational flag is unset and HDD when it is set. *)
Theorem inventory_records (entries : list block_entry) :
  (forall d, In d (getDiskInfo entries) ->
     starts_with "/dev/loop" (device d) = false /\
     starts_with "/dev/ram" (device d) = false /\
     exists e, In e entries /\
       device d = ("/dev/" ++ device_name e)%string /\
       starts_with "loop" (device_name e) = false /\
       starts_with "ram" (device_name e) = false /\
       size_bytes d =
         match size_file e with
         | Some text => (read_sectors text * 512) mod 2 ^ 64
         | None => 0
         end /\
       (forall digits tail, size_file e = Some (digits ++ tail)%string ->
          is_digits digits -> no_digit_ahead tail -> number digits < 2 ^ 55 ->
          size_bytes d = number digits * 512) /\
       rotational d =
         match rotational_file e with
         | Some text => read_flag text =? 1
         | None => true
         end /\
       (forall digits tail, rotational_file e = Some (digits ++ tail)%string ->
          is_digits digits -> no_digit_ahead tail ->
          rotational d = (number digits =? 1)) /\
       (type d = "NVMe" <-> starts_with "nvme" (device_name e) = true) /\
       (starts_with "nvme" (device_name e) = false ->
        type d = if rotational d then "HDD" else "SSD")) /\
  (forall e, In e entries ->
     starts_with "loop" (device_name e) = false ->
     starts_with "ram" (device_name e) = false ->
     exists d, In d (getDiskInfo entries) /\
       device d = ("/dev/" ++ device_name e)%string).
Proof.
  rewrite getDiskInfo_filter. split.
  - intros d H.
    apply in_map_iff in H. destruct H as (e & <- & He).
    apply filter_In in He. destruct He as [He Hs].
    apply negb_true_iff in Hs. unfold skipped in Hs.
    apply orb_false_iff in Hs. destruct Hs as [Hloop Hram].
    pose proof (disk_of_fields e) as (Hdev & Hrest).
    split; [rewrite Hdev; exact Hloop|]. split; [rewrite Hdev; exact Hram|].
    exists e. split; [exact He|]. split; [exact Hdev|].
    split; [exact Hloop|]. split; [exact Hram|]. exact Hrest.
  - intros e He Hloop Hram. exists (disk_of e). split; [|reflexivity].
    apply in_map. apply filter_In. split; [exact He|].
    unfold skipped. rewrite Hloop, Hram. reflexivity.
Qed.

End Inventory.

Lemma inventory_records_scenario :
  (In sda [sda; loop0; nvme0n1] /\
   starts_with "loop" (device_name sda) = false /\
   starts_with "ram" (device_name sda) = false) /\
  exists d, In d (getDiskInfo 0 0 [sda; loop0; nvme0n1]) /\
    device d = ("/dev/" ++ device_name sda)%string.
Proof.
  assert (H : In sda [sda; loop0; nvme0n1]) by (left; reflexivity).
  assert (Hl : starts_with "loop" (device_name sda) = false) by reflexivity.
  assert (Hr : starts_with "ram" (device_name sda) = false) by reflexivity.
  split; [repeat split; assumption|].
  exact (proj2 (inventory_records 0 0 [sda; loop0; nvme0n1]) sda H Hl Hr).
Defined.

(** The inventory scenario: two devices, loop0 left out. *)
Example inventory_scenario :
  map (fun d => (device d, type d, size_bytes d)) (getDiskInfo 0 0 [sda; loop0; nvme0n1])
  = [("/dev/sda", "HDD", 1048576); ("/dev/nvme0n1", "NVMe", 2097152)].
Proof. reflexivity. Qed.

(** The product is computed in 64 bits: 2^55 + 1 sectors give 512 bytes. *)
Example inventory_size_wraps :
  map size_bytes (getDiskInfo 0 0 [Fixtures.sdc]) = [512].
Proof. reflexivity. Qed.

(** A device that is not NVMe and whose queue/rotational file reads 0 is an
    SSD. *)
Example inventory_ssd :
  map (fun d => (device d, type d, rotational d)) (getDiskInfo 0 0 [Fixtures.sdb])
  = [("/dev/sdb", "SSD", false)].
Proof. reflexivity. Qed.

(** *** The mounts *)

Section Mounts.
Variable statvfs : string -> option statvfs_t.

Lemma special_spec (device filesystem : string) :
  special device filesystem = false <-> kept device filesystem.
Proof.
  unfold special, kept, excluded. rewrite !orb_false_iff, negb_false_iff.
  rewrite !String.eqb_neq. simpl. intuition congruence.
Qed.

(** The records of one line, by their four words. *)
Lemma row_records_fields (line : string) :
  map row_fields (row_records statvfs line) = kept_rows [line].
Proof.
  unfold row_records. cbn [kept_rows].
  destruct (parse_row line) as [[[[dv mp] fs] opts]|]; [|reflexivity].
  destruct (special dv fs) eqn:E.
  - rewrite bool_decide_eq_false_2; [reflexivity|].
    intros Hk. apply special_spec in Hk. congruence.
  - rewrite bool_decide_eq_true_2 by (apply special_spec; exact E).
    unfold part_of, row_fields. destruct (statvfs mp); reflexivity.
Qed.

Lemma kept_rows_cons (line : string) (rest : list string) :
  kept_rows (line :: rest) = (kept_rows [line] ++ kept_rows rest)%list.
Proof.
  cbn [kept_rows].
  destruct (parse_row line) as [[[[dv mp] fs] opts]|]; [|reflexivity].
  destruct (bool_decide (kept dv fs)); reflexivity.
Qed.

Lemma getPartitionInfo_lines_fields (lines : list string) :
  map row_fields (getPartitionInfo_lines statvfs lines) = kept_rows lines.
Proof.
  induction lines as [|line rest IH]; [reflexivity|].
  cbn [getPartitionInfo_lines]. rewrite map_app, IH, row_records_fields.
  symmetry. apply kept_rows_cons.
Qed.

Lemma kept_rows_In (lines : list string) (device mp fs opts : string) :
  In (device, mp, fs, opts) (kept_rows lines) <->
  exists line, In line lines /\ parse_row line = Some (device, mp, fs, opts) /\
    kept device fs.
Proof.
  induction lines as [|l rest IH].
  - cbn. split; [intros [] | intros (line & [] & _)].
  - rewrite kept_rows_cons, in_app_iff, IH. cbn [kept_rows In].
    split.
    + intros [H|(line & Hl & Hp & Hk)].
      * exists l. split; [left; reflexivity|].
        destruct (parse_row l) as [[[[dv' mp'] fs'] opts']|]; [|destruct H].
        destruct (bool_decide (kept dv' fs')) eqn:E; [|destruct H].
        apply bool_decide_eq_true_1 in E.
        destruct H as [H|[]]. injection H as -> -> -> ->. split; [reflexivity | exact E].
      * exists line. split; [right; exact Hl|]. split; assumption.
    + intros (line & [<-|Hl] & Hp & Hk).
      * left. rewrite Hp, bool_decide_eq_true_2 by exact Hk. left; reflexivity.
      * right. exists line. split; [exact Hl|]. split; assumption.
Qed.

(** C9.  The records of the mount-usage probe are, in the order of the
    file and by their device path, mount point, filesystem type and options,
    the rows whose device path starts with /dev/ and whose type is none of
    proc, sysfs, devtmpfs and tmpfs: such a row has its record in the
    result, a row of another kind has none, and every record comes from
    such a row. *)
Theorem mount_rows (text : string) :
  map row_fields (getPartitionInfo statvfs text) = kept_rows (getlines text) /\
  (forall line device mp fs opts,
     In line (getlines text) ->
     parse_row line = Some (device, mp, fs, opts) ->
     (kept device fs <->
      exists r, In r (getPartitionInfo statvfs text) /\
        row_fields r = (device, mp, fs, opts))) /\
  (forall r, In r (getPartitionInfo statvfs text) ->
     exists line, In line (getlines text) /\
       parse_row line = Some (row_fields r) /\
       kept (part_device r) (filesystem r)).
Proof.
  pose proof (getPartitionInfo_lines_fields (getlines text)) as E.
  fold (getPartitionInfo statvfs text) in E.
  split; [exact E|]. split.
  - intros line device mp fs opts Hl Hp. split.
    + intros Hk.
      assert (Hin : In (device, mp, fs, opts) (kept_rows (getlines text))).
      { apply kept_rows_In. exists line. split; [exact Hl|]. split; assumption. }
      rewrite <- E in Hin. apply in_map_iff in Hin.
      destruct Hin as (r & Hr & Hin). exists r. split; assumption.
    + intros (r & Hin & Hr).
      assert (Hq : In (device, mp, fs, opts) (kept_rows (getlines text))).
      { rewrite <- E, <- Hr. apply in_map. exact Hin. }
      apply kept_rows_In in Hq. destruct Hq as (_ & _ & _ & Hk). exact Hk.
  - intros r Hin.
    assert (Hq : In (row_fields r) (kept_rows (getlines text))).
    { rewrite <- E. apply in_map. exact Hin. }
    unfold row_fields in Hq. apply kept_rows_In in Hq.
    destruct Hq as (line & Hl & Hp & Hk). exists line.
    split; [exact Hl|]. split; [exact Hp | exact Hk].
Qed.

(** X22.  The mount percentage is in range when the counts of [statvfs] are
    consistent and the sizes fit 64 bits. *)
Lemma mount_usage_in_range (device mp fs opts : string) :
  match statvfs mp with
  | Some st =>
      0 <= f_bfree st <= f_blocks st /\ f_blocks st < 2 ^ 64 /\
      0 <= f_frsize st /\ f_blocks st * f_frsize st < 2 ^ 64
  | None => True
  end ->
  percent_in_range (usage_percent (part_of statvfs device mp fs opts)).
Proof.
  unfold part_of. destruct (statvfs mp) as [st|]; cbn [usage_percent].
  - intros (Hb & Hb64 & Hf & Hsz). unfold usage, umul, usub.
    assert (Hle : (f_blocks st - f_bfree st) * f_frsize st
                  <= f_blocks st * f_frsize st)
      by (apply Z.mul_le_mono_nonneg_r; lia).
    assert (Hnn : 0 <= (f_blocks st - f_bfree st) * f_frsize st)
      by (apply Z.mul_nonneg_nonneg; lia).
    rewrite (wrap64_small (f_blocks st - f_bfree st)) by lia.
    rewrite (wrap64_small (f_blocks st * f_frsize st)) by lia.
    rewrite (wrap64_small ((f_blocks st - f_bfree st) * f_frsize st)) by lia.
    destruct (Z.ltb_spec 0 (f_blocks st * f_frsize st)).
    + apply ratio_in_range; lia.
    + apply zero_in_range.
  - intros _. apply zero_in_range.
Qed.

End Mounts.

Lemma mount_rows_sda1 :
  (In "/dev/sda1 / ext4 rw,relatime 0 0" (getlines mounts) /\
   parse_row "/dev/sda1 / ext4 rw,relatime 0 0"
     = Some ("/dev/sda1", "/", "ext4", "rw,relatime") /\
   kept "/dev/sda1" "ext4") /\
  exists r, In r (getPartitionInfo no_statvfs mounts) /\
    row_fields r = ("/dev/sda1", "/", "ext4", "rw,relatime").
Proof.
  assert (Hl : In "/dev/sda1 / ext4 rw,relatime 0 0" (getlines mounts))
    by (left; reflexivity).
  assert (Hp : parse_row "/dev/sda1 / ext4 rw,relatime 0 0"
               = Some ("/dev/sda1", "/", "ext4", "rw,relatime")) by reflexivity.
  assert (Hk : kept "/dev/sda1" "ext4").
  { split; [reflexivity|]. unfold excluded. simpl. intuition discriminate. }
  split; [split; [exact Hl | split; [exact Hp | exact Hk]]|].
  exact (proj1 (proj1 (proj2 (mount_rows no_statvfs mounts)) _ _ _ _ _ Hl Hp) Hk).
Defined.

(** The mounts scenario: exactly sda1 and sdb2. *)
Example mounts_scenario :
  map part_device (getPartitionInfo no_statvfs mounts) = ["/dev/sda1"; "/dev/sdb2"] /\
  kept_rows (getlines mounts)
    = [("/dev/sda1", "/", "ext4", "rw,relatime"); ("/dev/sdb2", "/home", "xfs", "rw")].
Proof. split; reflexivity. Qed.

End DiskLsFacts.

(** ** The distro-identity probe *)

Module OsInfoFacts.
Import Std OsInfo.

(** The distro quoting scenario. *)
Example distro_quoting :
  exists info,
    getDistroInfo os_release_quoted = Some info /\
    name info = "Ubuntu" /\ version_id info = "22.04".
Proof. eexists. repeat split; reflexivity. Qed.

Lemma back_nonempty (c : ascii) (s : string) : back (String c s) <> None.
Proof.
  revert c. induction s as [|d s IH]; intros c; cbn [back]; [discriminate|].
  apply IH.
Qed.

(** The character accesses succeed on every value that is not empty. *)
Lemma unquote_nonempty (value : string) :
  value <> EmptyString -> unquote value <> None.
Proof.
  destruct value as [|c s]; [congruence|]. intros _. unfold unquote.
  cbn [front]. destruct (Ascii.eqb c dquote); [|discriminate].
  pose proof (back_nonempty c s) as Hb.
  destruct (back (String c s)); [|congruence].
  destruct (Ascii.eqb _ _); discriminate.
Qed.

(** C10.  There is an os-release text with a line "VERSION_CODENAME=" whose
    value after the "=" is empty; on that value the quote-stripping step
    reads the first character of a string that has none, so that, with
    character access returning an option, the step, the loop body and the
    probe reach the error branch. *)
Theorem unquote_reads_empty_value :
  exists text line key,
    In line (getlines text) /\
    find_char "="%char line = Some (String.length key) /\
    drop (S (String.length key)) line = EmptyString /\
    front EmptyString = None /\
    unquote EmptyString = None /\
    step default_info line = None /\
    getDistroInfo text = None.
Proof.
  exists os_release_empty_value, "VERSION_CODENAME=", "VERSION_CODENAME".
  repeat split; try reflexivity.
  right; right; left. reflexivity.
Qed.

End OsInfoFacts.

(** ** The argument loops *)

Module CliFacts.
Import Std Cli StdFacts.

Lemma count_lines_app (a b : string) :
  count_lines (a ++ b) = (count_lines a + count_lines b)%nat.
Proof.
  induction a as [|c a IH]; [reflexivity|].
  change (String c a ++ b)%string with (String c (a ++ b)).
  cbn [count_lines]. rewrite IH. lia.
Qed.

Lemma count_lines_tool_name (t : tool) : count_lines (tool_name t) = O.
Proof. destruct t; reflexivity. Qed.

(** The diagnostic is two lines, plus the newlines that the argument itself
    carries. *)
Lemma invalid_option_lines (t : tool) (o : options) (arg : string) :
  count_lines (invalid_option t o arg) = (2 + count_lines arg)%nat.
Proof.
  unfold invalid_option, colorize.
  destruct (use_colors o);
    rewrite !count_lines_app, !count_lines_tool_name; cbn;
    change (count_lines RED) with O; change (count_lines RESET) with O; lia.
Qed.

Lemma invalid_option_text (t : tool) (o : options) (arg : string) :
  contains "invalid option" (invalid_option t o arg).
Proof.
  unfold contains, invalid_option, colorize.
  destruct (use_colors o).
  - exists (RED ++ tool_name t ++ ": ")%string.
    eexists. rewrite !append_assoc. reflexivity.
  - exists (tool_name t ++ ": ")%string.
    eexists. rewrite !append_assoc. reflexivity.
Qed.

(** A known flag that is neither help nor version leaves the loop running. *)
Lemma parseArgs_known (t : tool) (o : options) (arg : string) (rest : list string) :
  known t arg = true -> stops arg = false ->
  exists o', parseArgs t o (arg :: rest) = parseArgs t o' rest.
Proof.
  unfold known, stops. intros Hk Hs. cbn [parseArgs].
  repeat (apply orb_false_iff in Hs; destruct Hs as [Hs ?]).
  repeat match goal with
    | E : String.eqb _ _ = false |- _ => rewrite E in *; clear E
    end.
  cbn [orb] in *.
  destruct (lookup_selector t arg); [eauto|].
  destruct (String.eqb arg "--all" || String.eqb arg "-a") eqn:E3; [eauto|].
  destruct (String.eqb arg "--no-color") eqn:E4; [eauto|].
  apply orb_false_iff in E3. destruct E3 as [E3 E3'].
  rewrite E3, E3' in Hk. discriminate Hk.
Qed.

Lemma parseArgs_unknown (t : tool) (o : options) (arg : string) (rest : list string) :
  known t arg = false ->
  parseArgs t o (arg :: rest) = Exit 1 no_banner (invalid_option t o arg).
Proof.
  unfold known. intros Hk. cbn [parseArgs].
  repeat (apply orb_false_iff in Hk; destruct Hk as [Hk ?]).
  destruct (lookup_selector t arg); [discriminate|].
  repeat match goal with E : String.eqb _ _ = false |- _ => rewrite E; clear E end.
  reflexivity.
Qed.

(** C6, amended.  For each of the four tools, when the arguments before an
    unknown flag are known flags other than help and version, the tool
    writes two lines to standard error, the diagnostic, which contains
    "invalid option" and the flag, and the hint to try --help, writes nothing
    to standard output, and exits with code 1. *)
Theorem unknown_flag (t : tool) (pre : list string) (arg : string) (rest : list string) :
  Forall (fun a => known t a = true /\ stops a = false) pre ->
  known t arg = false ->
  forall o, exists o',
    parseArgs t o (pre ++ arg :: rest) = Exit 1 no_banner (invalid_option t o' arg) /\
    contains "invalid option" (invalid_option t o' arg) /\
    count_lines (invalid_option t o' arg) = (2 + count_lines arg)%nat.
Proof.
  intros Hpre Harg. induction Hpre as [|a pre [Hk Hs] _ IH]; intros o.
  - exists o. split; [apply parseArgs_unknown; exact Harg|].
    split; [apply invalid_option_text | apply invalid_option_lines].
  - destruct (parseArgs_known t o a (pre ++ arg :: rest) Hk Hs) as [o1 H1].
    destruct (IH o1) as (o' & H & Hc & Hl).
    exists o'. change ((a :: pre) ++ arg :: rest)%list with (a :: (pre ++ arg :: rest))%list.
    rewrite H1. auto.
Qed.

(** An unknown flag alone makes two lines on standard error, not one. *)
Lemma one_error_line_refuted :
  ~ (forall t arg, known t arg = false ->
       exists err, parseArgs t plain [arg] = Exit 1 no_banner err /\
                   count_lines err = 1%nat).
Proof.
  intros H. destruct (H cpuinfo "--bogus" eq_refl) as (err & He & Hn).
  vm_compute in He. injection He as <-. vm_compute in Hn. discriminate Hn.
Qed.

Lemma unknown_flag_after_selectors :
  (Forall (fun a => known diskls a = true /\ stops a = false) ["-d"; "--no-color"] /\
   known diskls "--bogus" = false) /\
  exists o',
    parseArgs diskls (mkOptions [] true) (["-d"; "--no-color"] ++ "--bogus" :: ["-h"])
      = Exit 1 no_banner (invalid_option diskls o' "--bogus") /\
    contains "invalid option" (invalid_option diskls o' "--bogus") /\
    count_lines (invalid_option diskls o' "--bogus") = (2 + count_lines "--bogus")%nat.
Proof.
  assert (Hp : Forall (fun a => known diskls a = true /\ stops a = false)
                      ["-d"; "--no-color"])
    by (repeat constructor).
  assert (Ha : known diskls "--bogus" = false) by reflexivity.
  split; [split; assumption|].
  exact (unknown_flag diskls ["-d"; "--no-color"] "--bogus" ["-h"] Hp Ha (mkOptions [] true)).
Defined.

(** An unknown flag that follows a help flag is never reached. *)
Example unknown_flag_after_help :
  parseArgs cpuinfo plain ["--help"; "--bogus"] = Exit 0 help_banner "".
Proof. reflexivity. Qed.

End CliFacts.

(** * Further properties *)

(** ** Facts about texts *)

Module TrimFacts.
Import Std StdFacts.

Lemma back_cons (c : ascii) (s : string) (x : ascii) :
  back s = Some x -> back (String c s) = Some x.
Proof. destruct s; [discriminate|]. intros H. exact H. Qed.

(** What [erase(find_last_not_of(set) + 1)] keeps ends with a character
    outside [set]. *)
Lemma find_last_not_of_back (set s : string) :
  match find_last_not_of set s with
  | Some i => exists x, back (take (S i) s) = Some x /\ mem_char x set = false
  | None => True
  end.
Proof.
  induction s as [|c s IH]; cbn [find_last_not_of]; [exact I|].
  destruct (find_last_not_of set s) as [i|].
  - destruct IH as (x & Hx & Hm). exists x. split; [|exact Hm].
    change (take (S (S i)) (String c s)) with (String c (take (S i) s)).
    apply back_cons. exact Hx.
  - destruct (mem_char c set) eqn:E; [exact I|].
    exists c. split; [reflexivity | exact E].
Qed.

(** What [erase(0, find_first_not_of(set))] keeps starts with a character
    outside [set]. *)
Lemma find_first_not_of_front (set s : string) :
  match find_first_not_of set s with
  | Some i => exists x, front (drop i s) = Some x /\ mem_char x set = false
  | None => True
  end.
Proof.
  induction s as [|c s IH]; cbn [find_first_not_of]; [exact I|].
  destruct (mem_char c set) eqn:E.
  - destruct (find_first_not_of set s) as [i|]; cbn; [exact IH | exact I].
  - exists c. split; [reflexivity | exact E].
Qed.

Lemma find_char_take_self (c : ascii) (s : string) (i : nat) :
  find_char c s = Some i -> find_char c (take i s) = None.
Proof.
  revert i. induction s as [|x s IH]; intros i H; [discriminate|].
  cbn [find_char] in H. destruct (Ascii.eqb c x) eqn:E.
  - injection H as <-. reflexivity.
  - destruct (find_char c s) as [j|] eqn:Ej; [|discriminate].
    injection H as <-. cbn [take find_char]. rewrite E, (IH j eq_refl). reflexivity.
Qed.

Lemma find_char_take_none (c : ascii) (n : nat) (s : string) :
  find_char c s = None -> find_char c (take n s) = None.
Proof.
  revert s. induction n as [|n IH]; intros s H; [reflexivity|].
  destruct s as [|x s]; [reflexivity|].
  cbn [take find_char] in *. destruct (Ascii.eqb c x); [discriminate|].
  destruct (find_char c s) eqn:E; [discriminate|]. rewrite (IH s E). reflexivity.
Qed.

Lemma find_char_append (c : ascii) (a b : string) :
  find_char c a = None -> find_char c b = None -> find_char c (a ++ b) = None.
Proof.
  intros Ha Hb. induction a as [|x a IH]; [exact Hb|].
  change (String x a ++ b)%string with (String x (a ++ b)).
  cbn [find_char] in *. destruct (Ascii.eqb c x); [discriminate|].
  destruct (find_char c a); [discriminate|]. rewrite IH; reflexivity.
Qed.

End TrimFacts.


(** ** More on the cpu-identity probe *)

Module CpuInfoMore.
Import Std CpuInfo StdFacts Shapes.

Lemma empty_true (s : string) : empty s = true -> s = EmptyString.
Proof. destruct s; [reflexivity | discriminate]. Qed.

Section Facts.
Variable stod : string -> result double.

(** One run of the loop body that does not throw, branch by branch. *)
Ltac step_cases H :=
  unfold step in H;
  repeat match type of H with
    | context [match split_line ?l with _ => _ end] =>
        destruct (split_line l) as [[? ?]|] eqn:?
    | context [if ?c then _ else _] => destruct c eqn:?
    | bind ?r _ = Ok _ =>
        let x := fresh "x" in let Hx := fresh "Hx" in
        let H' := fresh "H" in
        apply StdFacts.bind_Ok in H; destruct H as (x & Hx & H'); rename H' into H
    end;
  simplify_eq;
  repeat match goal with
    | E : (_ && _)%bool = true |- _ => apply andb_true_iff in E; destruct E
    | E : String.eqb _ _ = true |- _ => apply String.eqb_eq in E; subst
    end.

Ltac close_guarded :=
  first
    [ reflexivity
    | match goal with
      | E : empty _ = _ |- _ => rewrite E; reflexivity
      end
    | match goal with
      | |- context [empty ?c] => destruct c; reflexivity
      end ].

Ltac guarded_field :=
  intros info cc line info' cc' H; unfold value_at;
  step_cases H; cbn;
  try close_guarded;
  match goal with
  | |- context [String.eqb ?a ?b] =>
      destruct (String.eqb a b) eqn:?; cbn in *; close_guarded
  end.

(** A field with a first-value guard: from what the loop body does to it,
    to what the loop does. *)
Section Guarded.
Variable f : CpuInfo -> string.
Variable k : string.
Hypothesis step_f : forall info cc line info' cc',
  step stod (info, cc) line = Ok (info', cc') ->
  f info' = if empty (f info)
            then (if value_at k line is Some v then v else EmptyString)
            else f info.

Lemma loop_guarded lines : forall info cc info' cc',
  loop stod (info, cc) lines = Ok (info', cc') ->
  f info' = if empty (f info) then first_nonempty (values_in k lines) else f info.
Proof.
  induction lines as [|l r IH]; intros info cc info' cc' H; simpl in H.
  - injection H as <- <-. simpl. destruct (f info); reflexivity.
  - apply bind_Ok in H. destruct H as ([i1 c1] & H1 & H2).
    apply step_f in H1. apply IH in H2. rewrite H2, H1. simpl.
    destruct (empty (f info)) eqn:E; [|rewrite E; reflexivity].
    destruct (value_at k l) as [v|]; simpl; [destruct (empty v); reflexivity|].
    reflexivity.
Qed.

End Guarded.

Lemma step_model_name info cc line info' cc' :
  step stod (info, cc) line = Ok (info', cc') ->
  model_name info' = if empty (model_name info)
    then (if value_at "model name" line is Some v then v else EmptyString)
    else model_name info.
Proof. revert info cc line info' cc'. guarded_field. Qed.

Lemma step_vendor_id info cc line info' cc' :
  step stod (info, cc) line = Ok (info', cc') ->
  vendor_id info' = if empty (vendor_id info)
    then (if value_at "vendor_id" line is Some v then v else EmptyString)
    else vendor_id info.
Proof. revert info cc line info' cc'. guarded_field. Qed.

Lemma step_cpu_family info cc line info' cc' :
  step stod (info, cc) line = Ok (info', cc') ->
  cpu_family info' = if empty (cpu_family info)
    then (if value_at "cpu family" line is Some v then v else EmptyString)
    else cpu_family info.
Proof. revert info cc line info' cc'. guarded_field. Qed.

Lemma step_model info cc line info' cc' :
  step stod (info, cc) line = Ok (info', cc') ->
  model info' = if empty (model info)
    then (if value_at "model" line is Some v then v else EmptyString)
    else model info.
Proof. revert info cc line info' cc'. guarded_field. Qed.

Lemma step_stepping info cc line info' cc' :
  step stod (info, cc) line = Ok (info', cc') ->
  stepping info' = if empty (stepping info)
    then (if value_at "stepping" line is Some v then v else EmptyString)
    else stepping info.
Proof. revert info cc line info' cc'. guarded_field. Qed.

Lemma step_microcode info cc line info' cc' :
  step stod (info, cc) line = Ok (info', cc') ->
  microcode info' = if empty (microcode info)
    then (if value_at "microcode" line is Some v then v else EmptyString)
    else microcode info.
Proof. revert info cc line info' cc'. guarded_field. Qed.

Lemma step_cache_size info cc line info' cc' :
  step stod (info, cc) line = Ok (info', cc') ->
  cache_size info' = if empty (cache_size info)
    then (if value_at "cache size" line is Some v then v else EmptyString)
    else cache_size info.
Proof. revert info cc line info' cc'. guarded_field. Qed.

Lemma finish_strings st :
  model_name (finish st) = model_name (fst st) /\
  vendor_id (finish st) = vendor_id (fst st) /\
  cpu_family (finish st) = cpu_family (fst st) /\
  model (finish st) = model (fst st) /\
  stepping (finish st) = stepping (fst st) /\
  microcode (finish st) = microcode (fst st) /\
  cache_size (finish st) = cache_size (fst st) /\
  flags (finish st) = flags (fst st).
Proof.
  destruct st. unfold finish. simpl. destruct (_ =? _); repeat split; reflexivity.
Qed.

(** X1.  When the probe returns a record, each of its seven text fields
    (model name, vendor, family, model, stepping, microcode, cache size) is
    the first value of its key that is not empty, and is empty when the file
    has no such value. *)
Theorem first_value_wins (text : string) (info : CpuInfo) :
  getCpuInfo stod text = Ok info ->
  model_name info = first_nonempty (values_of "model name" text) /\
  vendor_id info = first_nonempty (values_of "vendor_id" text) /\
  cpu_family info = first_nonempty (values_of "cpu family" text) /\
  model info = first_nonempty (values_of "model" text) /\
  stepping info = first_nonempty (values_of "stepping" text) /\
  microcode info = first_nonempty (values_of "microcode" text) /\
  cache_size info = first_nonempty (values_of "cache size" text).
Proof.
  unfold getCpuInfo, values_of. intros H.
  apply bind_Ok in H. destruct H as (st & Hl & Hf). injection Hf as <-.
  destruct (finish_strings st) as (-> & -> & -> & -> & -> & -> & -> & _).
  destruct st as [i c]. cbn [fst].
  repeat split.
  - exact (loop_guarded _ _ step_model_name _ _ _ _ _ Hl).
  - exact (loop_guarded _ _ step_vendor_id _ _ _ _ _ Hl).
  - exact (loop_guarded _ _ step_cpu_family _ _ _ _ _ Hl).
  - exact (loop_guarded _ _ step_model _ _ _ _ _ Hl).
  - exact (loop_guarded _ _ step_stepping _ _ _ _ _ Hl).
  - exact (loop_guarded _ _ step_microcode _ _ _ _ _ Hl).
  - exact (loop_guarded _ _ step_cache_size _ _ _ _ _ Hl).
Qed.

(** *** When the probe returns a record *)

Lemma step_returns (st : state) (line : string) :
  (forall v, value_at "siblings" line = Some v -> exists n, stoi v = Ok n) ->
  (forall v, value_at "cpu MHz" line = Some v -> exists d, stod v = Ok d) ->
  exists st', step stod st line = Ok st'.
Proof.
  unfold value_at, step. destruct st as [info cc].
  destruct (split_line line) as [[key value]|]; [|eauto].
  intros Hs Hm.
  repeat match goal with
    | |- context [if (String.eqb key ?k && ?g)%bool then _ else _] =>
        destruct (String.eqb_spec key k) as [->|]; cbn [andb];
        [ destruct g eqn:?; [cbn; try (eexists; reflexivity) | cbn]
        | ]
    | |- context [if String.eqb key ?k then _ else _] =>
        destruct (String.eqb_spec key k) as [->|];
        [ cbn; try (eexists; reflexivity) | ]
    end;
  try (eexists; reflexivity).
  - destruct (Hm value eq_refl) as [d ->]. eexists; reflexivity.
  - destruct (Hs value eq_refl) as [z ->]. eexists; reflexivity.
Qed.

Lemma loop_returns (lines : list string) : forall st,
  Forall (fun v => exists n, stoi v = Ok n) (values_in "siblings" lines) ->
  Forall (fun v => exists d, stod v = Ok d) (values_in "cpu MHz" lines) ->
  exists st', loop stod st lines = Ok st'.
Proof.
  induction lines as [|l r IH]; intros st Hs Hm; simpl in *; [eauto|].
  destruct (step_returns st l) as [st1 H1].
  - intros v Hv. rewrite Hv in Hs. apply Forall_cons in Hs. tauto.
  - intros v Hv. rewrite Hv in Hm. apply Forall_cons in Hm. tauto.
  - rewrite H1. simpl. apply IH.
    + destruct (value_at "siblings" l); [apply Forall_cons in Hs; tauto | exact Hs].
    + destruct (value_at "cpu MHz" l); [apply Forall_cons in Hm; tauto | exact Hm].
Qed.

Lemma loop_siblings_convert (lines : list string) : forall st st',
  loop stod st lines = Ok st' ->
  Forall (fun v => exists n, stoi v = Ok n) (values_in "siblings" lines).
Proof.
  induction lines as [|l r IH]; intros st st' H; simpl in *; [constructor|].
  apply bind_Ok in H. destruct H as (st1 & H1 & H2).
  specialize (IH _ _ H2).
  destruct (value_at "siblings" l) as [v|] eqn:E; [|exact IH].
  constructor; [|exact IH].
  destruct (stoi v) as [n|e] eqn:Ev; [eauto|].
  rewrite (CpuInfoFacts.step_siblings_throw stod st l v e E Ev) in H1. discriminate.
Qed.

(** X2.  The probe returns a record whenever every [siblings] value of the
    file converts with [std::stoi] and every [cpu MHz] value with
    [std::stod]; and when it returns a record, every [siblings] value
    converts. *)
Theorem returns_when_numbers_convert (text : string) :
  (Forall (fun v => exists n, stoi v = Ok n) (values_of "siblings" text) ->
   Forall (fun v => exists d, stod v = Ok d) (values_of "cpu MHz" text) ->
   exists info, getCpuInfo stod text = Ok info) /\
  (forall info, getCpuInfo stod text = Ok info ->
   Forall (fun v => exists n, stoi v = Ok n) (values_of "siblings" text)).
Proof.
  unfold getCpuInfo, values_of. split.
  - intros Hs Hm.
    destruct (loop_returns (getlines text) (default_info, ∅) Hs Hm) as [st ->].
    eexists. reflexivity.
  - intros info H. apply bind_Ok in H. destruct H as (st & Hl & _).
    exact (loop_siblings_convert _ _ _ Hl).
Qed.

(** *** The feature flags *)

Lemma all_of_snoc (p : ascii -> bool) (cur : string) (c : ascii) :
  all_of p cur = true -> p c = true -> all_of p (cur ++ String c "") = true.
Proof.
  intros Hcur Hc. induction cur as [|a cur IH].
  - change (all_of p (String c "") = true). cbn. rewrite Hc. reflexivity.
  - change (String a cur ++ String c "")%string with (String a (cur ++ String c "")).
    cbn [all_of] in *. apply andb_true_iff in Hcur. destruct Hcur as [-> Hcur].
    cbn. apply IH. exact Hcur.
Qed.

Lemma words_aux_word (s : string) : forall cur,
  (cur = EmptyString \/ is_word cur) -> Forall is_word (words_aux cur s).
Proof.
  induction s as [|c s IH]; intros cur Hcur; cbn [words_aux].
  - destruct cur; cbn; [constructor|].
    destruct Hcur as [|Hw]; [discriminate|]. constructor; [exact Hw|constructor].
  - destruct (isspace c) eqn:Hc.
    + destruct cur as [|a cur]; cbn [empty]; [apply IH; left; reflexivity|].
      destruct Hcur as [|Hw]; [discriminate|].
      constructor; [exact Hw|]. apply IH. left; reflexivity.
    + apply IH. right. split.
      * destruct cur; discriminate.
      * apply all_of_snoc; [|rewrite Hc; reflexivity].
        destruct Hcur as [->|[_ Hw]]; [reflexivity | exact Hw].
Qed.

Lemma step_flags info cc line info' cc' :
  step stod (info, cc) line = Ok (info', cc') ->
  flags info' = flags info \/
  (flags info = [] /\ exists v, value_at "flags" line = Some v /\ flags info' = words v).
Proof.
  intros H. unfold value_at. step_cases H; cbn; auto.
  right. split; [eapply bool_decide_eq_true_1; eassumption|]. eauto.
Qed.

Lemma loop_flags (lines : list string) : forall info cc info' cc',
  loop stod (info, cc) lines = Ok (info', cc') ->
  Forall is_word (flags info) -> Forall is_word (flags info').
Proof.
  induction lines as [|l r IH]; intros info cc info' cc' H Hw; simpl in H.
  - injection H as <- <-. exact Hw.
  - apply bind_Ok in H. destruct H as ([i1 c1] & H1 & H2).
    apply (IH _ _ _ _ H2).
    destruct (step_flags _ _ _ _ _ H1) as [->|(_ & v & _ & ->)]; [exact Hw|].
    apply words_aux_word. left; reflexivity.
Qed.

(** X3.  When the probe returns a record, every feature flag in it is a
    non-empty text without white space. *)
Theorem flags_are_words (text : string) (info : CpuInfo) :
  getCpuInfo stod text = Ok info -> Forall is_word (flags info).
Proof.
  unfold getCpuInfo. intros H.
  apply bind_Ok in H. destruct H as (st & Hl & Hf). injection Hf as <-.
  destruct (finish_strings st) as (_ & _ & _ & _ & _ & _ & _ & ->).
  destruct st as [i c]. apply (loop_flags _ _ _ _ _ Hl). constructor.
Qed.

(** *** The counts *)

(** X4.  When the probe returns a record, both counts are non-negative,
    and the physical-core count is 0 only for a file with neither a
    [processor] key nor a [core id] key. *)
Theorem counts_nonnegative (text : string) (info : CpuInfo) :
  getCpuInfo stod text = Ok info ->
  0 <= logical_cores info /\ 0 <= physical_cores info /\
  (physical_cores info = 0 <->
   values_of "processor" text = [] /\ values_of "core id" text = []).
Proof.
  unfold getCpuInfo, values_of. intros H.
  apply bind_Ok in H. destruct H as (st & Hl & Hf). injection Hf as <-.
  rewrite CpuInfoFacts.finish_logical, CpuInfoFacts.finish_physical.
  destruct st as [i c]. cbn [fst snd].
  pose proof (CpuInfoFacts.loop_logical stod _ _ _ _ _ Hl) as Hlog.
  pose proof (CpuInfoFacts.loop_core_count stod _ _ _ _ _ Hl) as Hdom.
  cbn in Hlog. rewrite dom_empty_L, (left_id_L ∅ (∪)) in Hdom.
  assert (Hsz : size c = length (remove_dups (values_in "core id" (getlines text)))).
  { rewrite <- CpuInfoFacts.size_distinct, <- size_dom. f_equal. exact Hdom. }
  assert (Hnil : size c = O <-> values_in "core id" (getlines text) = []).
  { rewrite Hsz. split.
    - intros Hz. destruct (values_in "core id" (getlines text)) as [|v vs]; [reflexivity|].
      assert (Hin : v ∈ remove_dups (v :: vs)) by (apply elem_of_remove_dups; left).
      destruct (remove_dups (v :: vs)); [inversion Hin | discriminate].
    - intros ->. reflexivity. }
  split; [lia|]. destruct (size c) as [|n] eqn:Ec.
  - split; [lia|]. split.
    + intros Hz. split; [|apply Hnil; reflexivity].
      destruct (values_in "processor" (getlines text)); [reflexivity|].
      cbn [length] in Hlog. lia.
    + intros [Hp _]. rewrite Hp in Hlog. cbn in Hlog. lia.
  - split; [lia|]. split; [lia|].
    intros [_ Hc]. apply Hnil in Hc. discriminate.
Qed.

End Facts.
Lemma first_value_wins_two_threads :
  getCpuInfo stod_decimal two_threads = Ok two_threads_info /\
  model_name two_threads_info = first_nonempty (values_of "model name" two_threads).
Proof.
  assert (H : getCpuInfo stod_decimal two_threads = Ok two_threads_info)
    by reflexivity.
  split; [exact H|].
  exact (proj1 (first_value_wins stod_decimal two_threads two_threads_info H)).
Defined.

Lemma returns_when_numbers_convert_two_threads :
  (Forall (fun v => exists n, stoi v = Ok n) (values_of "siblings" two_threads) /\
   Forall (fun v => exists d, stod_decimal v = Ok d) (values_of "cpu MHz" two_threads)) /\
  exists info, getCpuInfo stod_decimal two_threads = Ok info.
Proof.
  assert (Hs : Forall (fun v => exists n, stoi v = Ok n) (values_of "siblings" two_threads))
    by (repeat constructor; exists 2; reflexivity).
  assert (Hm : Forall (fun v => exists d, stod_decimal v = Ok d)
                      (values_of "cpu MHz" two_threads))
    by constructor.
  split; [split; assumption|].
  exact (proj1 (returns_when_numbers_convert stod_decimal two_threads) Hs Hm).
Defined.

Lemma flags_are_words_with_flags :
  getCpuInfo stod_decimal Fixtures.with_flags = Ok Fixtures.with_flags_info /\
  Forall is_word (flags Fixtures.with_flags_info).
Proof.
  assert (H : getCpuInfo stod_decimal Fixtures.with_flags = Ok Fixtures.with_flags_info)
    by reflexivity.
  split; [exact H|].
  exact (flags_are_words stod_decimal Fixtures.with_flags Fixtures.with_flags_info H).
Defined.

Lemma counts_nonnegative_two_threads :
  getCpuInfo stod_decimal two_threads = Ok two_threads_info /\
  0 <= logical_cores two_threads_info /\ 0 <= physical_cores two_threads_info.
Proof.
  assert (H : getCpuInfo stod_decimal two_threads = Ok two_threads_info)
    by reflexivity.
  split; [exact H|].
  destruct (counts_nonnegative stod_decimal two_threads two_threads_info H)
    as (Hl & Hp & _).
  split; assumption.
Defined.

End CpuInfoMore.

(** ** More on the cpu-identity probe: keys and values *)

Module SplitLineFacts.
Import Std CpuInfo StdFacts TrimFacts.

(** X5.  The key that the probe compares holds no colon and does not end
    with a blank or a tab; the value does not start with one. *)
Theorem key_and_value_trimmed (line key value : string) :
  split_line line = Some (key, value) ->
  find_char ":"%char key = None /\
  (forall x, back key = Some x -> mem_char x blanks = false) /\
  (forall x, front value = Some x -> mem_char x blanks = false).
Proof.
  unfold split_line. destruct (find_char ":"%char line) as [colon|] eqn:E; [|discriminate].
  pose proof (find_char_take_self _ _ _ E) as Hk.
  remember (take colon line) as k eqn:Ek. remember (drop (S colon) line) as v eqn:Ev.
  intros [= <- <-]. unfold trim_key, trim_value. split; [|split].
  - destruct (find_last_not_of blanks k); [|reflexivity].
    apply find_char_take_none. exact Hk.
  - pose proof (find_last_not_of_back blanks k) as Hb.
    destruct (find_last_not_of blanks k);
      [|intros x Hx; cbn in Hx; discriminate Hx].
    destruct Hb as (y & Hy & Hm). intros x Hx. congruence.
  - pose proof (find_first_not_of_front blanks v) as Hf.
    destruct (find_first_not_of blanks v);
      [|intros x Hx; cbn in Hx; discriminate Hx].
    destruct Hf as (y & Hy & Hm). intros x Hx. congruence.
Qed.

Lemma key_and_value_trimmed_model_name :
  split_line Fixtures.model_name_line = Some ("model name", "Example CPU") /\
  find_char ":"%char "model name" = None.
Proof.
  assert (H : split_line Fixtures.model_name_line = Some ("model name", "Example CPU"))
    by reflexivity.
  split; [exact H|].
  exact (proj1 (key_and_value_trimmed Fixtures.model_name_line _ _ H)).
Defined.

End SplitLineFacts.


(** ** The cpu-load probe on a sample *)

Module CpuLoadMore.
Import Std CpuLoad.

Lemma cpu_usage_in_range_sample :
  (let l := getCpuLoad (Some Fixtures.stat_text) in
   user l + nice l + system l + idle l + iowait l + irq l + softirq l < 2 ^ 64) /\
  percent_in_range (cpu_usage (getCpuLoad (Some Fixtures.stat_text))).
Proof.
  assert (H : let l := getCpuLoad (Some Fixtures.stat_text) in
              user l + nice l + system l + idle l + iowait l + irq l + softirq l < 2 ^ 64)
    by reflexivity.
  split; [exact H|].
  exact (CpuLoadFacts.cpu_usage_in_range (Some Fixtures.stat_text) H).
Defined.

(** The sample: 150 of 1000 jiffies are neither idle nor waiting. *)
Example cpu_usage_sample :
  exists q, cpu_usage (getCpuLoad (Some Fixtures.stat_text)) = DFin q /\ (q == 15)%Q.
Proof. eexists. split; reflexivity. Qed.

End CpuLoadMore.

(** ** The cpu-frequency probe *)

Module CpuFreqFacts.
Import Std CpuFreq.

Section Facts.
Variable indeterminate_khz : Z.

Lemma skip_unqualified (pre rest : list cpu_entry) :
  Forall (fun e => ~ qualifies e) pre ->
  getCpuFrequencies indeterminate_khz (pre ++ rest) =
    getCpuFrequencies indeterminate_khz rest.
Proof.
  induction 1 as [|e pre He _ IH]; [reflexivity|].
  cbn [app getCpuFrequencies]. unfold qualifies in He.
  destruct (is_cpu_dir (dirname e)); cbn [negb]; [|exact IH].
  destruct (cpufreq e); [|exact IH].
  destruct He. split; [reflexivity | discriminate].
Qed.

(** X7.  The probe reads only the first entry named cpu<digit>... that
    has a cpufreq directory: its record is the whole result, whatever
    entries follow; and the result is empty when no entry is of that
    kind. *)
Theorem first_cpu_only (pre rest : list cpu_entry) (e : cpu_entry) (d : cpufreq_dir) :
  Forall (fun e => ~ qualifies e) pre ->
  (is_cpu_dir (dirname e) = true -> cpufreq e = Some d ->
   getCpuFrequencies indeterminate_khz (pre ++ e :: rest)
     = [freq_of indeterminate_khz d]) /\
  getCpuFrequencies indeterminate_khz pre = [].
Proof.
  intros Hpre. split.
  - intros Hn Hd. rewrite (skip_unqualified _ _ Hpre).
    cbn [getCpuFrequencies]. rewrite Hn, Hd. reflexivity.
  - rewrite <- (app_nil_r pre). rewrite (skip_unqualified _ _ Hpre). reflexivity.
Qed.

End Facts.
Lemma first_cpu_only_cpu1 :
  (Forall (fun e => ~ qualifies e) [Fixtures.cpufreq_entry; Fixtures.cpu0_entry] /\
   is_cpu_dir (dirname Fixtures.cpu1_entry) = true /\
   cpufreq Fixtures.cpu1_entry = Some Fixtures.cpu1_dir) /\
  getCpuFrequencies 0
    ([Fixtures.cpufreq_entry; Fixtures.cpu0_entry]
     ++ Fixtures.cpu1_entry :: [Fixtures.cpu2_entry])
  = [freq_of 0 Fixtures.cpu1_dir].
Proof.
  assert (Hp : Forall (fun e => ~ qualifies e)
                 [Fixtures.cpufreq_entry; Fixtures.cpu0_entry]).
  { repeat constructor; intros [H1 H2]; cbn in *; congruence. }
  assert (Hn : is_cpu_dir (dirname Fixtures.cpu1_entry) = true) by reflexivity.
  assert (Hd : cpufreq Fixtures.cpu1_entry = Some Fixtures.cpu1_dir) by reflexivity.
  split; [repeat split; assumption|].
  exact (proj1 (first_cpu_only 0 _ [Fixtures.cpu2_entry] Fixtures.cpu1_entry
                  Fixtures.cpu1_dir Hp) Hn Hd).
Defined.

End CpuFreqFacts.


(** ** More on the memory probes *)

Module MemInfoMore.
Import Std MemInfo StdFacts TrimFacts Shapes.

(** *** The summary *)

Lemma fold_step_invariant (P : MemoryInfo -> Prop) :
  (forall info line, P info -> P (step info line)) ->
  forall lines info, P info -> P (fold_left step lines info).
Proof.
  intros Hstep lines. induction lines as [|l r IH]; intros info H; simpl; auto.
Qed.

Lemma store_in_range (key : string) (value : Z) (info : MemoryInfo) :
  u64 value -> summary_in_range info -> summary_in_range (store key value info).
Proof.
  unfold store, summary_in_range. intros Hv H.
  repeat match goal with
    | |- context [if String.eqb key ?k then _ else _] => destruct (String.eqb key k)
    end; cbn; tauto.
Qed.

Lemma step_in_range (info : MemoryInfo) (line : string) :
  summary_in_range info -> summary_in_range (step info line).
Proof.
  intros H. unfold step.
  destruct (get_word "" (open line)) as [key s1].
  pose proof (get_unsigned_range 0 s1 ltac:(lia)) as Hv.
  destruct (get_unsigned 0 s1) as [value s2]. cbn [fst] in Hv.
  destruct (failed s2); [exact H|]. apply store_in_range; assumption.
Qed.

(** X8.  Whatever the text of the memory-info file, every slot of the
    summary is a 64-bit unsigned value: no slot is negative. *)
Theorem summary_slots_in_range (text : string) :
  summary_in_range (getMemoryInfo text).
Proof.
  unfold getMemoryInfo. apply fold_step_invariant.
  - apply step_in_range.
  - unfold summary_in_range, u64. cbn. lia.
Qed.

Ltac key_cases k :=
  repeat match goal with
    | |- context [String.eqb k ?c] =>
        destruct (String.eqb_spec k c) as [->|]
    end.

Lemma slot_store_other (key key' : string) (value : Z) (info : MemoryInfo) :
  key' <> key -> slot key (store key' value info) = slot key info.
Proof.
  intros Hne. unfold store.
  key_cases key'; try reflexivity;
    unfold slot; key_cases key; cbn; congruence.
Qed.

Lemma slot_store_same (key : string) (value : Z) (info : MemoryInfo) :
  slot key info <> None -> slot key (store key value info) = Some value.
Proof.
  unfold slot at 1. unfold store.
  key_cases key; cbn; congruence.
Qed.

Lemma step_other_key (key : string) (info : MemoryInfo) (line : string) :
  first_word line <> key -> slot key (step info line) = slot key info.
Proof.
  unfold first_word, step. intros Hne.
  destruct (get_word "" (open line)) as [key' s1]. cbn [fst] in Hne.
  destruct (get_unsigned 0 s1) as [value s2].
  destruct (failed s2); [reflexivity|]. apply slot_store_other. exact Hne.
Qed.

Lemma fold_other_key (key : string) (lines : list string) : forall info,
  Forall (fun l => first_word l <> key) lines ->
  slot key (fold_left step lines info) = slot key info.
Proof.
  induction lines as [|l r IH]; intros info H; simpl; [reflexivity|].
  apply Forall_cons in H. destruct H as [Hl Hr].
  rewrite (IH _ Hr). apply step_other_key. exact Hl.
Qed.

(** X9.  A key that no line of the file starts with leaves its slot at
    the default 0. *)
Theorem absent_key_keeps_default (key text : string) :
  Forall (fun l => first_word l <> key) (getlines text) ->
  slot key (getMemoryInfo text) = slot key default_info.
Proof. intros H. unfold getMemoryInfo. apply fold_other_key. exact H. Qed.

(** X10.  The slot of a recognised key holds the number of the last line
    that starts with that key and carries a number: later lines with other
    keys do not change it, earlier lines with the same key are
    overwritten. *)
Theorem last_line_of_key_wins (key text line : string) (pre post : list string)
    (value : Z) (rest : istream) :
  slot key default_info <> None ->
  getlines text = (pre ++ line :: post)%list ->
  first_word line = key ->
  get_unsigned 0 (snd (get_word "" (open line))) = (value, rest) ->
  failed rest = false ->
  Forall (fun l => first_word l <> key) post ->
  slot key (getMemoryInfo text) = Some value.
Proof.
  intros Hrec Hlines Hkey Hval Hok Hpost. unfold getMemoryInfo.
  rewrite Hlines, fold_left_app. cbn [fold_left].
  rewrite (fold_other_key _ _ _ Hpost).
  unfold step. unfold first_word in Hkey.
  destruct (get_word "" (open line)) as [k s1]. cbn [fst snd] in *. subst k.
  rewrite Hval, Hok. apply slot_store_same.
  revert Hrec. unfold slot. key_cases key; cbn; congruence.
Qed.

(** *** The per-process probe *)

Lemma visit_qualifying (e : proc_entry) (p : ProcessInfo) :
  visit e = Ok (Some p) -> qualifying p.
Proof.
  unfold visit. intros H.
  destruct (negb (is_directory e)); [discriminate|].
  destruct (negb (all_of isdigit (dirname e))); [discriminate|].
  apply bind_Ok in H. destruct H as (n & _ & H).
  destruct (status_file e) as [status|]; [|discriminate].
  apply bind_Ok in H. destruct H as ([nm kb] & _ & H).
  destruct (negb (empty nm) && (0 <? kb)) eqn:E; [|discriminate].
  injection H as <-. apply andb_true_iff in E. destruct E as [En Ek].
  split; cbn.
  - destruct nm; [discriminate | discriminate].
  - apply Z.ltb_lt. exact Ek.
Qed.

Lemma collect_qualifying (entries : list proc_entry) : forall acc,
  Forall qualifying acc -> Forall qualifying (fst (collect acc entries)).
Proof.
  induction entries as [|e r IH]; intros acc H; simpl; [exact H|].
  destruct (visit e) as [[p|]|x] eqn:E; simpl; auto.
  apply IH. apply Forall_app. split; [exact H|].
  constructor; [exact (visit_qualifying _ _ E) | constructor].
Qed.

Lemma insert_desc_Forall (P : ProcessInfo -> Prop) (p : ProcessInfo) (l : list ProcessInfo) :
  P p -> Forall P l -> Forall P (insert_desc p l).
Proof.
  intros Hp Hl. induction Hl as [|q l Hq Hl IH]; simpl.
  - constructor; [exact Hp | constructor].
  - destruct (memory_kb q <? memory_kb p); constructor; auto.
Qed.

Lemma sort_desc_Forall (P : ProcessInfo -> Prop) (l : list ProcessInfo) :
  Forall P l -> Forall P (sort_desc l).
Proof.
  induction 1 as [|p l Hp Hl IH]; simpl; [constructor|].
  apply insert_desc_Forall; assumption.
Qed.

Lemma insert_desc_descending (p : ProcessInfo) (l : list ProcessInfo) :
  descending l -> descending (insert_desc p l).
Proof.
  induction l as [|q l IH]; intros Hd; simpl.
  - split; [constructor | exact I].
  - destruct Hd as [Hq Hd].
    destruct (Z.ltb_spec (memory_kb q) (memory_kb p)) as [Hlt|Hge].
    + split; [|split; assumption].
      constructor; [lia|].
      eapply Forall_impl; [exact Hq|]. cbn. intros x Hx. lia.
    + split; [|apply IH; exact Hd].
      apply insert_desc_Forall; [lia | exact Hq].
Qed.

Lemma sort_desc_descending (l : list ProcessInfo) : descending (sort_desc l).
Proof.
  induction l as [|p l IH]; simpl; [exact I|].
  apply insert_desc_descending. exact IH.
Qed.

Lemma firstn_Forall (P : ProcessInfo -> Prop) (n : nat) (l : list ProcessInfo) :
  Forall P l -> Forall P (firstn n l).
Proof.
  revert l. induction n as [|n IH]; intros l H; [constructor|].
  destruct H as [|p l Hp Hl]; [constructor|].
  cbn [firstn]. constructor; auto.
Qed.

Lemma firstn_descending (n : nat) (l : list ProcessInfo) :
  descending l -> descending (firstn n l).
Proof.
  revert l. induction n as [|n IH]; intros l Hd; [exact I|].
  destruct l as [|p l]; [exact I|]. destruct Hd as [Hp Hd].
  cbn [firstn]. split; [apply firstn_Forall; exact Hp | apply IH; exact Hd].
Qed.

(** X12.  Whatever the entries of /proc, the result of the per-process
    probe has at most [limit] records, in non-increasing order of resident
    size, and every record has a non-empty name and a positive size. *)
Theorem top_processes_sorted (limit : nat) (entries : list proc_entry) :
  let processes := fst (getTopProcesses limit entries) in
  (length processes <= limit)%nat /\
  descending processes /\
  Forall qualifying processes.
Proof.
  unfold getTopProcesses.
  pose proof (collect_qualifying entries [] ltac:(constructor)) as Hq.
  destruct (collect [] entries) as [ps warned]. cbn [fst] in *.
  split; [apply firstn_le_length|]. split.
  - apply firstn_descending. apply sort_desc_descending.
  - apply firstn_Forall. apply sort_desc_Forall. exact Hq.
Qed.




(** *** The command line *)

Lemma take_length_le (n : nat) (s : string) : (String.length (take n s) <= n)%nat.
Proof.
  revert s. induction n as [|n IH]; intros s; [cbn; lia|].
  destruct s as [|c s]; cbn; [lia|]. specialize (IH s). lia.
Qed.

Lemma length_append (a b : string) :
  String.length (a ++ b) = (String.length a + String.length b)%nat.
Proof.
  induction a as [|c a IH]; [reflexivity|].
  change (String c a ++ b)%string with (String c (a ++ b)).
  cbn [String.length]. rewrite IH. reflexivity.
Qed.

Lemma replace_no_nul (s : string) :
  find_char "000"%char (replace "000"%char " "%char s) = None.
Proof.
  induction s as [|x s IH]; [reflexivity|].
  cbn [replace find_char]. rewrite IH.
  destruct (Ascii.eqb_spec x "000"%char) as [->|Hne]; [reflexivity|].
  destruct (Ascii.eqb_spec "000"%char x) as [<-|]; [congruence | reflexivity].
Qed.

(** What [read_cmd] leaves of the cmdline file. *)
Lemma read_cmd_short (cmdline : option string) :
  (String.length (read_cmd cmdline) <= 40)%nat /\
  find_char "000"%char (read_cmd cmdline) = None.
Proof.
  unfold read_cmd. destruct cmdline as [text|]; [|split; [cbn; lia | reflexivity]].
  set (line := match getline_first text with Some l => l | None => EmptyString end).
  pose proof (replace_no_nul line) as Hn.
  destruct (Nat.ltb_spec 40 (String.length (replace "000"%char " "%char line))) as [Hl|Hl].
  - split.
    + rewrite length_append. pose proof (take_length_le 37 (replace "000"%char " "%char line)).
      cbn [String.length]. lia.
    + apply find_char_append; [apply find_char_take_none; exact Hn | reflexivity].
  - split; [exact Hl | exact Hn].
Qed.

Lemma visit_cmd (e : proc_entry) (p : ProcessInfo) :
  visit e = Ok (Some p) -> cmd p = read_cmd (cmdline_file e).
Proof.
  unfold visit. intros H.
  destruct (negb (is_directory e)); [discriminate|].
  destruct (negb (all_of isdigit (dirname e))); [discriminate|].
  apply bind_Ok in H. destruct H as (n & _ & H).
  destruct (status_file e) as [status|]; [|discriminate].
  apply bind_Ok in H. destruct H as ([nm kb] & _ & H).
  destruct (negb (empty nm) && (0 <? kb)); [|discriminate].
  injection H as <-. reflexivity.
Qed.

Lemma collect_Forall (P : ProcessInfo -> Prop) (entries : list proc_entry) :
  (forall e p, visit e = Ok (Some p) -> P p) ->
  forall acc, Forall P acc -> Forall P (fst (collect acc entries)).
Proof.
  intros HP. induction entries as [|e r IH]; intros acc H; simpl; [exact H|].
  destruct (visit e) as [[p|]|x] eqn:E; simpl; auto.
  apply IH. apply Forall_app. split; [exact H|].
  constructor; [exact (HP _ _ E) | constructor].
Qed.

(** X14.  Whatever the entries of /proc and their cmdline files hold, the
    command line of every record that the per-process probe returns is at
    most 40 characters long and holds no NUL byte. *)
Theorem cmd_is_short (limit : nat) (entries : list proc_entry) :
  Forall (fun p => (String.length (cmd p) <= 40)%nat /\
                   find_char "000"%char (cmd p) = None)
         (fst (getTopProcesses limit entries)).
Proof.
  unfold getTopProcesses.
  assert (Hc : Forall (fun p => (String.length (cmd p) <= 40)%nat /\
                                find_char "000"%char (cmd p) = None)
                      (fst (collect [] entries))).
  { apply collect_Forall; [|constructor].
    intros e p Hv. rewrite (visit_cmd _ _ Hv). apply read_cmd_short. }
  destruct (collect [] entries) as [ps warned]. cbn [fst] in *.
  apply firstn_Forall. apply sort_desc_Forall. exact Hc.
Qed.

(** A process with a command line of 116 characters and NUL separators:
    37 characters and three dots are left. *)
Example cmd_is_short_long_cmdline :
  map cmd (fst (getTopProcesses 15 [Fixtures.long_cmdline_entry]))
  = ["/usr/bin/example --with-a-long-option..."].
Proof. reflexivity. Qed.

(** *** Status files without a name or a size *)

Lemma scan_status_keeps (lines : list string) : forall nm kb nm' kb',
  scan_status nm kb lines = Ok (nm', kb') ->
  (Forall (fun l => take 5 l <> "Name:") lines -> nm' = nm) /\
  (Forall (fun l => take 6 l <> "VmRSS:") lines -> kb' = kb).
Proof.
  induction lines as [|l r IH]; intros nm kb nm' kb' H; cbn [scan_status] in H.
  - injection H as <- <-. split; reflexivity.
  - destruct (String.eqb_spec (take 5 l) "Name:") as [En|En].
    + apply bind_Ok in H. destruct H as (n & _ & H).
      destruct (IH _ _ _ _ H) as [_ IH2]. split.
      * intros Hf. apply Forall_cons in Hf. tauto.
      * intros Hf. apply Forall_cons in Hf. apply IH2. tauto.
    + destruct (String.eqb_spec (take 6 l) "VmRSS:") as [Ev|Ev].
      * split.
        -- destruct (get_word "" (open l)) as [key s1].
           destruct (get_unsigned kb s1) as [kb1 s2].
           destruct (failed s2).
           ++ destruct (IH _ _ _ _ H) as [IH1 _].
              intros Hf. apply Forall_cons in Hf. apply IH1. tauto.
           ++ injection H as <- <-. reflexivity.
        -- intros Hf. apply Forall_cons in Hf. tauto.
      * destruct (IH _ _ _ _ H) as [IH1 IH2]. split.
        -- intros Hf. apply Forall_cons in Hf. apply IH1. tauto.
        -- intros Hf. apply Forall_cons in Hf. apply IH2. tauto.
Qed.

(** X15.  A process whose status file has no line starting with "Name:",
    or no line starting with "VmRSS:" (a kernel thread), is never
    emitted. *)
Theorem no_name_or_size_not_emitted (e : proc_entry) (status : string) :
  status_file e = Some status ->
  Forall (fun l => take 5 l <> "Name:") (getlines status) \/
  Forall (fun l => take 6 l <> "VmRSS:") (getlines status) ->
  forall p, visit e <> Ok (Some p).
Proof.
  intros Hs Hno p H. unfold visit in H.
  destruct (negb (is_directory e)); [discriminate|].
  destruct (negb (all_of isdigit (dirname e))); [discriminate|].
  apply bind_Ok in H. destruct H as (n & _ & H). rewrite Hs in H.
  apply bind_Ok in H. destruct H as ([nm kb] & Hscan & H).
  destruct (scan_status_keeps _ _ _ _ _ Hscan) as [Hn Hk].
  destruct Hno as [Hno|Hno].
  - rewrite (Hn Hno) in H. discriminate.
  - rewrite (Hk Hno) in H. cbn in H. rewrite andb_false_r in H. discriminate.
Qed.

Lemma absent_key_keeps_default_swap :
  Forall (fun l => first_word l <> "SwapTotal:") (getlines memtotal_zero) /\
  slot "SwapTotal:" (getMemoryInfo memtotal_zero) = slot "SwapTotal:" default_info.
Proof.
  assert (H : Forall (fun l => first_word l <> "SwapTotal:") (getlines memtotal_zero)).
  { repeat constructor; intros E; vm_compute in E; discriminate E. }
  split; [exact H|].
  exact (absent_key_keeps_default "SwapTotal:" memtotal_zero H).
Defined.

Lemma last_line_of_key_wins_memtotal :
  (slot "MemTotal:" default_info <> None /\
   getlines Fixtures.memtotal_twice
     = ([Fixtures.memtotal_first] ++ Fixtures.memtotal_second :: [Fixtures.memfree_line])%list /\
   first_word Fixtures.memtotal_second = "MemTotal:" /\
   get_unsigned 0 (snd (get_word "" (open Fixtures.memtotal_second)))
     = (8000, {| buf := " kB"; failed := false |}) /\
   Forall (fun l => first_word l <> "MemTotal:") [Fixtures.memfree_line]) /\
  slot "MemTotal:" (getMemoryInfo Fixtures.memtotal_twice) = Some 8000.
Proof.
  assert (H1 : slot "MemTotal:" default_info <> None) by discriminate.
  assert (H2 : getlines Fixtures.memtotal_twice
     = ([Fixtures.memtotal_first] ++ Fixtures.memtotal_second :: [Fixtures.memfree_line])%list)
    by reflexivity.
  assert (H3 : first_word Fixtures.memtotal_second = "MemTotal:") by reflexivity.
  assert (H4 : get_unsigned 0 (snd (get_word "" (open Fixtures.memtotal_second)))
     = (8000, {| buf := " kB"; failed := false |})) by reflexivity.
  assert (H5 : Forall (fun l => first_word l <> "MemTotal:") [Fixtures.memfree_line]).
  { repeat constructor; intros E; vm_compute in E; discriminate E. }
  split; [repeat split; assumption|].
  exact (last_line_of_key_wins "MemTotal:" Fixtures.memtotal_twice Fixtures.memtotal_second
           [Fixtures.memtotal_first] [Fixtures.memfree_line] 8000
           {| buf := " kB"; failed := false |} H1 H2 H3 H4 eq_refl H5).
Defined.

Lemma used_percentage_in_range_scenario :
  (0 < total_kb (getMemoryInfo Fixtures.meminfo_usage) < 2 ^ 64 /\
   0 <= available_kb (getMemoryInfo Fixtures.meminfo_usage)
     <= total_kb (getMemoryInfo Fixtures.meminfo_usage)) /\
  percent_in_range (used_percentage (getMemoryInfo Fixtures.meminfo_usage)).
Proof.
  assert (H1 : 0 < total_kb (getMemoryInfo Fixtures.meminfo_usage) < 2 ^ 64)
    by (split; reflexivity).
  assert (H2 : 0 <= available_kb (getMemoryInfo Fixtures.meminfo_usage)
                 <= total_kb (getMemoryInfo Fixtures.meminfo_usage))
    by (split; vm_compute; discriminate).
  split; [split; assumption|].
  exact (MemInfoFacts.used_percentage_in_range (getMemoryInfo Fixtures.meminfo_usage) H1 H2).
Defined.

(** The meminfo usage scenario: used = 6000 kB, 75%. *)
Example meminfo_usage_scenario :
  used_kb (getMemoryInfo Fixtures.meminfo_usage) = 6000 /\
  exists q, used_percentage (getMemoryInfo Fixtures.meminfo_usage) = DFin q /\ (q == 75)%Q.
Proof. split; [reflexivity|]. eexists. split; reflexivity. Qed.


Lemma no_name_or_size_not_emitted_kthread :
  (status_file Fixtures.kthread_entry = Some Fixtures.kthread_status /\
   Forall (fun l => take 6 l <> "VmRSS:") (getlines Fixtures.kthread_status)) /\
  visit Fixtures.kthread_entry <> Ok (Some (mkProcessInfo 2 "kthreadd" 0 "")).
Proof.
  assert (H1 : status_file Fixtures.kthread_entry = Some Fixtures.kthread_status)
    by reflexivity.
  assert (H2 : Forall (fun l => take 6 l <> "VmRSS:") (getlines Fixtures.kthread_status)).
  { repeat constructor; intros E; vm_compute in E; discriminate E. }
  split; [split; assumption|].
  exact (no_name_or_size_not_emitted Fixtures.kthread_entry Fixtures.kthread_status
           H1 (or_intror H2) (mkProcessInfo 2 "kthreadd" 0 "")).
Defined.

End MemInfoMore.

(** ** More on the disk probes *)

Module DiskLsMore.
Import Std DiskLs StdFacts TrimFacts Shapes.

(** *** The inventory *)

Section Inventory.
Variables indeterminate_sectors indeterminate_flag : Z.

Local Abbreviation disk_of := (disk_of indeterminate_sectors indeterminate_flag).
Local Abbreviation getDiskInfo := (getDiskInfo indeterminate_sectors indeterminate_flag).

Lemma umul_512 (s : Z) : umul s 512 mod 512 = 0 /\ 0 <= umul s 512 < 2 ^ 64.
Proof.
  unfold umul, wrap64. split; [|apply Z.mod_pos_bound; lia].
  rewrite Z.mod_mod_divide; [apply Z_mod_mult|].
  exists (2 ^ 55). reflexivity.
Qed.

Lemma emitted_from_entry (entries : list block_entry) (d : DiskInfo) :
  In d (getDiskInfo entries) ->
  exists e, In e entries /\ skipped (device_name e) = false /\ d = disk_of e.
Proof.
  rewrite DiskLsFacts.getDiskInfo_filter. intros H.
  apply in_map_iff in H. destruct H as (e & <- & He).
  apply filter_In in He. destruct He as [He Hs].
  apply negb_true_iff in Hs. eauto.
Qed.

(** X16.  The size in bytes of every emitted device is a 64-bit unsigned
    multiple of 512, whatever the size file holds. *)
Theorem size_multiple_of_512 (entries : list block_entry) (d : DiskInfo) :
  In d (getDiskInfo entries) ->
  size_bytes d mod 512 = 0 /\ 0 <= size_bytes d < 2 ^ 64.
Proof.
  intros H. destruct (emitted_from_entry _ _ H) as (e & _ & _ & ->).
  unfold DiskLs.disk_of. cbn [size_bytes].
  destruct (size_file e); [apply umul_512 | split; [reflexivity | lia]].
Qed.

(** X17.  Every partition path of an emitted device is "/dev/" followed by
    the name of a child of the device's directory that begins with the
    device name and differs from it. *)
Theorem partitions_of_device (entries : list block_entry) (d : DiskInfo) (q : string) :
  In d (getDiskInfo entries) -> In q (partitions d) ->
  exists e p, In e entries /\ device d = ("/dev/" ++ device_name e)%string /\
    In p (children e) /\ q = ("/dev/" ++ p)%string /\
    starts_with (device_name e) p = true /\ p <> device_name e.
Proof.
  intros H Hq. destruct (emitted_from_entry _ _ H) as (e & He & _ & ->).
  unfold DiskLs.disk_of in Hq. cbn [partitions] in Hq.
  apply in_map_iff in Hq. destruct Hq as (p & <- & Hp).
  apply filter_In in Hp. destruct Hp as [Hp Hc].
  apply andb_true_iff in Hc. destruct Hc as [Hs Hn].
  exists e, p. repeat split; try assumption.
  apply negb_true_iff in Hn. apply String.eqb_neq. exact Hn.
Qed.

End Inventory.

(** *** The scheduler *)

Lemma find_char_app_hit (c : ascii) (pre rest : string) :
  find_char c pre = None ->
  find_char c (pre ++ String c rest) = Some (String.length pre).
Proof.
  intros H. induction pre as [|x pre IH].
  - change (find_char c (String c rest) = Some O). cbn. rewrite Ascii.eqb_refl. reflexivity.
  - change (String x pre ++ String c rest)%string with (String x (pre ++ String c rest)).
    cbn [find_char String.length] in *. destruct (Ascii.eqb c x); [discriminate|].
    destruct (find_char c pre); [discriminate|]. rewrite IH; reflexivity.
Qed.

Lemma find_char_app_skip (c : ascii) (pre rest : string) :
  find_char c pre = None ->
  find_char c (pre ++ rest) =
    option_map (fun i => (String.length pre + i)%nat) (find_char c rest).
Proof.
  intros H. induction pre as [|x pre IH].
  - change (find_char c rest = option_map (fun i => i) (find_char c rest)).
    destruct (find_char c rest); reflexivity.
  - change (String x pre ++ rest)%string with (String x (pre ++ rest)).
    cbn [find_char String.length] in *. destruct (Ascii.eqb c x); [discriminate|].
    destruct (find_char c pre); [discriminate|]. rewrite IH by reflexivity.
    destruct (find_char c rest); reflexivity.
Qed.

Lemma drop_S_app (pre rest : string) (c : ascii) :
  drop (S (String.length pre)) (pre ++ String c rest) = rest.
Proof.
  induction pre as [|x pre IH]; [reflexivity|].
  change (String x pre ++ String c rest)%string with (String x (pre ++ String c rest)).
  exact IH.
Qed.

Lemma take_app (pre rest : string) : take (String.length pre) (pre ++ rest) = pre.
Proof.
  induction pre as [|x pre IH]; [reflexivity|].
  change (String x pre ++ rest)%string with (String x (pre ++ rest)).
  cbn [String.length take]. rewrite IH. reflexivity.
Qed.

(** The text between the first brackets of a line. *)
Lemma active_scheduler_spec (pre name post : string) :
  bracket_free pre -> bracket_free name ->
  active_scheduler (pre ++ "[" ++ name ++ "]" ++ post) = name /\
  active_scheduler pre = EmptyString.
Proof.
  intros [Hpo Hpc] [Hno Hnc]. split; [|unfold active_scheduler; rewrite Hpo; reflexivity].
  unfold active_scheduler.
  change (pre ++ "[" ++ name ++ "]" ++ post)%string
    with (pre ++ String "["%char (name ++ String "]"%char post))%string.
  rewrite (find_char_app_hit _ _ _ Hpo).
  rewrite (find_char_app_skip _ _ _ Hpc). cbn [find_char].
  change (Ascii.eqb "]" "[")%char with false. cbn iota.
  rewrite (find_char_app_hit _ _ _ Hnc). cbn [option_map].
  destruct (Nat.ltb_spec (String.length pre)
              (String.length pre + S (String.length name))); [|lia].
  replace (String.length pre + S (String.length name) - String.length pre - 1)%nat
    with (String.length name) by lia.
  rewrite drop_S_app. apply take_app.
Qed.

(** What [erase(find_last_not_of(set) + 1)] removes is made of characters
    of [set]. *)
Lemma find_last_not_of_split (set s : string) :
  match find_last_not_of set s with
  | Some i =>
      s = (take (S i) s ++ drop (S i) s)%string /\
      all_of (fun c => mem_char c set) (drop (S i) s) = true
  | None => all_of (fun c => mem_char c set) s = true
  end.
Proof.
  induction s as [|c s IH]; cbn [find_last_not_of]; [reflexivity|].
  destruct (find_last_not_of set s) as [i|].
  - destruct IH as [IH1 IH2].
    change (take (S (S i)) (String c s)) with (String c (take (S i) s)).
    change (drop (S (S i)) (String c s)) with (drop (S i) s).
    change (String c (take (S i) s) ++ drop (S i) s)%string
      with (String c (take (S i) s ++ drop (S i) s)).
    split; [rewrite <- IH1; reflexivity | exact IH2].
  - destruct (mem_char c set) eqn:E.
    + cbn [all_of]. rewrite E, IH. reflexivity.
    + split; [reflexivity | exact IH].
Qed.

Lemma read_trimmed_back (text : string) :
  forall x, back (read_trimmed text) = Some x -> mem_char x blanks = false.
Proof.
  unfold read_trimmed.
  set (line := match getline_first text with Some l => l | None => EmptyString end).
  pose proof (find_last_not_of_back blanks line) as Hb.
  destruct (find_last_not_of blanks line) as [i|].
  - destruct Hb as (y & Hy & Hm). intros x Hx. congruence.
  - intros x Hx. cbn in Hx. discriminate Hx.
Qed.

Lemma read_trimmed_line (text line : string) :
  getline_first text = Some line ->
  exists trailing, line = (read_trimmed text ++ trailing)%string /\
    all_of (fun c => mem_char c blanks) trailing = true.
Proof.
  intros Hl. unfold read_trimmed. rewrite Hl.
  pose proof (find_last_not_of_split blanks line) as Hs.
  destruct (find_last_not_of blanks line) as [i|].
  - destruct Hs as [H1 H2]. exists (drop (S i) line). split; assumption.
  - exists line. split; [reflexivity | exact Hs].
Qed.

Lemma read_trimmed_empty (text : string) :
  getline_first text = None -> read_trimmed text = EmptyString.
Proof. intros Hl. unfold read_trimmed. rewrite Hl. reflexivity. Qed.

Section Texts.
Variables indeterminate_sectors indeterminate_flag : Z.

Local Abbreviation getDiskInfo := (getDiskInfo indeterminate_sectors indeterminate_flag).

(** X18.  The scheduler of every emitted device is the text between the
    first brackets of the first line of its queue/scheduler file, when these
    brackets enclose a name; it is empty when that line has no bracket, when
    the file is empty and when it cannot be opened. *)
Theorem scheduler_between_brackets (entries : list block_entry) (d : DiskInfo) :
  In d (getDiskInfo entries) ->
  exists e, In e entries /\
    device d = ("/dev/" ++ device_name e)%string /\
    (forall text pre name post, scheduler_file e = Some text ->
       getline_first text = Some (pre ++ "[" ++ name ++ "]" ++ post)%string ->
       bracket_free pre -> bracket_free name -> scheduler d = name) /\
    (forall text line, scheduler_file e = Some text ->
       getline_first text = Some line -> bracket_free line ->
       scheduler d = EmptyString) /\
    (forall text, scheduler_file e = Some text -> getline_first text = None ->
       scheduler d = EmptyString) /\
    (scheduler_file e = None -> scheduler d = EmptyString).
Proof.
  intros H. destruct (emitted_from_entry _ _ _ _ H) as (e & He & _ & ->).
  exists e. split; [exact He|]. split; [reflexivity|].
  unfold DiskLs.disk_of. cbn [scheduler].
  split; [|split; [|split]].
  - intros text pre name post -> -> Hp Hn.
    exact (proj1 (active_scheduler_spec pre name post Hp Hn)).
  - intros text line -> -> Hb.
    exact (proj2 (active_scheduler_spec line EmptyString EmptyString Hb
                    (conj eq_refl eq_refl))).
  - intros text -> ->. reflexivity.
  - intros ->. reflexivity.
Qed.

(** X19.  The model and the vendor of every emitted device do not end with
    a blank, a tab, a newline or a carriage return; each is the first line of
    its file (device/model, device/vendor) without the characters of that
    kind at its end, and is empty when the file is empty or cannot be
    opened. *)
Theorem model_and_vendor_trimmed (entries : list block_entry) (d : DiskInfo) :
  In d (getDiskInfo entries) ->
  (forall x, back (model d) = Some x -> mem_char x blanks = false) /\
  (forall x, back (vendor d) = Some x -> mem_char x blanks = false) /\
  exists e, In e entries /\
    device d = ("/dev/" ++ device_name e)%string /\
    (forall text line, model_file e = Some text -> getline_first text = Some line ->
       exists trailing, line = (model d ++ trailing)%string /\
         all_of (fun c => mem_char c blanks) trailing = true) /\
    (forall text line, vendor_file e = Some text -> getline_first text = Some line ->
       exists trailing, line = (vendor d ++ trailing)%string /\
         all_of (fun c => mem_char c blanks) trailing = true) /\
    (forall text, model_file e = Some text -> getline_first text = None ->
       model d = EmptyString) /\
    (forall text, vendor_file e = Some text -> getline_first text = None ->
       vendor d = EmptyString) /\
    (model_file e = None -> model d = EmptyString) /\
    (vendor_file e = None -> vendor d = EmptyString).
Proof.
  intros H. destruct (emitted_from_entry _ _ _ _ H) as (e & He & _ & ->).
  unfold DiskLs.disk_of. cbn [model vendor device].
  split; [|split].
  - destruct (model_file e) as [t|]; [apply read_trimmed_back|].
    intros x Hx. discriminate Hx.
  - destruct (vendor_file e) as [t|]; [apply read_trimmed_back|].
    intros x Hx. discriminate Hx.
  - exists e. split; [exact He|]. split; [reflexivity|].
    repeat split.
    + intros text line -> Hl. apply read_trimmed_line. exact Hl.
    + intros text line -> Hl. apply read_trimmed_line. exact Hl.
    + intros text -> Hl. apply read_trimmed_empty. exact Hl.
    + intros text -> Hl. apply read_trimmed_empty. exact Hl.
    + intros ->. reflexivity.
    + intros ->. reflexivity.
Qed.

End Texts.

(** *** The mounts *)

Section Mounts.
Variable statvfs : string -> option statvfs_t.

Lemma row_records_kept (line : string) :
  Forall (fun r => kept (part_device r) (filesystem r)) (row_records statvfs line).
Proof.
  unfold row_records.
  destruct (parse_row line) as [[[[dv mp] fs] opts]|]; [|constructor].
  destruct (special dv fs) eqn:E; [constructor|].
  constructor; [|constructor].
  pose proof (proj1 (DiskLsFacts.special_spec statvfs dv fs) E) as Hk.
  unfold part_of. destruct (statvfs mp); exact Hk.
Qed.

(** X20.  Whatever the text of the mounts file, every record of the
    mount-usage probe has a device path that starts with /dev/ and a
    filesystem type that is none of proc, sysfs, devtmpfs and tmpfs. *)
Theorem mounts_are_devices (text : string) :
  Forall (fun r => kept (part_device r) (filesystem r))
         (getPartitionInfo statvfs text).
Proof.
  unfold getPartitionInfo. induction (getlines text) as [|l r IH]; cbn.
  - constructor.
  - apply Forall_app. split; [apply row_records_kept | exact IH].
Qed.

Lemma part_of_bytes (dv mp fs opts : string) :
  (forall st, statvfs mp = Some st ->
     0 <= f_bavail st <= f_bfree st /\ f_bfree st <= f_blocks st /\
     0 <= f_frsize st /\ f_blocks st * f_frsize st < 2 ^ 64) ->
  let r := part_of statvfs dv mp fs opts in
  used_bytes r + available_bytes r <= total_bytes r.
Proof.
  intros H. unfold part_of.
  destruct (statvfs mp) as [st|]; cbn [used_bytes available_bytes total_bytes]; [|lia].
  destruct (H st eq_refl) as (Ha & Hb & Hf & Hsz).
  assert (Hx : forall a, 0 <= a <= f_blocks st ->
                 0 <= a * f_frsize st <= f_blocks st * f_frsize st).
  { intros a Ha'. split; [apply Z.mul_nonneg_nonneg; lia|].
    apply Z.mul_le_mono_nonneg_r; lia. }
  assert (Hz : f_blocks st < 2 ^ 64 \/ f_frsize st = 0) by nia.
  unfold umul, usub.
  destruct Hz as [Hz|Hz].
  - rewrite (wrap64_small (f_blocks st - f_bfree st)) by lia.
    pose proof (Hx (f_blocks st) ltac:(lia)).
    pose proof (Hx (f_bavail st) ltac:(lia)).
    pose proof (Hx (f_blocks st - f_bfree st) ltac:(lia)).
    rewrite !wrap64_small by lia.
    replace (f_blocks st * f_frsize st)
      with ((f_blocks st - f_bfree st) * f_frsize st + f_bfree st * f_frsize st) by ring.
    assert (f_bavail st * f_frsize st <= f_bfree st * f_frsize st)
      by (apply Z.mul_le_mono_nonneg_r; lia).
    lia.
  - rewrite Hz, !Z.mul_0_r. unfold wrap64. rewrite !Zmod_0_l. lia.
Qed.

(** X21.  When the counts that [statvfs] reports are consistent
    (available <= free <= total blocks) and the total size fits 64 bits,
    every record has used bytes + available bytes <= total bytes. *)
Theorem used_plus_available (text : string) :
  (forall mp st, statvfs mp = Some st ->
     0 <= f_bavail st <= f_bfree st /\ f_bfree st <= f_blocks st /\
     0 <= f_frsize st /\ f_blocks st * f_frsize st < 2 ^ 64) ->
  Forall (fun r => used_bytes r + available_bytes r <= total_bytes r)
         (getPartitionInfo statvfs text).
Proof.
  intros H. unfold getPartitionInfo.
  induction (getlines text) as [|l r IH]; cbn; [constructor|].
  apply Forall_app. split; [|exact IH].
  unfold row_records.
  destruct (parse_row l) as [[[[dv mp] fs] opts]|]; [|constructor].
  destruct (special dv fs); [constructor|].
  constructor; [|constructor]. apply part_of_bytes. intros st. apply H.
Qed.

End Mounts.

Lemma size_multiple_of_512_sda :
  In sda_record (getDiskInfo 0 0 [sda; loop0; nvme0n1]) /\
  size_bytes sda_record mod 512 = 0 /\ 0 <= size_bytes sda_record < 2 ^ 64.
Proof.
  assert (H : In sda_record (getDiskInfo 0 0 [sda; loop0; nvme0n1]))
    by (left; reflexivity).
  split; [exact H|].
  exact (size_multiple_of_512 0 0 [sda; loop0; nvme0n1] sda_record H).
Defined.

Lemma partitions_of_device_sda1 :
  (In sda_record (getDiskInfo 0 0 [sda; loop0; nvme0n1]) /\
   In "/dev/sda1" (partitions sda_record)) /\
  exists e p, In e [sda; loop0; nvme0n1] /\
    device sda_record = ("/dev/" ++ device_name e)%string /\
    In p (children e) /\ "/dev/sda1" = ("/dev/" ++ p)%string /\
    starts_with (device_name e) p = true /\ p <> device_name e.
Proof.
  assert (H : In sda_record (getDiskInfo 0 0 [sda; loop0; nvme0n1]))
    by (left; reflexivity).
  assert (Hq : In "/dev/sda1" (partitions sda_record)) by (left; reflexivity).
  split; [split; assumption|].
  exact (partitions_of_device 0 0 [sda; loop0; nvme0n1] sda_record "/dev/sda1" H Hq).
Defined.

Lemma scheduler_between_brackets_sda :
  In sda_record (getDiskInfo 0 0 [sda; loop0; nvme0n1]) /\
  exists e, In e [sda; loop0; nvme0n1] /\
    device sda_record = ("/dev/" ++ device_name e)%string /\
    (forall text pre name post, scheduler_file e = Some text ->
       getline_first text = Some (pre ++ "[" ++ name ++ "]" ++ post)%string ->
       bracket_free pre -> bracket_free name -> scheduler sda_record = name) /\
    (forall text line, scheduler_file e = Some text ->
       getline_first text = Some line -> bracket_free line ->
       scheduler sda_record = EmptyString) /\
    (forall text, scheduler_file e = Some text -> getline_first text = None ->
       scheduler sda_record = EmptyString) /\
    (scheduler_file e = None -> scheduler sda_record = EmptyString).
Proof.
  assert (H : In sda_record (getDiskInfo 0 0 [sda; loop0; nvme0n1]))
    by (left; reflexivity).
  split; [exact H|].
  exact (scheduler_between_brackets 0 0 [sda; loop0; nvme0n1] sda_record H).
Defined.

Lemma model_and_vendor_trimmed_sda :
  In sda_record (getDiskInfo 0 0 [sda; loop0; nvme0n1]) /\
  (forall x, back (model sda_record) = Some x -> mem_char x blanks = false) /\
  (forall x, back (vendor sda_record) = Some x -> mem_char x blanks = false).
Proof.
  assert (H : In sda_record (getDiskInfo 0 0 [sda; loop0; nvme0n1]))
    by (left; reflexivity).
  split; [exact H|].
  destruct (model_and_vendor_trimmed 0 0 [sda; loop0; nvme0n1] sda_record H)
    as (Hm & Hv & _).
  split; [exact Hm | exact Hv].
Defined.

(** The inventory scenario: the texts of sda. *)
Example inventory_texts :
  map (fun d => (model d, vendor d, scheduler d)) (getDiskInfo 0 0 [sda; loop0; nvme0n1])
  = [("Example Disk", "ATA", "cfq"); ("Example NVMe", "", "none")].
Proof. reflexivity. Qed.

Lemma used_plus_available_mounts :
  (forall mp st, Fixtures.statvfs_fixture mp = Some st ->
     0 <= f_bavail st <= f_bfree st /\ f_bfree st <= f_blocks st /\
     0 <= f_frsize st /\ f_blocks st * f_frsize st < 2 ^ 64) /\
  Forall (fun r => used_bytes r + available_bytes r <= total_bytes r)
         (getPartitionInfo Fixtures.statvfs_fixture mounts).
Proof.
  assert (H : forall mp st, Fixtures.statvfs_fixture mp = Some st ->
     0 <= f_bavail st <= f_bfree st /\ f_bfree st <= f_blocks st /\
     0 <= f_frsize st /\ f_blocks st * f_frsize st < 2 ^ 64).
  { intros mp st [= <-]. cbn. lia. }
  split; [exact H|].
  exact (used_plus_available Fixtures.statvfs_fixture mounts H).
Defined.

Lemma mount_usage_in_range_root :
  match Fixtures.statvfs_fixture "/" with
  | Some st =>
      0 <= f_bfree st <= f_blocks st /\ f_blocks st < 2 ^ 64 /\
      0 <= f_frsize st /\ f_blocks st * f_frsize st < 2 ^ 64
  | None => True
  end /\
  percent_in_range
    (usage_percent (part_of Fixtures.statvfs_fixture "/dev/sda1" "/" "ext4" "rw")).
Proof.
  assert (H : match Fixtures.statvfs_fixture "/" with
              | Some st =>
                  0 <= f_bfree st <= f_blocks st /\ f_blocks st < 2 ^ 64 /\
                  0 <= f_frsize st /\ f_blocks st * f_frsize st < 2 ^ 64
              | None => True
              end) by (cbn; lia).
  split; [exact H|].
  exact (DiskLsFacts.mount_usage_in_range Fixtures.statvfs_fixture
           "/dev/sda1" "/" "ext4" "rw" H).
Defined.

End DiskLsMore.

(** ** The I/O statistics *)

Module DiskStatsFacts.
Import Std DiskStats.

Lemma parse_line_device (line d : string) (stat : DiskStats) :
  parse_line line = Some (d, stat) -> device stat = d.
Proof.
  unfold parse_line.
  repeat match goal with
    | |- context [get_uint ?o ?s] => destruct (get_uint o s)
    | |- context [get_word ?o ?s] => destruct (get_word o s)
    | |- context [get_unsigned ?o ?s] => destruct (get_unsigned o s)
    end.
  destruct (failed _); [discriminate|]. intros [= <- <-]. reflexivity.
Qed.

Lemma step_other_device (stats : gmap string DiskStats) (line d : string) :
  ~ names_device d line -> step stats line !! d = stats !! d.
Proof.
  unfold step, names_device. intros H.
  destruct (parse_line line) as [[d' stat]|]; [|reflexivity].
  apply lookup_insert_ne. intros ->. apply H. eauto.
Qed.

Lemma fold_other_device (lines : list string) (d : string) : forall stats,
  Forall (fun l => ~ names_device d l) lines ->
  fold_left step lines stats !! d = stats !! d.
Proof.
  induction lines as [|l r IH]; intros stats H; [reflexivity|].
  apply Forall_cons in H. destruct H as [Hl Hr].
  cbn [fold_left]. rewrite (IH _ Hr). apply step_other_device. exact Hl.
Qed.

(** X23.  The statistics of a device are those of the last line of the
    file that names it with all its fourteen fields, the record carries
    the device name it is filed under, and a device that no such line
    names has no statistics. *)
Theorem last_line_of_device (text line d : string) (pre post : list string)
    (stat : DiskStats) :
  (getlines text = (pre ++ line :: post)%list ->
   parse_line line = Some (d, stat) ->
   Forall (fun l => ~ names_device d l) post ->
   getDiskStats text !! d = Some stat /\ device stat = d) /\
  (Forall (fun l => ~ names_device d l) (getlines text) ->
   getDiskStats text !! d = None).
Proof.
  unfold getDiskStats. split.
  - intros Hl Hp Hpost. split; [|exact (parse_line_device _ _ _ Hp)].
    rewrite Hl, fold_left_app. cbn [fold_left].
    rewrite (fold_other_device _ _ _ Hpost). unfold step. rewrite Hp.
    apply lookup_insert_eq.
  - intros H. rewrite (fold_other_device _ _ _ H). apply lookup_empty.
Qed.

Lemma last_line_of_device_sda :
  (getlines Fixtures.diskstats
     = ([Fixtures.diskstats_old] ++ Fixtures.diskstats_new :: [Fixtures.diskstats_other])%list /\
   parse_line Fixtures.diskstats_new = Some ("sda", Fixtures.sda_stats) /\
   Forall (fun l => ~ names_device "sda" l) [Fixtures.diskstats_other]) /\
  getDiskStats Fixtures.diskstats !! "sda" = Some Fixtures.sda_stats.
Proof.
  assert (Hl : getlines Fixtures.diskstats
     = ([Fixtures.diskstats_old] ++ Fixtures.diskstats_new :: [Fixtures.diskstats_other])%list)
    by reflexivity.
  assert (Hp : parse_line Fixtures.diskstats_new = Some ("sda", Fixtures.sda_stats))
    by reflexivity.
  assert (Hpost : Forall (fun l => ~ names_device "sda" l) [Fixtures.diskstats_other]).
  { repeat constructor. intros [st H]. vm_compute in H. discriminate H. }
  split; [repeat split; assumption|].
  exact (proj1 (proj1 (last_line_of_device Fixtures.diskstats Fixtures.diskstats_new "sda"
                  [Fixtures.diskstats_old] [Fixtures.diskstats_other] Fixtures.sda_stats)
                Hl Hp Hpost)).
Defined.

End DiskStatsFacts.

(** ** More on the distro-identity probe *)

Module OsInfoMore.
Import Std OsInfo StdFacts TrimFacts Shapes.

Lemma back_snoc (s : string) (c : ascii) : back (s ++ String c "") = Some c.
Proof.
  induction s as [|x s IH]; [reflexivity|].
  change (String x s ++ String c "")%string with (String x (s ++ String c "")).
  cbn [back]. destruct (s ++ String c "")%string eqn:E; [|exact IH].
  destruct s; discriminate E.
Qed.

Lemma length_snoc (s : string) (c : ascii) :
  String.length (s ++ String c "") = S (String.length s).
Proof.
  induction s as [|x s IH]; [reflexivity|].
  change (String x s ++ String c "")%string with (String x (s ++ String c "")).
  cbn [String.length]. rewrite IH. reflexivity.
Qed.

Lemma take_snoc (s : string) (c : ascii) :
  take (String.length s) (s ++ String c "") = s.
Proof.
  induction s as [|x s IH]; [reflexivity|].
  change (String x s ++ String c "")%string with (String x (s ++ String c "")).
  cbn [String.length take]. rewrite IH. reflexivity.
Qed.

(** X24.  A value wrapped in double quotes loses exactly the two quotes,
    whatever stands between them; a value that does not start with a double
    quote, or starts with one and does not end with one, is kept as it
    is. *)
Theorem unquote_strips_quotes (s : string) :
  unquote (String dquote (s ++ String dquote "")) = Some s /\
  (forall c, front s = Some c -> c <> dquote -> unquote s = Some s) /\
  (forall c, back (String dquote s) = Some c -> c <> dquote ->
     unquote (String dquote s) = Some (String dquote s)).
Proof.
  split; [|split].
  - unfold unquote. cbn [front]. rewrite Ascii.eqb_refl.
    rewrite (back_cons dquote (s ++ String dquote "") dquote (back_snoc s dquote)).
    rewrite Ascii.eqb_refl. cbn [String.length]. rewrite length_snoc.
    cbn [Nat.ltb Nat.leb drop Nat.sub]. rewrite Nat.sub_0_r, take_snoc. reflexivity.
  - intros c Hc Hne. unfold unquote. rewrite Hc.
    destruct (Ascii.eqb_spec c dquote); [contradiction | reflexivity].
  - intros c Hc Hne. unfold unquote. cbn [front]. rewrite Ascii.eqb_refl, Hc.
    destruct (Ascii.eqb_spec c dquote); [contradiction | reflexivity].
Qed.

Lemma unquote_None (value : string) :
  unquote value = None <-> value = EmptyString.
Proof.
  split; [|intros ->; reflexivity].
  intros H. destruct value as [|c s]; [reflexivity|].
  destruct (OsInfoFacts.unquote_nonempty (String c s)); [discriminate | exact H].
Qed.

Lemma step_None (info : DistroInfo) (line : string) :
  step info line = None <-> empty_value line.
Proof.
  unfold step, empty_value.
  destruct (find_char "="%char line) as [i|].
  - destruct (unquote (drop (S i) line)) as [v|] eqn:E.
    + split; [discriminate|]. intros (j & [= <-] & Hj).
      rewrite Hj in E. discriminate.
    + apply unquote_None in E. split; [eauto | reflexivity].
  - split; [discriminate|]. intros (j & Hj & _). discriminate.
Qed.

Lemma loop_None (lines : list string) : forall info,
  loop info lines = None <-> Exists empty_value lines.
Proof.
  induction lines as [|l r IH]; intros info; cbn [loop].
  - split; [discriminate | intros H; inversion H].
  - destruct (step info l) as [info'|] eqn:E.
    + rewrite IH. split; [intros H; right; exact H|].
      intros H. apply Exists_cons in H. destruct H as [H|H]; [|exact H].
      apply (proj2 (step_None info l)) in H. congruence.
    + apply (proj1 (step_None info l)) in E.
      split; [intros _; left; exact E | reflexivity].
Qed.

(** X25.  The probe reaches a character access without character exactly
    when some line of the file has nothing after its first "="; on every
    other file it returns a record. *)
Theorem reads_past_value_iff_empty (text : string) :
  getDistroInfo text = None <-> Exists empty_value (getlines text).
Proof. unfold getDistroInfo. apply loop_None. Qed.

End OsInfoMore.


(** ** The uptime text and the environment *)

Module OsMiscFacts.
Import Std OsMisc.

(** X26.  For an uptime of [seconds] (a non-negative number), the four
    numbers that the text shows are the days, and the hours, minutes and
    seconds below 24, 60 and 60, that add up to [seconds]. *)
Theorem uptime_parts (seconds : Z) :
  0 <= seconds ->
  seconds = days seconds * 86400 + hours seconds * 3600
            + minutes seconds * 60 + secs seconds /\
  0 <= days seconds /\ 0 <= hours seconds < 24 /\
  0 <= minutes seconds < 60 /\ 0 <= secs seconds < 60.
Proof.
  intros H. unfold days, hours, minutes, secs.
  pose proof (Z.div_mod seconds 86400 ltac:(lia)).
  pose proof (Z.mod_pos_bound seconds 86400 ltac:(lia)).
  pose proof (Z.div_mod (seconds mod 86400) 3600 ltac:(lia)).
  pose proof (Z.mod_pos_bound (seconds mod 86400) 3600 ltac:(lia)).
  pose proof (Z.div_mod (seconds mod 3600) 60 ltac:(lia)).
  pose proof (Z.mod_pos_bound (seconds mod 3600) 60 ltac:(lia)).
  pose proof (Z.mod_pos_bound seconds 60 ltac:(lia)).
  assert (E1 : (seconds mod 86400) mod 3600 = seconds mod 3600)
    by (apply Z.mod_mod_divide; exists 24; reflexivity).
  assert (E2 : (seconds mod 3600) mod 60 = seconds mod 60)
    by (apply Z.mod_mod_divide; exists 60; reflexivity).
  assert (0 <= seconds / 86400) by (apply Z.div_pos; lia).
  assert (0 <= (seconds mod 86400) / 3600 < 24)
    by (split; [apply Z.div_pos; lia | apply Z.div_lt_upper_bound; lia]).
  assert (0 <= (seconds mod 3600) / 60 < 60)
    by (split; [apply Z.div_pos; lia | apply Z.div_lt_upper_bound; lia]).
  lia.
Qed.

Section Environment.
Variable getenv : string -> option string.

(** The loop body on one variable, with the chain of comparisons left to
    compute on the name. *)
Lemma step_var (var : string) (info : EnvironmentInfo) :
  step getenv info var =
    match getenv var with
    | None => info
    | Some value =>
        if String.eqb var "PATH" then set_path value info
        else if String.eqb var "LANG" then set_lang value info
        else if String.eqb var "EDITOR" then set_editor value info
        else if String.eqb var "PAGER" then set_pager value info
        else if String.eqb var "BROWSER" then set_browser value info
        else if String.eqb var "DESKTOP_SESSION" then set_desktop_session value info
        else if String.eqb var "XDG_CURRENT_DESKTOP" then set_window_manager value info
        else if String.eqb var "WINDOWMANAGER" then
          (if empty (window_manager info) then set_window_manager value info else info)
        else info
    end.
Proof. reflexivity. Qed.

(** One turn of the loop, on the innermost variable first, so that the
    record built so far is never copied. *)
Ltac one_var v :=
  match goal with
  | |- context [step getenv ?i v] =>
      let x := fresh "i" in
      let E := fresh "E" in
      remember (step getenv i v) as x eqn:E;
      rewrite step_var in E;
      cbn [String.eqb Ascii.eqb Bool.eqb] in E;
      destruct (getenv v) as [?|]; subst x
  end.

(** X27.  The window-manager slot holds the value of XDG_CURRENT_DESKTOP
    when that variable is set to a non-empty text; otherwise the value of
    WINDOWMANAGER when that one is set; otherwise what XDG_CURRENT_DESKTOP
    gave (the empty text).  The display-manager slot is never filled, and the
    other slots hold the values of their variables. *)
Theorem window_manager_rule :
  let info := getEnvironmentInfo getenv in
  window_manager info =
    match getenv "XDG_CURRENT_DESKTOP", getenv "WINDOWMANAGER" with
    | Some xdg, Some wm => if empty xdg then wm else xdg
    | Some xdg, None => xdg
    | None, Some wm => wm
    | None, None => EmptyString
    end /\
  display_manager info = EmptyString /\
  path info = default EmptyString (getenv "PATH") /\
  lang info = default EmptyString (getenv "LANG") /\
  editor info = default EmptyString (getenv "EDITOR") /\
  pager info = default EmptyString (getenv "PAGER") /\
  browser info = default EmptyString (getenv "BROWSER") /\
  desktop_session info = default EmptyString (getenv "DESKTOP_SESSION").
Proof.
  unfold getEnvironmentInfo, env_vars. cbn [fold_left].
  one_var "PATH"; one_var "LANG"; one_var "EDITOR"; one_var "PAGER";
  one_var "BROWSER"; one_var "DESKTOP_SESSION";
  one_var "XDG_CURRENT_DESKTOP"; one_var "WINDOWMANAGER";
  cbn;
  try match goal with
    | |- context [empty ?x] => destruct x; cbn
    end;
  repeat split; reflexivity.
Qed.

End Environment.

Lemma uptime_parts_one_day :
  0 <= 93784 /\
  93784 = days 93784 * 86400 + hours 93784 * 3600 + minutes 93784 * 60 + secs 93784.
Proof.
  assert (H : 0 <= 93784) by lia.
  split; [exact H|]. exact (proj1 (uptime_parts 93784 H)).
Defined.

(** One day, two hours, three minutes and four seconds. *)
Example uptime_text :
  formatUptime 93784 = "1 day, 2 hours, 3 minutes, 4 seconds" /\
  formatUptime 3600 = "1 hour, 0 minutes, 0 seconds" /\
  formatUptime 1 = "1 second".
Proof. repeat split; reflexivity. Qed.

End OsMiscFacts.

(** ** More on the argument loops and the reports *)

Module CliMore.
Import Std Cli Report StdFacts TrimFacts.

Lemma lookup_selector_not_other (t : tool) (arg : string) (s : selector) :
  lookup_selector t arg = Some s ->
  String.eqb arg "--no-color" = false /\ String.eqb arg "--all" = false /\
  String.eqb arg "-a" = false /\ In s (map snd (selectors t)).
Proof.
  unfold lookup_selector. destruct t; cbn;
    repeat match goal with
      | |- context [String.eqb arg ?k] =>
          destruct (String.eqb_spec arg k) as [->|]; cbn
      end;
    intros [= <-]; cbn; tauto.
Qed.

(** One turn of the loop on a known flag that is neither help nor
    version. *)
Lemma parseArgs_turn (t : tool) (o : options) (arg : string) (rest : list string) :
  known t arg = true -> stops arg = false ->
  exists o',
    parseArgs t o (arg :: rest) = parseArgs t o' rest /\
    use_colors o' = use_colors o && negb (String.eqb arg "--no-color") /\
    (forall s, In s (shown o') <->
       In s (shown o) \/ lookup_selector t arg = Some s \/
       ((arg = "--all" \/ arg = "-a") /\ In s (map snd (selectors t)))).
Proof.
  unfold known, stops. intros Hk Hs. cbn [parseArgs].
  repeat (apply orb_false_iff in Hs; destruct Hs as [Hs ?]).
  repeat match goal with
    | E : String.eqb _ _ = false |- _ => rewrite E in *; clear E
    end.
  cbn [orb] in *.
  destruct (lookup_selector t arg) as [s0|] eqn:El.
  - destruct (lookup_selector_not_other _ _ _ El) as (Hn & Ha & Ha' & _).
    eexists. split; [reflexivity|]. cbn [use_colors shown].
    rewrite Hn. split; [rewrite andb_true_r; reflexivity|].
    apply String.eqb_neq in Ha, Ha'.
    intros s. cbn [In]. split.
    + intros [<-|H]; auto.
    + intros [H|[[= <-]|[[H|H] _]]]; auto; contradiction.
  - destruct (String.eqb arg "--all" || String.eqb arg "-a") eqn:E3.
    + eexists. split; [reflexivity|]. cbn [use_colors shown].
      assert (Hn : String.eqb arg "--no-color" = false).
      { apply orb_true_iff in E3.
        destruct E3 as [E|E]; apply String.eqb_eq in E; subst; reflexivity. }
      rewrite Hn. split; [rewrite andb_true_r; reflexivity|].
      assert (Ha : arg = "--all" \/ arg = "-a").
      { apply orb_true_iff in E3. destruct E3 as [E|E]; apply String.eqb_eq in E; auto. }
      intros s. rewrite in_app_iff. split.
      * intros [H|H]; auto.
      * intros [H|[H|[_ H]]]; auto; discriminate.
    + destruct (String.eqb arg "--no-color") eqn:E4.
      * eexists. split; [reflexivity|]. cbn [use_colors shown].
        split; [rewrite andb_false_r; reflexivity|].
        apply orb_false_iff in E3. destruct E3 as [Ea Ea'].
        apply String.eqb_neq in Ea, Ea'.
        intros s. split; [auto|].
        intros [H|[H|[[H|H] _]]]; auto; try discriminate; contradiction.
      * apply orb_false_iff in E3. destruct E3 as [E3 E3'].
        rewrite E3, E3' in Hk. discriminate Hk.
Qed.

(** The loop over a run of such flags. *)
Lemma parseArgs_run (t : tool) (pre rest : list string) : forall o,
  Forall (fun a => known t a = true /\ stops a = false) pre ->
  exists o',
    parseArgs t o (pre ++ rest) = parseArgs t o' rest /\
    use_colors o' = use_colors o && negb (existsb (fun a => String.eqb a "--no-color") pre) /\
    (forall s, In s (shown o') <->
       In s (shown o) \/ (exists a, In a pre /\ lookup_selector t a = Some s) \/
       ((In "--all" pre \/ In "-a" pre) /\ In s (map snd (selectors t)))).
Proof.
  induction pre as [|a pre IH]; intros o H.
  - exists o. split; [reflexivity|]. split; [cbn; rewrite andb_true_r; reflexivity|].
    intros s. cbn. split; [auto|].
    intros [Hs|[(x & [] & _)|[[[]|[]] _]]]. exact Hs.
  - apply Forall_cons in H. destruct H as [[Hk Hs] Hpre].
    destruct (parseArgs_turn t o a (pre ++ rest) Hk Hs) as (o1 & E1 & C1 & S1).
    destruct (IH o1 Hpre) as (o' & E & C & S).
    exists o'. split; [cbn [app]; rewrite E1; exact E|]. split.
    + rewrite C, C1. cbn [existsb]. rewrite negb_orb, andb_assoc. reflexivity.
    + intros s. rewrite S, S1. cbn [In]. split.
      * intros [[H|[H|[H Hs']]]|[(x & Hx & Hl)|[H Hs']]].
        -- left; exact H.
        -- right; left. exists a. split; [left; reflexivity | exact H].
        -- right; right. split; [|exact Hs'].
           destruct H as [H|H]; [left | right]; left; exact H.
        -- right; left. exists x. split; [right; exact Hx | exact Hl].
        -- right; right. split; [|exact Hs'].
           destruct H as [H|H]; [left | right]; right; exact H.
      * intros [H|[(x & [Hx|Hx] & Hl)|[[[H|H]|[H|H]] Hs']]].
        -- left; left; exact H.
        -- left; right; left. rewrite Hx. exact Hl.
        -- right; left. exists x. split; assumption.
        -- left; right; right. split; [left; exact H | exact Hs'].
        -- right; right. split; [left; exact H | exact Hs'].
        -- left; right; right. split; [right; exact H | exact Hs'].
        -- right; right. split; [right; exact H | exact Hs'].
Qed.

Lemma accepted_flags_aux (t : tool) (o : options) (args : list string) :
  Forall (fun a => known t a = true /\ stops a = false) args ->
  exists o',
    parseArgs t o args = Continue o' /\
    use_colors o' = use_colors o && negb (existsb (fun a => String.eqb a "--no-color") args) /\
    (forall s, In s (shown o') <->
       In s (shown o) \/ (exists a, In a args /\ lookup_selector t a = Some s) \/
       ((In "--all" args \/ In "-a" args) /\ In s (map snd (selectors t)))).
Proof.
  intros H. destruct (parseArgs_run t args [] o H) as (o' & E & C & S).
  rewrite app_nil_r in E. exists o'. split; [exact E|]. split; assumption.
Qed.

(** X28.  When every argument is a known flag other than help and version,
    [parseArgs] returns to [main]; colours stay enabled only if they were and
    no argument is --no-color; and a selector is set exactly when it was set
    before, or an argument names it, or an argument is --all or -a and the
    tool has that selector. *)
Theorem accepted_flags (t : tool) (o : options) (args : list string) :
  Forall (fun a => known t a = true /\ stops a = false) args ->
  exists o',
    parseArgs t o args = Continue o' /\
    use_colors o' = use_colors o && negb (existsb (fun a => String.eqb a "--no-color") args) /\
    (forall s, In s (shown o') <->
       In s (shown o) \/ (exists a, In a args /\ lookup_selector t a = Some s) \/
       ((In "--all" args \/ In "-a" args) /\ In s (map snd (selectors t)))).
Proof. exact (accepted_flags_aux t o args). Qed.

(** X29.  When the output is not a terminal, or --no-color stands before
    the unknown flag, the diagnostic on standard error is plain text: the
    tool name, ": invalid option -- '", the flag, "'", and the hint line;
    it holds no escape character unless the flag itself does. *)
Theorem plain_diagnostic (t : tool) (o : options) (pre : list string)
    (arg : string) (rest : list string) :
  Forall (fun a => known t a = true /\ stops a = false) pre ->
  known t arg = false ->
  use_colors o = false \/ In "--no-color" pre ->
  parseArgs t o (pre ++ arg :: rest) =
    Exit 1 no_banner
      (tool_name t ++ ": invalid option -- '" ++ arg ++ "'" ++ endl
       ++ "Try '" ++ tool_name t ++ " --help' for more information." ++ endl) /\
  (find_char "027"%char arg = None ->
   find_char "027"%char
     (tool_name t ++ ": invalid option -- '" ++ arg ++ "'" ++ endl
      ++ "Try '" ++ tool_name t ++ " --help' for more information." ++ endl) = None).
Proof.
  intros Hpre Harg Hplain.
  destruct (parseArgs_run t pre (arg :: rest) o Hpre) as (o' & E & C & _).
  assert (Hc : use_colors o' = false).
  { rewrite C. destruct Hplain as [->|Hin]; [reflexivity|].
    apply andb_false_iff. right. apply negb_false_iff.
    apply existsb_exists. exists "--no-color". split; [exact Hin | reflexivity]. }
  split.
  - rewrite E, (CliFacts.parseArgs_unknown t o' arg rest Harg).
    unfold invalid_option, colorize. rewrite Hc.
    rewrite !append_assoc. reflexivity.
  - intros Hno.
    assert (Ht : find_char "027"%char (tool_name t) = None) by (destruct t; reflexivity).
    repeat (apply find_char_append; try assumption; try reflexivity).
Qed.

(** The sections depend on the selectors only through membership. *)
Lemma on_ext (o o' : options) (s : selector) :
  (forall s, In s (shown o) <-> In s (shown o')) -> on s o = on s o'.
Proof.
  intros H. unfold on. apply bool_decide_ext. rewrite !list_elem_of_In. apply H.
Qed.

Lemma run_ext (stod : string -> result double) (t : tool) (inp : inputs)
    (o o' : options) :
  (forall s, In s (shown o) <-> In s (shown o')) ->
  run stod t inp o = run stod t inp o'.
Proof.
  intros H. unfold run.
  destruct t; rewrite !(fun s => on_ext o o' s H); reflexivity.
Qed.

Lemma run_general_first (stod : string -> result double) (t : tool) (inp : inputs)
    (o : options) (titles : list string) :
  run stod t inp o = Titles titles -> exists rest, titles = general_title t :: rest.
Proof.
  unfold run. destruct t.
  - destruct (CpuInfo.getCpuInfo stod (proc_cpuinfo inp)); [|discriminate].
    intros [= <-]. eexists. reflexivity.
  - intros [= <-]. eexists. reflexivity.
  - intros [= <-]. eexists. reflexivity.
  - destruct (OsInfo.getDistroInfo (os_release inp)); [|discriminate].
    intros [= <-]. eexists. reflexivity.
Qed.

(** X30.  The report does not depend on the order of the flags: two
    argument lists with the same known flags (none of them help or version),
    in any order, lead to the same run, with the same titled sections in the
    same order; [parseArgs] returns to [main], and when [run] returns, the
    first title is the one of the tool's general section. *)
Theorem report_ignores_flag_order (stod : string -> result double) (t : tool)
    (inp : inputs) (o : options) (args args' : list string) :
  Permutation args args' ->
  Forall (fun a => known t a = true /\ stops a = false) args ->
  report stod t inp o args = report stod t inp o args' /\
  exists p, report stod t inp o args = Some p /\
    forall titles, p = Titles titles ->
      exists rest, titles = general_title t :: rest.
Proof.
  intros Hp H.
  assert (H' : Forall (fun a => known t a = true /\ stops a = false) args')
    by (rewrite <- Hp; exact H).
  destruct (accepted_flags_aux t o args H) as (o1 & E1 & _ & S1).
  destruct (accepted_flags_aux t o args' H') as (o2 & E2 & _ & S2).
  unfold report. rewrite E1, E2. split.
  - f_equal. apply run_ext. intros s. rewrite S1, S2.
    assert (Hin : forall a, In a args <-> In a args').
    { intros a. rewrite <- !list_elem_of_In. rewrite Hp. reflexivity. }
    rewrite !Hin. split; intros [Hs|[(a & Ha & Hl)|Hs]]; auto.
    + right; left. exists a. split; [apply Hin; exact Ha | exact Hl].
    + right; left. exists a. split; [apply Hin; exact Ha | exact Hl].
  - eexists. split; [reflexivity|]. intros titles Ht.
    exact (run_general_first stod t inp o1 titles Ht).
Qed.

Lemma accepted_flags_diskls :
  Forall (fun a => known diskls a = true /\ stops a = false) ["-d"; "--no-color"] /\
  exists o',
    parseArgs diskls (mkOptions [] true) ["-d"; "--no-color"] = Continue o' /\
    use_colors o' = false.
Proof.
  assert (H : Forall (fun a => known diskls a = true /\ stops a = false)
                ["-d"; "--no-color"]) by (repeat constructor).
  split; [exact H|].
  destruct (accepted_flags diskls (mkOptions [] true) ["-d"; "--no-color"] H)
    as (o' & E & C & _).
  exists o'. split; [exact E | exact C].
Defined.

Lemma plain_diagnostic_diskls :
  (Forall (fun a => known diskls a = true /\ stops a = false) ["-d"; "--no-color"] /\
   known diskls "--bogus" = false /\
   (use_colors (mkOptions [] true) = false \/ In "--no-color" ["-d"; "--no-color"])) /\
  parseArgs diskls (mkOptions [] true) (["-d"; "--no-color"] ++ "--bogus" :: []) =
    Exit 1 no_banner
      ("diskls: invalid option -- '--bogus'" ++ endl
       ++ "Try 'diskls --help' for more information." ++ endl).
Proof.
  assert (Hp : Forall (fun a => known diskls a = true /\ stops a = false)
                 ["-d"; "--no-color"]) by (repeat constructor).
  assert (Ha : known diskls "--bogus" = false) by reflexivity.
  assert (Hc : use_colors (mkOptions [] true) = false \/ In "--no-color" ["-d"; "--no-color"])
    by (right; right; left; reflexivity).
  split; [repeat split; assumption|].
  exact (proj1 (plain_diagnostic diskls (mkOptions [] true) ["-d"; "--no-color"]
                  "--bogus" [] Hp Ha Hc)).
Defined.

Lemma report_ignores_flag_order_meminfo :
  (Permutation ["-p"; "-s"] ["-s"; "-p"] /\
   Forall (fun a => known meminfo a = true /\ stops a = false) ["-p"; "-s"]) /\
  report CpuInfo.stod_decimal meminfo Fixtures.no_swap plain ["-p"; "-s"]
  = report CpuInfo.stod_decimal meminfo Fixtures.no_swap plain ["-s"; "-p"].
Proof.
  assert (Hp : Permutation ["-p"; "-s"] ["-s"; "-p"]) by apply perm_swap.
  assert (H : Forall (fun a => known meminfo a = true /\ stops a = false) ["-p"; "-s"])
    by (repeat constructor).
  split; [split; assumption|].
  exact (proj1 (report_ignores_flag_order CpuInfo.stod_decimal meminfo Fixtures.no_swap
                  plain ["-p"; "-s"] ["-s"; "-p"] Hp H)).
Defined.

(** The titled sections of some runs: -a selects every section; the swap
    section of meminfo is printed for -s and also, without a flag, when
    SwapTotal is positive; a [siblings] value that is not a number ends
    cpuinfo, and an empty value in os-release ends osinfo, before the first
    title. *)
Example titled_sections :
  report CpuInfo.stod_decimal cpuinfo Fixtures.no_swap plain ["-a"]
    = Some (Titles ["CPU Information"; "CPU Load"; "CPU Frequency"; "CPU Topology"]) /\
  report CpuInfo.stod_decimal meminfo Fixtures.no_swap plain ["-s"; "-p"]
    = Some (Titles ["Memory Information"; "Swap Information"; "Top Memory Consumers"]) /\
  report CpuInfo.stod_decimal meminfo Fixtures.no_swap plain []
    = Some (Titles ["Memory Information"]) /\
  report CpuInfo.stod_decimal meminfo Fixtures.with_swap plain []
    = Some (Titles ["Memory Information"; "Swap Information"]) /\
  report CpuInfo.stod_decimal diskls Fixtures.no_swap plain ["-m"]
    = Some (Titles ["Disk Information"; "Mount Information"]) /\
  report CpuInfo.stod_decimal osinfo Fixtures.no_swap plain []
    = Some (Titles ["System Information"]) /\
  report CpuInfo.stod_decimal cpuinfo Fixtures.with_swap plain ["-a"]
    = Some (Thrown invalid_argument) /\
  report CpuInfo.stod_decimal osinfo Fixtures.with_swap plain ["-a"]
    = Some Undefined.
Proof. repeat split; reflexivity. Qed.

End CliMore.
